(** * Palmtree run-data decoder: a shallow embedding of [Python/palmtree.py]

    The development models [load_data], [__read_packages] and
    [_allocate_array] of [Python/palmtree.py] (and [allocate_array] of
    [Python/misc.py]) as programs of a small state-and-exception monad, and
    proves properties of the decoder about them.

    - A file is the list of its bytes; the open file object is a read cursor.
    - The [header] dictionary is a finite map from field names to Python
      values.  It is one object, mutated in place by [load_data] and by
      [__read_packages]; the model keeps it in the state of the monad.
    - A float64 is its IEEE-754 bit pattern (a [Z] below [2^64]); the decoder
      only moves floats around, it never computes with them.
    - Python exceptions are results of the monad; [while] loops take fuel and
      the development proves that the fuel given by [load_data] is never
      used up. *)

From Stdlib Require Import ZArith Lia List String Ascii.
From Stdlib Require Import Strings.Byte.
From stdpp Require Import base gmap strings list.

Local Open Scope string_scope.
Local Open Scope list_scope.
Local Open Scope Z_scope.

(** ** Python values and exceptions *)

(** The values stored in the header dictionary. *)
Inductive pyval :=
| PInt (z : Z)
| PBool (b : bool)
| PFloat (bits : Z)
| PStr (s : string)
| PList (l : list Z)               (* a list of ints *)
| PStrs (l : list string).         (* a list of strs *)

(** The exception classes that the decoder and the library calls it makes can
    raise. *)
Inductive exn :=
| TypeError
| ValueError
| IndexError
| KeyError
| ZeroDivisionError
| UnboundLocalError
| UnicodeDecodeError
| StructError
| MemoryError
| OSError.

Inductive level := LError | LWarning.

(** Observable effects other than reading the file: log records (the text of
    a message is not modelled, only the evaluation of the expression that
    builds it where that can raise), the steps of an allocation, and the
    regions of the matrix that are assigned to. *)
Inductive event :=
| EvLog (l : level)
| EvEmpty (rows cols : Z)          (* np.empty succeeded for this shape *)
| EvMemCheck                       (* psutil.virtual_memory() was consulted *)
| EvFill (rows cols : nat)         (* data.fill committed the allocation *)
| EvWrite (r0 r1 c0 c1 : nat).     (* cells [r0,r1) x [c0,c1) were assigned *)

(** What the decoder can observe of the machine's memory. *)
Record mem_env := MemEnv {
  np_empty_ok : Z -> bool;         (* can np.empty obtain this many bytes? *)
  mem_available : Z;               (* virtual_memory().available *)
  mem_used : Z                     (* virtual_memory().used *)
}.

(** ** float64 arrays *)

(** A two-dimensional float64 array: its shape and its rows, each cell an
    IEEE-754 bit pattern. *)
Record ndarray := NdArray {
  nrows : nat;
  ncols : nat;
  rows : list (list Z)
}.

(** The bit pattern of [np.nan]. *)
Definition np_nan : Z := 0x7FF8000000000000.

(** The float64 that a Python int is converted to when it is stored in a
    float64 cell; exact for [0 <= n < 2^53], which covers the 32-bit sample
    identifiers the decoder stores. *)
Definition float64_of_int (n : Z) : Z :=
  if n <=? 0 then 0
  else let e := Z.log2 n in
       Z.shiftl (1023 + e) 52 + Z.shiftl (n - 2 ^ e) (52 - e).

Definition cell (a : ndarray) (r c : nat) : option Z :=
  match rows a !! r with
  | Some row => row !! c
  | None => None
  end.

(** [data.fill(v)] on an array of the given shape. *)
Definition np_full (nr nc : nat) (v : Z) : ndarray :=
  {| nrows := nr; ncols := nc; rows := replicate nr (replicate nc v) |}.

(** Replace the cells for which [f] gives a value. *)
Definition update_cells (a : ndarray) (f : nat -> nat -> option Z) : ndarray :=
  {| nrows := nrows a; ncols := ncols a;
     rows := imap (fun r row => imap (fun c x => default x (f r c)) row) (rows a) |}.

(** A basic slice [lo:hi] of an axis of length [n], for the non-negative
    bounds the decoder uses: both ends are clipped to the axis. *)
Definition slice_clip (lo hi : Z) (n : nat) : nat * nat :=
  let start := Nat.min (Z.to_nat lo) n in
  let stop := Nat.min (Z.to_nat hi) n in
  (start, Nat.max start stop).

(** Can a source axis of length [s] be broadcast to a target axis of length
    [d]? *)
Definition broadcastable (s d : nat) : bool :=
  (s =? d)%nat || (s =? 1)%nat.

Definition in_range (lo hi i : nat) : bool :=
  (lo <=? i)%nat && (i <? hi)%nat.

(** The cell of [src] that lands on cell [(r, c)] of the target region
    starting at [(r0, c0)], with axes of length one broadcast. *)
Definition src_cell (src : ndarray) (r0 c0 r c : nat) : option Z :=
  cell src (if (nrows src =? 1)%nat then 0%nat else (r - r0)%nat)
           (if (ncols src =? 1)%nat then 0%nat else (c - c0)%nat).

(** [np.reshape(values, (-1, k))]: the length of [values] must be a multiple
    of [k], and the missing dimension cannot be inferred when [k] is zero. *)
Fixpoint chunks_of (k : nat) (n : nat) (l : list Z) : list (list Z) :=
  match n with
  | O => []
  | S n' => take k l :: chunks_of k n' (drop k l)
  end.

Definition np_reshape (values : list Z) (k : Z) : option ndarray :=
  if k <=? 0 then None
  else if Z.of_nat (length values) mod k =? 0
       then let kn := Z.to_nat k in
            let n := (length values / kn)%nat in
            Some {| nrows := n; ncols := kn; rows := chunks_of kn n values |}
       else None.

(** ** Bytes and strings *)

Definition byte_val (b : byte) : Z := Z.of_N (Byte.to_N b).

(** [int.from_bytes(bs, byteorder='little')]. *)
Fixpoint int_from_bytes (bs : list byte) : Z :=
  match bs with
  | [] => 0
  | b :: rest => byte_val b + 256 * int_from_bytes rest
  end.

(** The 8-byte groups of a byte string as little-endian float64 patterns. *)
Fixpoint floats_of_bytes (n : nat) (bs : list byte) : list Z :=
  match n with
  | O => []
  | S n' => int_from_bytes (take 8 bs) :: floats_of_bytes n' (drop 8 bs)
  end.

Definition ascii_lower (c : ascii) : ascii :=
  let n := N_of_ascii c in
  if ((65 <=? n) && (n <=? 90))%N then ascii_of_N (n + 32) else c.

(** [str.lower()] on a string of ASCII characters. *)
Fixpoint str_lower (s : string) : string :=
  match s with
  | EmptyString => EmptyString
  | String c s' => String (ascii_lower c) (str_lower s')
  end.

(** [str.split(sep)] for a one-character separator. *)
Fixpoint str_split (sep : ascii) (s : string) : list string :=
  match s with
  | EmptyString => [EmptyString]
  | String c s' =>
      if Ascii.eqb c sep then EmptyString :: str_split sep s'
      else match str_split sep s' with
           | x :: xs => String c x :: xs
           | [] => [String c EmptyString]
           end
  end.

Definition tab : ascii := ascii_of_N 9.

(** ** The monad: a read cursor, the header dictionary and a trace *)

Record world := World {
  cursor : Z;
  header : gmap string pyval;
  trace : list event
}.

Inductive result (A : Type) :=
| Ok (a : A)
| Raise (e : exn)
| Diverge.                         (* a loop of the model ran out of fuel *)
Arguments Ok {A} a.
Arguments Raise {A} e.
Arguments Diverge {A}.

Definition M (A : Type) : Type := world -> result A * world.

Definition ret {A} (a : A) : M A := fun w => (Ok a, w).
Definition raise {A} (e : exn) : M A := fun w => (Raise e, w).
Definition diverge {A} : M A := fun w => (Diverge, w).

Definition bind {A B} (m : M A) (k : A -> M B) : M B :=
  fun w =>
    match m w with
    | (Ok a, w') => k a w'
    | (Raise e, w') => (Raise e, w')
    | (Diverge, w') => (Diverge, w')
    end.

(** [try: m  except <handled by h>]. *)
Definition try_except {A} (m : M A) (h : exn -> M A) : M A :=
  fun w =>
    match m w with
    | (Raise e, w') => h e w'
    | r => r
    end.

Notation "x <- m ;; k" := (bind m (fun x => k))
  (at level 100, m at next level, right associativity).
Notation "m ;; k" := (bind m (fun _ => k))
  (at level 100, right associativity).

Definition emit (e : event) : M unit :=
  fun w => (Ok tt, {| cursor := cursor w; header := header w; trace := trace w ++ [e] |}).

Definition logging_error : M unit := emit (EvLog LError).
Definition logging_warning : M unit := emit (EvLog LWarning).

(** [header = {}] *)
Definition hclear : M unit :=
  fun w => (Ok tt, {| cursor := cursor w; header := ∅; trace := trace w |}).

(** [header[k] = v] *)
Definition hset (k : string) (v : pyval) : M unit :=
  fun w => (Ok tt, {| cursor := cursor w; header := <[k := v]> (header w); trace := trace w |}).

(** [header[k]] *)
Definition hget (k : string) : M pyval :=
  fun w => match header w !! k with
           | Some v => (Ok v, w)
           | None => (Raise KeyError, w)
           end.

(** [k in header] *)
Definition hmem (k : string) : M bool :=
  fun w => (Ok (bool_decide (is_Some (header w !! k))), w).

(** [header[k]] used as a number. *)
Definition hget_int (k : string) : M Z :=
  v <- hget k ;;
  match v with
  | PInt z => ret z
  | PBool b => ret (if b then 1 else 0)
  | _ => raise TypeError
  end.

(** The truth value of a Python object. *)
Definition py_truth (v : pyval) : bool :=
  match v with
  | PInt z => negb (z =? 0)
  | PBool b => b
  | PFloat bits => negb (Z.land bits 0x7FFFFFFFFFFFFFFF =? 0)
  | PStr s => negb (String.eqb s "")
  | PList l => match l with [] => false | _ => true end
  | PStrs l => match l with [] => false | _ => true end
  end.

(** [a + b] on the operand types that occur in the decoder. *)
Definition py_add (a b : pyval) : M pyval :=
  match a, b with
  | PInt x, PInt y => ret (PInt (x + y))
  | PStr x, PStr y => ret (PStr (x +:+ y))
  | PList x, PList y => ret (PList (x ++ y))
  | PStrs x, PStrs y => ret (PStrs (x ++ y))
  | _, _ => raise TypeError
  end.

(** [header[k].append(v)] for an int [v]. *)
Definition happend (k : string) (v : Z) : M unit :=
  l <- hget k ;;
  match l with
  | PList xs => hset k (PList (xs ++ [v]))
  | _ => raise TypeError
  end.

(** [max(l)] on a list of ints; the maximum of an empty list is an error. *)
Definition py_max (v : pyval) : M pyval :=
  match v with
  | PList [] => raise ValueError
  | PList (x :: rest) => ret (PInt (fold_left Z.max rest x))
  | PStrs [] => raise ValueError
  | _ => raise TypeError
  end.

(** [floor(a / b)]: the true division raises on a zero divisor; the floor of
    the float quotient is the integer floor for the operands below [2^53]
    that file sizes are. *)
Definition py_floor_div (a b : Z) : M Z :=
  if b =? 0 then raise ZeroDivisionError else ret (a / b).

(** [bytes.decode('ascii')] *)
Definition decode_ascii (bs : list byte) : M string :=
  if forallb (fun b => byte_val b <? 128) bs
  then ret (string_of_list_byte bs)
  else raise UnicodeDecodeError.

(** [struct.unpack('<d', bs)[0]] *)
Definition struct_unpack_d (bs : list byte) : M Z :=
  if (length bs =? 8)%nat then ret (int_from_bytes bs) else raise StructError.

(** [x in (a, b, ...)] and [x == a] for ints. *)
Definition py_in_ints (v : pyval) (l : list Z) : bool :=
  match v with
  | PInt z => existsb (Z.eqb z) l
  | PBool b => existsb (Z.eqb (if b then 1 else 0)) l
  | _ => false
  end.

Definition py_eq_int (v : pyval) (z : Z) : bool := py_in_ints v [z].

(** [header[k]] used as a str (its [lower] method is called). *)
Definition hget_str (k : string) : M string :=
  v <- hget k ;;
  match v with
  | PStr s => ret s
  | _ => raise TypeError
  end.

(** The dictionary itself, for [return header, ...]. *)
Definition get_header : M (gmap string pyval) := fun w => (Ok (header w), w).

(** Reading a local variable that may not have been assigned yet. *)
Definition local_get {A} (x : option A) : M A :=
  match x with
  | Some a => ret a
  | None => raise UnboundLocalError
  end.

(** ** Assignments to the matrix

    All indices and slice bounds the decoder computes are non-negative, so
    Python's wrap-around of negative indices is not modelled.  An integer
    index must be inside its axis; a slice is clipped to it; the source must
    broadcast to the shape of the target. *)

Definition block_update (data : ndarray) (ra rb ca cb : nat) (src : ndarray) : ndarray :=
  update_cells data
    (fun r c => if in_range ra rb r && in_range ca cb c
                then src_cell src ra ca r c else None).

(** [data[r0:r1, c0:c1] = src] *)
Definition setitem_block (data : ndarray) (r0 r1 c0 c1 : Z) (src : ndarray) : M ndarray :=
  let '(ra, rb) := slice_clip r0 r1 (nrows data) in
  let '(ca, cb) := slice_clip c0 c1 (ncols data) in
  if broadcastable (nrows src) (rb - ra) && broadcastable (ncols src) (cb - ca)
  then emit (EvWrite ra rb ca cb) ;; ret (block_update data ra rb ca cb src)
  else raise ValueError.

Definition scalar (v : Z) : ndarray := {| nrows := 1; ncols := 1; rows := [[v]] |}.
Definition row_vector (vs : list Z) : ndarray :=
  {| nrows := 1; ncols := length vs; rows := [vs] |}.

Definition index_ok (i : Z) (n : nat) : bool := (0 <=? i) && (i <? Z.of_nat n).

(** [data[r0:r1, c] = v] *)
Definition setitem_col (data : ndarray) (r0 r1 c : Z) (v : Z) : M ndarray :=
  if index_ok c (ncols data)
  then setitem_block data r0 r1 c (c + 1) (scalar v)
  else raise IndexError.

(** [data[r, c] = v] *)
Definition setitem_cell (data : ndarray) (r c : Z) (v : Z) : M ndarray :=
  if index_ok r (nrows data) && index_ok c (ncols data)
  then setitem_block data r (r + 1) c (c + 1) (scalar v)
  else raise IndexError.

(** [data[r, c0:c1] = values] for a one-dimensional [values] *)
Definition setitem_row (data : ndarray) (r c0 c1 : Z) (values : list Z) : M ndarray :=
  if index_ok r (nrows data)
  then setitem_block data r (r + 1) c0 c1 (row_vector values)
  else raise IndexError.

(** [np.reshape(values, (-1, k))] *)
Definition reshape_rows (values : list Z) (k : Z) : M ndarray :=
  match np_reshape values k with
  | Some a => ret a
  | None => raise ValueError
  end.

(** Leaving a loop body: go on with the next iteration, or return from the
    enclosing function. *)
Inductive ctl (L R : Type) :=
| Next (l : L)
| Return (r : R).
Arguments Next {L R} l.
Arguments Return {L R} r.

Section Decoder.

(** The machine's memory and the bytes of the file at [filepath]. *)
Variable env : mem_env.
Variable file : list byte.

(** *** The file object *)

Definition set_cursor (p : Z) : M unit :=
  fun w => (Ok tt, {| cursor := p; header := header w; trace := trace w |}).

(** [file.tell()] *)
Definition file_tell : M Z := fun w => (Ok (cursor w), w).

(** [file.read(n)]: the bytes from the cursor on, at most [n] of them. *)
Definition file_read (n : Z) : M (list byte) :=
  fun w =>
    let bs := take (Z.to_nat n) (drop (Z.to_nat (cursor w)) file) in
    (Ok bs, {| cursor := cursor w + Z.of_nat (length bs);
               header := header w; trace := trace w |}).

(** [file.seek(off, 0)] and [file.seek(off, 1)]; seeking past the end is
    allowed, seeking before the start is an error. *)
Definition file_seek (off : Z) (whence : Z) : M unit :=
  p <- file_tell ;;
  let target := if whence =? 0 then off else p + off in
  if target <? 0 then raise OSError else set_cursor target.

(** [np.fromfile(file, dtype='<d', count=count)]: the items that are
    completely in the file, at most [count] of them ([count < 0]: all). *)
Definition np_fromfile (count : Z) : M (list Z) :=
  fun w =>
    let rest := drop (Z.to_nat (cursor w)) file in
    let avail := (length rest / 8)%nat in
    let n := if count <? 0 then avail else Nat.min (Z.to_nat count) avail in
    (Ok (floats_of_bytes n rest),
     {| cursor := cursor w + 8 * Z.of_nat n; header := header w; trace := trace w |}).

(** [os.path.getsize(filepath)] *)
Definition getsize : Z := Z.of_nat (length file).

(** *** Allocation: [_allocate_array] of palmtree.py, [allocate_array] of misc.py *)

(** [np.empty(dimensions, dtype='float64')]: creates the array object; its
    contents are not initialised, so the model keeps only the shape. *)
Definition np_empty (dims : Z * Z) : M (nat * nat) :=
  let '(r, c) := dims in
  if (r <? 0) || (c <? 0) then raise ValueError
  else if np_empty_ok env (8 * r * c)
       then emit (EvEmpty r c) ;; ret (Z.to_nat r, Z.to_nat c)
       else raise MemoryError.

(** [data.nbytes] *)
Definition nbytes (shape : nat * nat) : Z :=
  8 * Z.of_nat (fst shape) * Z.of_nat (snd shape).

(** [mem = virtual_memory()]; the result is the pair (available, used). *)
Definition virtual_memory : M (Z * Z) :=
  emit EvMemCheck ;; ret (mem_available env, mem_used env).

(** [data.fill(fill_value)] *)
Definition np_fill (shape : nat * nat) (fill_value : Z) : M ndarray :=
  emit (EvFill (fst shape) (snd shape)) ;;
  ret (np_full (fst shape) (snd shape) fill_value).

(** The [except MemoryError:] clause of both allocators.  The message it
    logs is built from [mem.used] and [data_bytes_needed]; [mem] and
    [needed] are these locals, [None] while they are not assigned. *)
Definition alloc_handler (mem : option (Z * Z)) (needed : option Z)
    (e : exn) : M (option ndarray) :=
  match e with
  | MemoryError =>
      _ <- local_get mem ;;
      _ <- local_get needed ;;
      logging_error ;;
      ret None
  | _ => raise e
  end.

(** [_allocate_array(dimensions, fill_value=np.nan, dtype='float64',
    check_mem=False)] of palmtree.py (the dtype is always float64). *)
Definition _allocate_array (dimensions : Z * Z) (fill_value : Z)
    (check_mem : bool) : M (option ndarray) :=
  shape <- try_except (s <- np_empty dimensions ;; ret (Some s))
                      (fun e => _ <- alloc_handler None None e ;; ret None) ;;
  match shape with
  | None => ret None
  | Some shape =>
      let data_bytes_needed := nbytes shape in
      if check_mem then
        mem <- virtual_memory ;;
        if fst mem <=? data_bytes_needed
        then alloc_handler (Some mem) (Some data_bytes_needed) MemoryError
        else data <- np_fill shape fill_value ;; ret (Some data)
      else data <- np_fill shape fill_value ;; ret (Some data)
  end.

(** [allocate_array(dimensions, fill_value=np.nan, dtype='float64')] of
    misc.py: the memory check is not optional there. *)
Definition allocate_array (dimensions : Z * Z) (fill_value : Z)
    : M (option ndarray) :=
  shape <- try_except (s <- np_empty dimensions ;; ret (Some s))
                      (fun e => _ <- alloc_handler None None e ;; ret None) ;;
  match shape with
  | None => ret None
  | Some shape =>
      let data_bytes_needed := nbytes shape in
      mem <- virtual_memory ;;
      if fst mem <=? data_bytes_needed
      then alloc_handler (Some mem) (Some data_bytes_needed) MemoryError
      else data <- np_fill shape fill_value ;; ret (Some data)
  end.

(** *** [__read_packages(file, header, file_type, read_data)] *)

(** The locals of [__read_packages] that live across iterations of the
    package loop.  [num_samples] is assigned inside the loops only, so it
    can be unassigned when it is read; [row_index] is assigned (to 0) only
    when [read_data] and read only then. *)
Record locals := Locals {
  data : option ndarray;
  row_index : Z;
  num_samples : option Z
}.

(** [data[...] = ...] needs an array: assigning into [None] is a
    [TypeError]. *)
Definition the_data (d : option ndarray) : M ndarray :=
  match d with
  | Some a => ret a
  | None => raise TypeError
  end.

Section Packages.

Variable file_type : Z.
Variable read_data : bool.
Variable includes_input_time : bool.
Variable package_header_size : Z.
Variable data_num_header_columns : Z.

(** The locals of the chunk loop (lines 237-274): [stream_index],
    [num_samples] and the matrix. *)
Definition chunk_locals : Type := Z * option Z * option ndarray.

(** Lines 241-274: the sample-chunks of one sample-package. *)
Fixpoint chunk_loop (fuel : nat) (row_index : Z) (l : chunk_locals)
    : M (ctl chunk_locals (bool * option ndarray)) :=
  let '(stream_index, num_samples, data) := l in
  hns <- hget_int "num_streams" ;;
  more <- (if stream_index <? hns
           then pos <- file_tell ;;
                fs <- hget_int "file_size" ;;
                ret (pos + 4 <=? fs)
           else ret false) ;;
  if more : bool then
    match fuel with
    | O => diverge
    | S fuel' =>
        b <- file_read 2 ;;
        let num_streams := int_from_bytes b in
        b <- file_read 2 ;;
        let num_samples := int_from_bytes b in
        let num_values := num_streams * num_samples in
        pos <- file_tell ;;
        fs <- hget_int "file_size" ;;
        if pos + num_values * 8 <=? fs then
          if read_data then
            values <- np_fromfile num_values ;;
            block <- reshape_rows values num_streams ;;
            d <- the_data data ;;
            d <- setitem_block d row_index (row_index + num_samples)
                   (data_num_header_columns + stream_index)
                   (data_num_header_columns + stream_index + num_streams)
                   block ;;
            chunk_loop fuel' row_index
              (stream_index + num_streams, Some num_samples, Some d)
          else
            file_seek (num_values * 8) 1 ;;
            chunk_loop fuel' row_index
              (stream_index + num_streams, Some num_samples, data)
        else
          if negb read_data then
            logging_warning ;;
            ret (Return (true, None))
          else
            chunk_loop fuel' row_index
              (stream_index + num_streams, Some num_samples, data)
    end
  else ret (Next l).

(** Lines 219-230: the sample-package header.  When reading the data it
    yields [sample_id], [elapsed] and [source_input_time]; the counting
    pass skips the bytes and leaves the three unassigned. *)
Definition read_package_header : M (option Z * option Z * option Z) :=
  if read_data then
    b <- file_read 4 ;;
    let sample_id := int_from_bytes b in
    b <- file_read 8 ;;
    elapsed <- struct_unpack_d b ;;
    if includes_input_time then
      b <- file_read 8 ;;
      source_input_time <- struct_unpack_d b ;;
      ret (Some sample_id, Some elapsed, Some source_input_time)
    else ret (Some sample_id, Some elapsed, None)
  else
    (if includes_input_time then file_seek (4 + 8 + 8) 1
     else file_seek (4 + 8) 1) ;;
    ret (None, None, None).

(** Lines 233-305: a package of pipeline data in which some stream has
    more than one sample. *)
Definition read_chunked_package (fuel : nat) (l : locals)
    (sample_id elapsed : option Z)
    : M (ctl locals (bool * option ndarray)) :=
  r <- chunk_loop fuel (row_index l) (0, num_samples l, data l) ;;
  match r with
  | Return v => ret (Return v)
  | Next (stream_index, num_samples, data) =>
      if negb read_data then
        hns <- hget_int "num_streams" ;;
        if stream_index =? hns then
          ts <- hget_int "total_samples" ;;
          n <- local_get num_samples ;;
          hset "total_samples" (PInt (ts + n)) ;;
          tp <- hget_int "total_packages" ;;
          hset "total_packages" (PInt (tp + 1)) ;;
          ret (Next {| data := data; row_index := row_index l;
                       num_samples := num_samples |})
        else
          logging_warning ;;
          ret (Return (true, None))
      else
        sid <- local_get sample_id ;;
        d <- the_data data ;;
        n <- local_get num_samples ;;
        d <- setitem_col d (row_index l) (row_index l + n) 0 (float64_of_int sid) ;;
        el <- local_get elapsed ;;
        n <- local_get num_samples ;;
        d <- setitem_col d (row_index l) (row_index l + n) 1 el ;;
        n <- local_get num_samples ;;
        ret (Next {| data := Some d; row_index := row_index l + n;
                     num_samples := num_samples |})
  end.

(** Lines 307-370: source data, or pipeline data with one sample per
    stream. *)
Definition read_flat_package (l : locals)
    (sample_id elapsed source_input_time : option Z)
    : M (ctl locals (bool * option ndarray)) :=
  sv <- (if file_type =? 0 then
           b <- file_read 2 ;;
           let num_samples := int_from_bytes b in
           hns <- hget_int "num_streams" ;;
           ret (num_samples, hns * num_samples)
         else
           hns <- hget_int "num_streams" ;;
           ret (1, hns)) ;;
  let '(num_samples, num_values) := sv in
  pos <- file_tell ;;
  fs <- hget_int "file_size" ;;
  if pos + num_values * 8 <=? fs then
    if read_data then
      d <- (if num_samples =? 1 then
              sid <- local_get sample_id ;;
              d <- the_data (data l) ;;
              d <- setitem_cell d (row_index l) 0 (float64_of_int sid) ;;
              el <- local_get elapsed ;;
              d <- setitem_cell d (row_index l) 1 el ;;
              d <- (if includes_input_time then
                      t <- local_get source_input_time ;;
                      setitem_cell d (row_index l) 2 t
                    else ret d) ;;
              values <- np_fromfile num_values ;;
              hns <- hget_int "num_streams" ;;
              setitem_row d (row_index l) data_num_header_columns
                (data_num_header_columns + hns) values
            else
              sid <- local_get sample_id ;;
              d <- the_data (data l) ;;
              d <- setitem_col d (row_index l) (row_index l + num_samples) 0
                     (float64_of_int sid) ;;
              el <- local_get elapsed ;;
              d <- setitem_col d (row_index l) (row_index l + num_samples) 1 el ;;
              d <- (if includes_input_time then
                      t <- local_get source_input_time ;;
                      setitem_col d (row_index l) (row_index l + num_samples) 2 t
                    else ret d) ;;
              values <- np_fromfile num_values ;;
              hns <- hget_int "num_streams" ;;
              block <- reshape_rows values hns ;;
              hns <- hget_int "num_streams" ;;
              setitem_block d (row_index l) (row_index l + num_samples)
                data_num_header_columns (data_num_header_columns + hns) block) ;;
      ret (Next {| data := Some d; row_index := row_index l + num_samples;
                   num_samples := Some num_samples |})
    else
      ts <- hget_int "total_samples" ;;
      hset "total_samples" (PInt (ts + num_samples)) ;;
      tp <- hget_int "total_packages" ;;
      hset "total_packages" (PInt (tp + 1)) ;;
      file_seek (num_values * 8) 1 ;;
      ret (Next {| data := data l; row_index := row_index l;
                   num_samples := Some num_samples |})
  else
    (if negb read_data then logging_warning else ret tt) ;;
    ret (Return (true, data l)).

(** Lines 219-370: one iteration of the package loop. *)
Definition read_package (fuel : nat) (l : locals)
    : M (ctl locals (bool * option ndarray)) :=
  h <- read_package_header ;;
  let '(sample_id, elapsed, source_input_time) := h in
  chunked <- (if file_type =? 1
              then mss <- hget_int "max_samples_stream" ;; ret (1 <? mss)
              else ret false) ;;
  if chunked : bool
  then read_chunked_package fuel l sample_id elapsed
  else read_flat_package l sample_id elapsed source_input_time.

(** Lines 217-373: the package loop and the final [return True, data]. *)
Fixpoint package_loop (fuel : nat) (chunk_fuel : nat) (l : locals)
    : M (bool * option ndarray) :=
  pos <- file_tell ;;
  fs <- hget_int "file_size" ;;
  if pos + package_header_size <=? fs then
    match fuel with
    | O => diverge
    | S fuel' =>
        c <- read_package chunk_fuel l ;;
        match c with
        | Next l' => package_loop fuel' chunk_fuel l'
        | Return r => ret r
        end
    end
  else ret (true, data l).

End Packages.

(** Every iteration of either loop consumes at least one byte that lies
    inside the file, so this many iterations are never exceeded (see
    [load_data_returns]). *)
Definition loop_fuel : nat := S (length file).

Definition __read_packages (file_type : Z) (read_data : bool)
    : M (bool * option ndarray) :=
  (* data = None *)
  includes_input_time <-
    (if file_type =? 0 then
       present <- hmem "includes_source_input_time" ;;
       if present : bool
       then v <- hget "includes_source_input_time" ;; ret (py_truth v)
       else ret false
     else ret false) ;;
  pds <- hget_int "pos_data_start" ;;
  file_seek pds 0 ;;
  sizes <- (if file_type =? 0 then
              if includes_input_time : bool then ret (Some (22, 3))
              else ret (Some (14, 2))
            else if file_type =? 1 then ret (Some (12, 2))
            else logging_error ;; ret None) ;;
  match sizes with
  | None => ret (false, None)
  | Some (package_header_size, data_num_header_columns) =>
      if read_data then
        ts <- hget_int "total_samples" ;;
        hns <- hget_int "num_streams" ;;
        d <- _allocate_array (ts, hns + data_num_header_columns) np_nan false ;;
        match d with
        | None => ret (false, None)
        | Some d =>
            package_loop file_type read_data includes_input_time
              package_header_size data_num_header_columns loop_fuel loop_fuel
              {| data := Some d; row_index := 0; num_samples := None |}
        end
      else
        package_loop file_type read_data includes_input_time
          package_header_size data_num_header_columns loop_fuel loop_fuel
          {| data := None; row_index := 0; num_samples := None |}
  end.

(** *** [load_data(filepath, read_data=True)] *)

(** Lines 82-84: the details of each stream. *)
Fixpoint read_stream_details (n : nat) : M unit :=
  match n with
  | O => ret tt
  | S n' =>
      b <- file_read 1 ;;
      happend "stream_data_types" (int_from_bytes b) ;;
      b <- file_read 2 ;;
      happend "stream_samples_per_package" (int_from_bytes b) ;;
      read_stream_details n'
  end.

(** Lines 61-92: the header fields after the version. *)
Definition read_header_fields : M unit :=
  b <- file_read 3 ;;
  code <- decode_ascii b ;;
  hset "code" (PStr code) ;;
  v <- hget "version" ;;
  (if py_in_ints v [2; 3] then
     b <- file_read 8 ;;
     hset "run_start_epoch" (PInt (int_from_bytes b)) ;;
     b <- file_read 8 ;;
     hset "file_start_epoch" (PInt (int_from_bytes b))
   else ret tt) ;;
  code <- hget_str "code" ;;
  src_v3 <- (if String.eqb (str_lower code) "src"
             then v <- hget "version" ;; ret (py_eq_int v 3)
             else ret false) ;;
  (if src_v3 : bool then
     b <- file_read 1 ;;
     hset "includes_source_input_time" (PBool (negb (int_from_bytes b =? 0)))
   else ret tt) ;;
  b <- file_read 8 ;;
  sample_rate <- struct_unpack_d b ;;
  hset "sample_rate" (PFloat sample_rate) ;;
  b <- file_read 4 ;;
  hset "num_playback_streams" (PInt (int_from_bytes b)) ;;
  v <- hget "version" ;;
  (if py_in_ints v [2; 3] then
     b <- file_read 4 ;;
     hset "num_streams" (PInt (int_from_bytes b)) ;;
     hset "stream_data_types" (PList []) ;;
     hset "stream_samples_per_package" (PList []) ;;
     n <- hget_int "num_streams" ;;
     read_stream_details (Z.to_nat n)
   else ret tt) ;;
  b <- file_read 4 ;;
  hset "num_columns" (PInt (int_from_bytes b)) ;;
  b <- file_read 4 ;;
  hset "column_names_size" (PInt (int_from_bytes b)) ;;
  n <- hget_int "column_names_size" ;;
  b <- file_read n ;;
  names <- decode_ascii b ;;
  hset "column_names" (PStrs (str_split tab names)) ;;
  pos <- file_tell ;;
  hset "pos_data_start" (PInt pos).

(** Lines 98-103: 0 = source, 1 = pipeline, 2 = plugin. *)
Definition determine_file_type : M Z :=
  code <- hget_str "code" ;;
  let file_type := 2 in
  let file_type := if String.eqb (str_lower code) "src" then 0 else file_type in
  code <- hget_str "code" ;;
  let file_type := if String.eqb (str_lower code) "dat" then 1 else file_type in
  ret file_type.

(** Lines 129-136: the rows of a version 1 file. *)
Fixpoint read_rows_v1 (n : nat) (iRow : Z) (d : ndarray) : M ndarray :=
  match n with
  | O => ret d
  | S n' =>
      b <- file_read 4 ;;
      d <- setitem_cell d iRow 0 (float64_of_int (int_from_bytes b)) ;;
      nc <- hget_int "num_columns" ;;
      values <- np_fromfile (nc - 1) ;;
      nc <- hget_int "num_columns" ;;
      d <- setitem_row d iRow 1 nc values ;;
      read_rows_v1 n' (iRow + 1) d
  end.

(** The value of a [return header, data] statement; [None] stands for
    falling through to the statement after the block. *)
Definition returned : Type := option (option (gmap string pyval) * option ndarray).

(** Lines 106-139: version 1. *)
Definition load_v1 (file_type : Z) (read_data : bool) : M returned :=
  (if (file_type =? 0) || (file_type =? 1) then
     hset "row_size" (PInt 4) ;;
     rs <- hget_int "row_size" ;;
     nc <- hget_int "num_columns" ;;
     hset "row_size" (PInt (rs + (nc - 1) * 8))
   else
     nc <- hget_int "num_columns" ;;
     hset "row_size" (PInt (nc * 8))) ;;
  fs <- hget_int "file_size" ;;
  pds <- hget_int "pos_data_start" ;;
  rs <- hget_int "row_size" ;;
  q <- py_floor_div (fs - pds) rs ;;
  hset "num_rows" (PInt q) ;;
  if read_data then
    nr <- hget_int "num_rows" ;;
    nc <- hget_int "num_columns" ;;
    d <- _allocate_array (nr, nc) np_nan false ;;
    match d with
    | None => h <- get_header ;; ret (Some (Some h, None))
    | Some d =>
        nr <- hget_int "num_rows" ;;
        d <- read_rows_v1 (Z.to_nat nr) 0 d ;;
        h <- get_header ;;
        ret (Some (Some h, Some d))
    end
  else ret None.

(** Lines 141-162: versions 2 and 3. *)
Definition load_v23 (file_type : Z) (read_data : bool) : M returned :=
  hset "total_samples" (PInt 0) ;;
  hset "total_packages" (PInt 0) ;;
  spp <- hget "stream_samples_per_package" ;;
  m <- py_max spp ;;
  hset "max_samples_stream" m ;;
  r <- __read_packages file_type false ;;
  if fst r : bool then
    if read_data then
      r <- __read_packages file_type true ;;
      if fst r : bool then
        h <- get_header ;;
        ret (Some (Some h, snd r))
      else ret None
    else ret None
  else ret None.

(** Lines 53-56: the file size and the version. *)
Definition read_preamble : M unit :=
  hset "file_size" (PInt getsize) ;;
  b <- file_read 4 ;;
  hset "version" (PInt (int_from_bytes b)).

(** Lines 94-165: the extra fields and the data. *)
Definition read_contents (read_data : bool)
    : M (option (gmap string pyval) * option ndarray) :=
  file_type <- determine_file_type ;;
  v <- hget "version" ;;
  r <- (if py_eq_int v 1 then load_v1 file_type read_data
        else v <- hget "version" ;;
             if py_in_ints v [2; 3] then load_v23 file_type read_data
             else ret None) ;;
  match r with
  | Some r => ret r
  | None => h <- get_header ;; ret (Some h, None)
  end.

(** Lines 50-165: the [with open(filepath, "rb") as file:] block. *)
Definition with_file (read_data : bool)
    : M (option (gmap string pyval) * option ndarray) :=
  read_preamble ;;
  v <- hget "version" ;;
  if negb (py_in_ints v [1; 2; 3]) then
    v <- hget "version" ;;
    _ <- py_add (PStr "Error: unknown data version ") v ;;
    logging_error ;;
    h <- get_header ;;
    ret (Some h, None)
  else
    read_header_fields ;;
    read_contents read_data.

(** Lines 47-165: the body of the [try] statement, [header = {}] and the
    [with] block. *)
Definition load_data_body (read_data : bool)
    : M (option (gmap string pyval) * option ndarray) :=
  hclear ;;
  with_file read_data.

(** [load_data]: the body under its [except] clauses.  The file exists and
    is readable, so [open] succeeds; each of the three clauses logs an
    error and returns [(None, None)]. *)
Definition load_data (read_data : bool)
    : M (option (gmap string pyval) * option ndarray) :=
  try_except (load_data_body read_data)
    (fun e => logging_error ;; ret (None, None)).

End Decoder.

(** Running [load_data] on a file: the file object is fresh, nothing has been
    logged. *)
Definition start : world := {| cursor := 0; header := ∅; trace := [] |}.

Definition run_load_data (env : mem_env) (file : list byte) (read_data : bool)
    : result (option (gmap string pyval) * option ndarray) * world :=
  load_data env file read_data start.

(** The version tag of a file: its first four bytes. *)
Definition version_tag (file : list byte) : Z := int_from_bytes (take 4 file).

(** The world after lines 48-56. *)
Definition after_preamble (file : list byte) : world :=
  {| cursor := Z.of_nat (length (take 4 file));
     header := <["version" := PInt (version_tag file)]>
                 (<["file_size" := PInt (getsize file)]> ∅);
     trace := [] |}.

(** The header as parsed by lines 48-92, when they raise no exception. *)
Definition parsed_header (file : list byte) : option (gmap string pyval) :=
  match (hclear ;; read_preamble file ;; read_header_fields file) start with
  | (Ok _, w) => Some (header w)
  | _ => None
  end.

(** ** Example files *)

(** A version 2 pipeline file with two streams of 3 and 1 samples per package
    and one complete package: a chunk of 1 stream x 3 samples (values 1, 2,
    3), then a chunk of 1 stream x 1 sample (value 4). *)
Definition file_uneven_chunks : list byte :=
  [x02; x00; x00; x00; x64; x61; x74; x01; x00; x00; x00; x00; x00; x00; x00; x02;
   x00; x00; x00; x00; x00; x00; x00; x00; x00; x00; x00; x00; x00; x80; x40; x00;
   x00; x00; x00; x02; x00; x00; x00; x00; x03; x00; x00; x01; x00; x04; x00; x00;
   x00; x09; x00; x00; x00; x69; x64; x09; x6d; x73; x09; x61; x09; x62; x01; x00;
   x00; x00; x00; x00; x00; x00; x00; x00; xe0; x3f; x01; x00; x03; x00; x00; x00;
   x00; x00; x00; x00; xf0; x3f; x00; x00; x00; x00; x00; x00; x00; x40; x00; x00;
   x00; x00; x00; x00; x08; x40; x01; x00; x01; x00; x00; x00; x00; x00; x00; x00;
   x10; x40].

(** A version 3 pipeline file with two streams of 2 and 1 samples per package
    and two complete packages, each a chunk of 1 stream x 2 samples followed
    by a chunk of 1 stream x 1 sample. *)
Definition file_two_uneven_packages : list byte :=
  [x03; x00; x00; x00; x64; x61; x74; x01; x00; x00; x00; x00; x00; x00; x00; x02;
   x00; x00; x00; x00; x00; x00; x00; x00; x00; x00; x00; x00; x00; x80; x40; x00;
   x00; x00; x00; x02; x00; x00; x00; x00; x02; x00; x00; x01; x00; x04; x00; x00;
   x00; x09; x00; x00; x00; x69; x64; x09; x6d; x73; x09; x61; x09; x62; x01; x00;
   x00; x00; x00; x00; x00; x00; x00; x00; xe0; x3f; x01; x00; x02; x00; x00; x00;
   x00; x00; x00; x00; xf0; x3f; x00; x00; x00; x00; x00; x00; x00; x40; x01; x00;
   x01; x00; x00; x00; x00; x00; x00; x00; x08; x40; x02; x00; x00; x00; x00; x00;
   x00; x00; x00; x00; xe0; x3f; x01; x00; x02; x00; x00; x00; x00; x00; x00; x00;
   x10; x40; x00; x00; x00; x00; x00; x00; x14; x40; x01; x00; x01; x00; x00; x00;
   x00; x00; x00; x00; x18; x40].

(** A version 2 pipeline file with two streams of 2 and 3 samples per package:
    one complete package, then a package whose second chunk (1 stream x 3
    samples) is cut off after its second value. *)
Definition file_truncated_chunk : list byte :=
  [x02; x00; x00; x00; x64; x61; x74; x01; x00; x00; x00; x00; x00; x00; x00; x02;
   x00; x00; x00; x00; x00; x00; x00; x00; x00; x00; x00; x00; x00; x80; x40; x00;
   x00; x00; x00; x02; x00; x00; x00; x00; x02; x00; x00; x03; x00; x04; x00; x00;
   x00; x09; x00; x00; x00; x69; x64; x09; x6d; x73; x09; x61; x09; x62; x01; x00;
   x00; x00; x00; x00; x00; x00; x00; x00; xe0; x3f; x01; x00; x02; x00; x00; x00;
   x00; x00; x00; x00; xf0; x3f; x00; x00; x00; x00; x00; x00; x00; x40; x01; x00;
   x03; x00; x00; x00; x00; x00; x00; x00; x08; x40; x00; x00; x00; x00; x00; x00;
   x10; x40; x00; x00; x00; x00; x00; x00; x14; x40; x02; x00; x00; x00; x00; x00;
   x00; x00; x00; x00; xe0; x3f; x01; x00; x02; x00; x00; x00; x00; x00; x00; x00;
   x18; x40; x00; x00; x00; x00; x00; x00; x1c; x40; x01; x00; x03; x00; x00; x00;
   x00; x00; x00; x00; x20; x40; x00; x00; x00; x00; x00; x00; x22; x40].

(** The same file without its truncated last package. *)
Definition file_truncated_chunk_prefix : list byte :=
  [x02; x00; x00; x00; x64; x61; x74; x01; x00; x00; x00; x00; x00; x00; x00; x02;
   x00; x00; x00; x00; x00; x00; x00; x00; x00; x00; x00; x00; x00; x80; x40; x00;
   x00; x00; x00; x02; x00; x00; x00; x00; x02; x00; x00; x03; x00; x04; x00; x00;
   x00; x09; x00; x00; x00; x69; x64; x09; x6d; x73; x09; x61; x09; x62; x01; x00;
   x00; x00; x00; x00; x00; x00; x00; x00; xe0; x3f; x01; x00; x02; x00; x00; x00;
   x00; x00; x00; x00; xf0; x3f; x00; x00; x00; x00; x00; x00; x00; x40; x01; x00;
   x03; x00; x00; x00; x00; x00; x00; x00; x08; x40; x00; x00; x00; x00; x00; x00;
   x10; x40; x00; x00; x00; x00; x00; x00; x14; x40].

(** A version 1 plugin file with two columns and two rows of two doubles. *)
Definition file_v1_plugin : list byte :=
  [x01; x00; x00; x00; x70; x6c; x67; x00; x00; x00; x00; x00; x00; x80; x40; x00;
   x00; x00; x00; x02; x00; x00; x00; x03; x00; x00; x00; x61; x09; x62; x00; x00;
   x00; x00; x00; x00; xf0; x3f; x00; x00; x00; x00; x00; x00; x00; x40; x00; x00;
   x00; x00; x00; x00; x08; x40; x00; x00; x00; x00; x00; x00; x10; x40].

(** A version 2 pipeline file with two streams of 4 and 1 samples per package
    and one complete package. *)
Definition file_wide_first_chunk : list byte :=
  [x02; x00; x00; x00; x64; x61; x74; x01; x00; x00; x00; x00; x00; x00; x00; x02;
   x00; x00; x00; x00; x00; x00; x00; x00; x00; x00; x00; x00; x00; x80; x40; x00;
   x00; x00; x00; x02; x00; x00; x00; x00; x04; x00; x00; x01; x00; x04; x00; x00;
   x00; x09; x00; x00; x00; x69; x64; x09; x6d; x73; x09; x61; x09; x62; x09; x00;
   x00; x00; x00; x00; x00; x00; x00; x00; xd0; x3f; x01; x00; x04; x00; x00; x00;
   x00; x00; x00; x00; xf0; x3f; x00; x00; x00; x00; x00; x00; x00; x40; x00; x00;
   x00; x00; x00; x00; x08; x40; x00; x00; x00; x00; x00; x00; x10; x40; x01; x00;
   x01; x00; x00; x00; x00; x00; x00; x00; x14; x40].

(** A version 3 source file with two streams and source input times: one
    package with id 7, elapsed 1.5, input time 0.25, one sample, values 10.0
    and 20.0. *)
Definition file_src_v3 : list byte :=
  [x03; x00; x00; x00; x73; x72; x63; x01; x00; x00; x00; x00; x00; x00; x00; x02;
   x00; x00; x00; x00; x00; x00; x00; x01; x00; x00; x00; x00; x00; x00; x80; x40;
   x00; x00; x00; x00; x02; x00; x00; x00; x00; x01; x00; x00; x01; x00; x05; x00;
   x00; x00; x0b; x00; x00; x00; x69; x64; x09; x6d; x73; x09; x74; x09; x61; x09;
   x62; x07; x00; x00; x00; x00; x00; x00; x00; x00; x00; xf8; x3f; x00; x00; x00;
   x00; x00; x00; xd0; x3f; x01; x00; x00; x00; x00; x00; x00; x00; x24; x40; x00;
   x00; x00; x00; x00; x00; x34; x40].

(** A version 2 pipeline file with two streams of 1 and 3 samples per package
    and one complete package: a chunk of 1 stream x 1 sample (value 1), then
    a chunk of 1 stream x 3 samples (values 2, 3, 4). *)
Definition file_short_first_chunk : list byte :=
  [x02; x00; x00; x00; x64; x61; x74; x01; x00; x00; x00; x00; x00; x00; x00; x02;
   x00; x00; x00; x00; x00; x00; x00; x00; x00; x00; x00; x00; x00; x80; x40; x00;
   x00; x00; x00; x02; x00; x00; x00; x00; x01; x00; x00; x03; x00; x04; x00; x00;
   x00; x09; x00; x00; x00; x69; x64; x09; x6d; x73; x09; x61; x09; x62; x05; x00;
   x00; x00; x00; x00; x00; x00; x00; x00; xe0; x3f; x01; x00; x01; x00; x00; x00;
   x00; x00; x00; x00; xf0; x3f; x01; x00; x03; x00; x00; x00; x00; x00; x00; x00;
   x00; x40; x00; x00; x00; x00; x00; x00; x08; x40; x00; x00; x00; x00; x00; x00;
   x10; x40].

(** A version 2 pipeline file that declares no streams. *)
Definition file_no_streams : list byte :=
  [x02; x00; x00; x00; x64; x61; x74; x01; x00; x00; x00; x00; x00; x00; x00; x02;
   x00; x00; x00; x00; x00; x00; x00; x00; x00; x00; x00; x00; x00; x80; x40; x00;
   x00; x00; x00; x00; x00; x00; x00; x02; x00; x00; x00; x05; x00; x00; x00; x69;
   x64; x09; x6d; x73; x01; x00; x00; x00; x00; x00; x00; x00; x00; x00; xe0; x3f].

(** A file whose version tag is 4. *)
Definition file_version_4 : list byte :=
  [x04; x00; x00; x00; x64; x61; x74; x00; x00; x00; x00; x00; x00; xf0; x3f].

(** A version 1 source file with three columns, two rows and three trailing
    bytes. *)
Definition file_v1_source : list byte :=
  [x01; x00; x00; x00; x73; x72; x63; x00; x00; x00; x00; x00; x00; x80; x40; x00;
   x00; x00; x00; x03; x00; x00; x00; x06; x00; x00; x00; x69; x64; x09; x61; x09;
   x62; x01; x00; x00; x00; x00; x00; x00; x00; x00; x00; xf0; x3f; x00; x00; x00;
   x00; x00; x00; x00; x40; x02; x00; x00; x00; x00; x00; x00; x00; x00; x00; x08;
   x40; x00; x00; x00; x00; x00; x00; x10; x40; x00; x00; x00].

(** A machine on which [np.empty] always succeeds and no memory is
    available. *)
Definition env_no_memory : mem_env :=
  {| np_empty_ok := fun _ => true; mem_available := 0; mem_used := 0 |}.

(** * The vocabulary of the properties *)

(** ** Observing the outcome of a load *)

(** A field of the header that a load returned. *)
Definition header_field
    (r : result (option (gmap string pyval) * option ndarray) * world)
    (k : string) : option pyval :=
  match r.1 with
  | Ok (Some h, _) => h !! k
  | _ => None
  end.

(** The matrix that a load returned. *)
Definition returned_data
    (r : result (option (gmap string pyval) * option ndarray) * world)
    : option ndarray :=
  match r.1 with
  | Ok (_, d) => d
  | _ => None
  end.

(** Where the read cursor is after the load. *)
Definition final_cursor
    (r : result (option (gmap string pyval) * option ndarray) * world) : Z :=
  cursor r.2.

(** Did the load return a header? *)
Definition returns_header
    (r : result (option (gmap string pyval) * option ndarray) * world) : bool :=
  match r.1 with
  | Ok (Some _, _) => true
  | _ => false
  end.

(** A field of the header as parsed by lines 48-92. *)
Definition parsed_field (file : list byte) (k : string) : option pyval :=
  match parsed_header file with
  | Some h => h !! k
  | None => None
  end.

(** The sample-chunk header at a position of a file: the number of streams
    and the number of samples it declares. *)
Definition chunk_header_at (file : list byte) (pos : Z) : Z * Z :=
  (int_from_bytes (take 2 (drop (Z.to_nat pos) file)),
   int_from_bytes (take 2 (drop (Z.to_nat (pos + 2)) file))).

(** A world with more events in its trace. *)
Definition logged (w : world) (es : list event) : world :=
  {| cursor := cursor w; header := header w; trace := trace w ++ es |}.

(** Every [data.fill] in a trace comes after a memory check. *)
Definition checked_before_fill (t : list event) : Prop :=
  forall i r c, t !! i = Some (EvFill r c) ->
  exists j, (j < i)%nat /\ t !! j = Some EvMemCheck.

(** Cell [(r, c)] lies in a region that the trace records as assigned. *)
Definition covered (t : list event) (r c : nat) : Prop :=
  exists r0 r1 c0 c1,
    In (EvWrite r0 r1 c0 c1) t /\ (r0 <= r < r1)%nat /\ (c0 <= c < c1)%nat.

(** Every cell holds NaN unless the trace records an assignment to it. *)
Definition nan_unless_written (t : list event) (d : ndarray) : Prop :=
  forall r c v, cell d r c = Some v -> ~ covered t r c -> v = np_nan.

(** The same for a matrix that may not have been allocated. *)
Definition nan_unless_written_opt (t : list event) (d : option ndarray) : Prop :=
  forall a, d = Some a -> nan_unless_written t a.

(** A cell of the matrix that a load returned. *)
Definition returned_cell
    (r : result (option (gmap string pyval) * option ndarray) * world)
    (i j : nat) : option Z :=
  match returned_data r with
  | Some d => cell d i j
  | None => None
  end.

(** A program that changes nothing and always comes to an end. *)
Definition calm {A} (m : M A) : Prop :=
  forall w, (m w).2 = w /\ (m w).1 <> Diverge.

(** The header fields that the package loops read to move the cursor: the
    size of the file [fs] and a number of streams that is not negative. *)
Definition loop_header (fs : Z) (h : gmap string pyval) : Prop :=
  h !! "file_size" = Some (PInt fs) /\
  exists ns, h !! "num_streams" = Some (PInt ns) /\ 0 <= ns.

(** The outcome of a step that has come to an end, with the cursor not
    before [c] and the header still good for the loops. *)
Definition ends_after {A} (fs c : Z) (r : result A) (w : world) : Prop :=
  r <> Diverge /\
  (forall x, r = Ok x -> c <= cursor w /\ loop_header fs (header w)).

(** A program that leaves the world as it found it. *)
Definition pure_m {A} (m : M A) : Prop := forall w, (m w).2 = w.

(** A later world: more events, all in [okE]; header fields changed only
    in [okK]; no field removed. *)
Definition frame (okE : event -> Prop) (okK : string -> Prop) (w w' : world) : Prop :=
  (exists t, trace w' = trace w ++ t /\ Forall okE t) /\
  (forall k, ~ okK k -> header w' !! k = header w !! k) /\
  (forall k, is_Some (header w !! k) -> is_Some (header w' !! k)).

(** [keeps okE okK m]: every run of [m] stays inside the frame, whatever its
    outcome. *)
Definition keeps (okE : event -> Prop) (okK : string -> Prop) {A} (m : M A) : Prop :=
  forall w, frame okE okK w (m w).2.

(** What a program may log. *)
Definition may_log (okE : event -> Prop) : Prop := forall l, okE (EvLog l).

(** What a program may allocate and fill. *)
Definition may_allocate (okE : event -> Prop) : Prop :=
  (forall r c, okE (EvEmpty r c)) /\ (forall r c, okE (EvFill r c)).

(** Where a program may assign to the matrix. *)
Definition may_write (okE : event -> Prop) : Prop :=
  forall r0 r1 c0 c1, okE (EvWrite r0 r1 c0 c1).

(** The two counters of the counting pass may be set. *)
Definition counts_in (okK : string -> Prop) : Prop :=
  okK "total_samples" /\ okK "total_packages".

(** The events of a load: log records always, allocation and matrix writes
    only when the data is read, a memory check never. *)
Definition load_event (read_data : bool) (e : event) : Prop :=
  match e with
  | EvLog _ => True
  | EvMemCheck => False
  | EvEmpty _ _ | EvFill _ _ | EvWrite _ _ _ _ => read_data = true
  end.

(** The header fields that are derived while the contents are read. *)
Definition derived_field (k : string) : Prop :=
  k = "row_size" \/ k = "num_rows" \/ k = "total_samples" \/
  k = "total_packages" \/ k = "max_samples_stream".

(** Running [m] from [w] gives an outcome and a world that satisfy [Q]. *)
Definition wp {A} (m : M A) (Q : result A -> world -> Prop) (w : world) : Prop :=
  Q (m w).1 (m w).2.

(** The postcondition of [m] in [bind m k]. *)
Definition wp_then {A B} (k : A -> M B) (Q : result B -> world -> Prop)
    (r : result A) (w : world) : Prop :=
  match r with
  | Ok a => wp (k a) Q w
  | Raise e => Q (Raise e) w
  | Diverge => Q Diverge w
  end.

(** The bytes at the cursor. *)
Definition bytes_at (file : list byte) (pos : Z) (n : Z) : list byte :=
  take (Z.to_nat n) (drop (Z.to_nat pos) file).

(** The fields that only versions 2 and 3 have. *)
Definition fields_v23 : list string :=
  ["run_start_epoch"; "file_start_epoch"; "num_streams"; "stream_data_types";
   "stream_samples_per_package"].

(** What lines 53-92 leave in the header of a file of size [fs] and version
    [v]. *)
Record header_shape (fs v : Z) (h : gmap string pyval) : Prop := {
  hs_size : h !! "file_size" = Some (PInt fs);
  hs_version : h !! "version" = Some (PInt v);
  hs_code : exists code,
      h !! "code" = Some (PStr code) /\
      (str_lower code = "src" /\ v = 3 ->
       exists b, h !! "includes_source_input_time" = Some (PBool b)) /\
      (~ (str_lower code = "src" /\ v = 3) ->
       h !! "includes_source_input_time" = None);
  hs_v23 : v = 2 \/ v = 3 ->
      exists ns dts spp e1 e2,
        h !! "num_streams" = Some (PInt ns) /\
        h !! "stream_data_types" = Some (PList dts) /\
        h !! "stream_samples_per_package" = Some (PList spp) /\
        length dts = Z.to_nat ns /\ length spp = Z.to_nat ns /\
        h !! "run_start_epoch" = Some (PInt e1) /\
        h !! "file_start_epoch" = Some (PInt e2);
  hs_v1 : ~ (v = 2 \/ v = 3) -> Forall (fun k => h !! k = None) fields_v23;
  hs_streams : forall ns, h !! "num_streams" = Some (PInt ns) -> 0 <= ns;
  hs_columns : exists nc, h !! "num_columns" = Some (PInt nc) /\ 0 <= nc;
  hs_start : exists p, h !! "pos_data_start" = Some (PInt p)
}.

(** No restriction on the events. *)
Definition any_event : event -> Prop := fun _ => True.

(** The version tag is one that the decoder knows (line 57). *)
Definition known_version (file : list byte) : Prop :=
  version_tag file = 1 \/ version_tag file = 2 \/ version_tag file = 3.

(** What a step of a loop hands on: a matrix whose unassigned cells hold
    NaN. *)
Definition nan_chunk (r : result (ctl chunk_locals (bool * option ndarray)))
    (w : world) : Prop :=
  match r with
  | Ok (Next (_, _, d)) => nan_unless_written_opt (trace w) d
  | Ok (Return (_, d)) => nan_unless_written_opt (trace w) d
  | _ => True
  end.

(** The same for a step of the package loop. *)
Definition nan_package (r : result (ctl locals (bool * option ndarray)))
    (w : world) : Prop :=
  match r with
  | Ok (Next l) => nan_unless_written_opt (trace w) (data l)
  | Ok (Return (_, d)) => nan_unless_written_opt (trace w) d
  | _ => True
  end.

(** The same for the value that [__read_packages] returns. *)
Definition nan_result (r : result (bool * option ndarray)) (w : world) : Prop :=
  match r with
  | Ok (_, d) => nan_unless_written_opt (trace w) d
  | _ => True
  end.

(** What a [return header, data] hands on. *)
Definition nan_returned (r : result returned) (w : world) : Prop :=
  forall h a, r = Ok (Some (h, Some a)) -> nan_unless_written (trace w) a.

(** The same for the value that [load_data] returns. *)
Definition nan_loaded
    (r : result (option (gmap string pyval) * option ndarray)) (w : world) : Prop :=
  forall h a, r = Ok (h, Some a) -> nan_unless_written (trace w) a.

(** An unsigned integer of [bits] bits. *)
Definition is_uint (bits : Z) (z : Z) : Prop := 0 <= z < 2 ^ bits.

(** The fields that lines 61-92 store for every file, with the ranges that
    the widths of their encodings give them. *)
Record fixed_fields (file : list byte) (h : gmap string pyval) : Prop := {
  ff_code : exists code,
      h !! "code" = Some (PStr code) /\ (String.length code <= 3)%nat;
  ff_rate : exists sr, h !! "sample_rate" = Some (PFloat sr) /\ is_uint 64 sr;
  ff_playback : exists n,
      h !! "num_playback_streams" = Some (PInt n) /\ is_uint 32 n;
  ff_columns : exists n, h !! "num_columns" = Some (PInt n) /\ is_uint 32 n;
  ff_names : exists n names,
      h !! "column_names_size" = Some (PInt n) /\ is_uint 32 n /\
      h !! "column_names" = Some (PStrs names) /\ names <> [];
  ff_start : exists p,
      h !! "pos_data_start" = Some (PInt p) /\ 0 <= p <= getsize file
}.

(** The fields that lines 64-84 store for a file of version 2 or 3. *)
Record stream_fields (h : gmap string pyval) : Prop := {
  sf_epochs : exists e1 e2,
      h !! "run_start_epoch" = Some (PInt e1) /\ is_uint 64 e1 /\
      h !! "file_start_epoch" = Some (PInt e2) /\ is_uint 64 e2;
  sf_streams : exists ns dts spp,
      h !! "num_streams" = Some (PInt ns) /\ is_uint 32 ns /\
      h !! "stream_data_types" = Some (PList dts) /\
      h !! "stream_samples_per_package" = Some (PList spp) /\
      length dts = Z.to_nat ns /\ length spp = Z.to_nat ns /\
      Forall (is_uint 8) dts /\ Forall (is_uint 16) spp
}.

(** A machine on which [np.empty] raises MemoryError for every shape. *)
Definition env_no_alloc : mem_env :=
  {| np_empty_ok := fun _ => false; mem_available := 0; mem_used := 0 |}.

(** The doubles that [np.fromfile] finds at a position of the file. *)
Definition floats_at (file : list byte) (pos : Z) (n : nat) : list Z :=
  floats_of_bytes n (drop (Z.to_nat pos) file).

(** What cell [(r, c)] of the matrix of a version 1 source or pipeline
    file is decoded from: rows of 4 + 8 * (nc - 1) bytes from [pds] on, a
    4-byte sample identifier followed by [nc - 1] doubles. *)
Definition v1_cell (file : list byte) (pds nc : Z) (r c : nat) : Z :=
  let off := pds + Z.of_nat r * (4 + (nc - 1) * 8) in
  match c with
  | O => float64_of_int (int_from_bytes (bytes_at file off 4))
  | S j => int_from_bytes (bytes_at file (off + 4 + 8 * Z.of_nat j) 8)
  end.

(** A matrix of [nr] x [nc] cells whose rows before [i] are decoded. *)
Definition v1_decoded (file : list byte) (pds nc : Z) (nr : nat) (i : nat)
    (d : ndarray) : Prop :=
  nrows d = nr /\ ncols d = Z.to_nat nc /\
  forall r c, (r < nr)%nat -> (c < Z.to_nat nc)%nat ->
    exists x, cell d r c = Some x /\
              ((r < i)%nat -> x = v1_cell file pds nc r c).

(** A version 1 plugin file that declares no columns, with sixteen bytes of
    data. *)
Definition file_v1_plugin_no_columns : list byte :=
  [x01; x00; x00; x00; x70; x6c; x67; x00; x00; x00; x00; x00; x00; x80; x40; x00;
   x00; x00; x00; x00; x00; x00; x00; x00; x00; x00; x00; x00; x00; x00; x00; x00;
   x00; xf0; x3f; x00; x00; x00; x00; x00; x00; x00; x40].

(** A version 2 file with the code of a plugin, two streams and one package
    of one sample. *)
Definition file_v2_plugin : list byte :=
  [x02; x00; x00; x00; x70; x6c; x67; x01; x00; x00; x00; x00; x00; x00; x00; x02;
   x00; x00; x00; x00; x00; x00; x00; x00; x00; x00; x00; x00; x00; x80; x40; x00;
   x00; x00; x00; x02; x00; x00; x00; x00; x01; x00; x00; x01; x00; x04; x00; x00;
   x00; x09; x00; x00; x00; x69; x64; x09; x6d; x73; x09; x61; x09; x62; x01; x00;
   x00; x00; x00; x00; x00; x00; x00; x00; xe0; x3f; x00; x00; x00; x00; x00; x00;
   xf0; x3f; x00; x00; x00; x00; x00; x00; x00; x40].

(** The size that [__read_packages] takes for the header of a package in
    the layout without chunks: source files count the 2-byte number of
    samples in, and 8 more bytes when they hold source input times. *)
Definition flat_header_size (ft : Z) (incl : bool) : Z :=
  if ft =? 0 then (if incl then 22 else 14) else 12.

(** The number of samples of the package at [pos]: the last two bytes of
    the package header of a source file, one in a pipeline file. *)
Definition flat_samples (file : list byte) (ft : Z) (incl : bool) (pos : Z) : Z :=
  if ft =? 0
  then int_from_bytes (bytes_at file (pos + flat_header_size ft incl - 2) 2)
  else 1.

(** The complete packages from [pos] on, each with its position and its
    number of samples: the list ends where a package header, or the values
    of a package, do not fit in the file. *)
Fixpoint flat_packages (fuel : nat) (file : list byte) (ft : Z) (incl : bool)
    (ns pos : Z) : list (Z * Z) :=
  match fuel with
  | O => []
  | S fuel' =>
      let phs := flat_header_size ft incl in
      if pos + phs <=? getsize file then
        let n := flat_samples file ft incl pos in
        if pos + phs + ns * n * 8 <=? getsize file
        then (pos, n) ::
             flat_packages fuel' file ft incl ns (pos + phs + ns * n * 8)
        else []
      else []
  end.

(** The samples of a list of packages. *)
Definition samples_of (ps : list (Z * Z)) : Z := foldr Z.add 0 (map snd ps).

(** The layout without chunks: a source file, or a pipeline file none of
    whose streams has more than one sample per package. *)
Definition flat_layout (ft mss : Z) (incl : bool) : Prop :=
  ft = 0 \/ (ft = 1 /\ mss <= 1 /\ incl = false).

(** The columns before the values of the streams: the sample identifier,
    the elapsed time and, in a source file that has them, the source input
    time. *)
Definition flat_header_columns (ft : Z) (incl : bool) : nat :=
  if ft =? 0 then (if incl then 3%nat else 2%nat) else 2%nat.

(** What cell [c] of the row of sample [s] of the package at [pos] is
    decoded from, in the layout without chunks. *)
Definition flat_cell (file : list byte) (ft : Z) (incl : bool) (ns : Z)
    (pos : Z) (s c : nat) : Z :=
  let hc := flat_header_columns ft incl in
  if (c =? 0)%nat then float64_of_int (int_from_bytes (bytes_at file pos 4))
  else if (c =? 1)%nat then int_from_bytes (bytes_at file (pos + 4) 8)
  else if (c <? hc)%nat then int_from_bytes (bytes_at file (pos + 12) 8)
  else int_from_bytes
         (bytes_at file
            (pos + flat_header_size ft incl
             + 8 * (Z.of_nat s * ns + Z.of_nat (c - hc))) 8).

(** The rows of a package: its position with each index of a sample. *)
Definition package_rows (p : Z * Z) : list (Z * nat) :=
  map (fun s => (fst p, s)) (seq 0 (Z.to_nat (snd p))).

(** The rows of a list of packages, in the order of the file. *)
Definition flat_rows (ps : list (Z * Z)) : list (Z * nat) :=
  flat_map package_rows ps.

(** A matrix of [nr] rows whose rows listed in [done] are decoded. *)
Definition flat_decoded (file : list byte) (ft : Z) (incl : bool) (ns : Z)
    (nr : nat) (done : list (Z * nat)) (d : ndarray) : Prop :=
  nrows d = nr /\
  ncols d = (flat_header_columns ft incl + Z.to_nat ns)%nat /\
  forall r c, (r < nr)%nat -> (c < ncols d)%nat ->
    exists x, cell d r c = Some x /\
      forall pos s, done !! r = Some (pos, s) ->
                    x = flat_cell file ft incl ns pos s c.

(** The value that the assignments of one package leave in cell [(r, c)]
    of its rows, which start at row [ri]; [x] is what the cell held. *)
Definition written_cell (hc : nat) (sid el t : Z) (values : list Z)
    (ns ri : nat) (r c : nat) (x : Z) : Z :=
  if (c =? 0)%nat then sid
  else if (c =? 1)%nat then el
  else if (c <? hc)%nat then t
  else default x (values !! ((r - ri) * ns + (c - hc))%nat).

(** The matrix [d'] is [d] with the rows of one package written. *)
Definition package_written (d d' : ndarray) (hc : nat) (sid el t : Z)
    (values : list Z) (ns ri n : nat) : Prop :=
  nrows d' = nrows d /\ ncols d' = ncols d /\
  forall r c,
    cell d' r c =
      match cell d r c with
      | Some x =>
          Some (if in_range ri (ri + n) r && (c <? hc + ns)%nat
                then written_cell hc sid el t values ns ri r c x else x)
      | None => None
      end.

(** Whether the header says that the packages hold source input times. *)
Definition input_time_of (h : gmap string pyval) : bool :=
  match h !! "includes_source_input_time" with
  | Some v => py_truth v
  | None => false
  end.

(** A version 3 source file with two streams and source input times: a
    package of one sample (id 7, values 10 and 20), a package of two
    samples (id 8, values 1, 2 and 3, 4), and a package of one sample that
    is cut off after its first value. *)
Definition file_src_packages : list byte :=
  [x03; x00; x00; x00; x73; x72; x63; x01; x00; x00; x00; x00; x00; x00; x00; x02;
   x00; x00; x00; x00; x00; x00; x00; x01; x00; x00; x00; x00; x00; x00; x80; x40;
   x00; x00; x00; x00; x02; x00; x00; x00; x00; x01; x00; x00; x01; x00; x05; x00;
   x00; x00; x0b; x00; x00; x00; x69; x64; x09; x6d; x73; x09; x74; x09; x61; x09;
   x62; x07; x00; x00; x00; x00; x00; x00; x00; x00; x00; xf8; x3f; x00; x00; x00;
   x00; x00; x00; xd0; x3f; x01; x00; x00; x00; x00; x00; x00; x00; x24; x40; x00;
   x00; x00; x00; x00; x00; x34; x40; x08; x00; x00; x00; x00; x00; x00; x00; x00;
   x00; xe0; x3f; x00; x00; x00; x00; x00; x00; xe8; x3f; x02; x00; x00; x00; x00;
   x00; x00; x00; xf0; x3f; x00; x00; x00; x00; x00; x00; x00; x40; x00; x00; x00;
   x00; x00; x00; x08; x40; x00; x00; x00; x00; x00; x00; x10; x40; x09; x00; x00;
   x00; x00; x00; x00; x00; x00; x00; xe0; x3f; x00; x00; x00; x00; x00; x00; xe8;
   x3f; x01; x00; x00; x00; x00; x00; x00; x00; x14; x40].

(** What a pass over the packages hands back when it returns: success and,
    when it reads the data, the matrix. *)
Definition whole_result (rd : bool) (x : bool * option ndarray) : Prop :=
  fst x = true /\ (rd = true -> snd x <> None).

(** What a run of the chunk loop hands on. *)
Definition whole_chunk (rd : bool)
    (r : result (ctl chunk_locals (bool * option ndarray))) (w : world) : Prop :=
  match r with
  | Ok (Next (_, _, d)) => rd = true -> d <> None
  | Ok (Return x) => whole_result rd x
  | _ => True
  end.

(** The same for a step of the package loop. *)
Definition whole_package (rd : bool)
    (r : result (ctl locals (bool * option ndarray))) (w : world) : Prop :=
  match r with
  | Ok (Next l) => rd = true -> data l <> None
  | Ok (Return x) => whole_result rd x
  | _ => True
  end.

(** The same for the value that [__read_packages] returns. *)
Definition whole_pass (rd : bool) (r : result (bool * option ndarray))
    (w : world) : Prop :=
  match r with
  | Ok x => whole_result rd x
  | _ => True
  end.

(** A [return header, data] statement that is reached returns both. *)
Definition both_returned (r : result returned) (w : world) : Prop :=
  forall x, r = Ok x -> exists h d, x = Some (Some h, Some d).

(** A load that returns the header and no matrix. *)
Definition returns_header_only
    (r : result (option (gmap string pyval) * option ndarray) * world) : bool :=
  match r.1 with
  | Ok (Some _, None) => true
  | _ => false
  end.

(** A matrix, if there is one, of [nr] rows and [nc] columns. *)
Definition shaped (nr nc : nat) (o : option ndarray) : Prop :=
  forall a, o = Some a -> nrows a = nr /\ ncols a = nc.

(** What a run of the chunk loop hands on: the matrix in its shape. *)
Definition shaped_chunk (nr nc : nat)
    (r : result (ctl chunk_locals (bool * option ndarray))) (w : world) : Prop :=
  match r with
  | Ok (Next (_, _, d)) => shaped nr nc d
  | Ok (Return (_, d)) => shaped nr nc d
  | _ => True
  end.

(** The same for a step of the package loop. *)
Definition shaped_package (nr nc : nat)
    (r : result (ctl locals (bool * option ndarray))) (w : world) : Prop :=
  match r with
  | Ok (Next l) => shaped nr nc (data l)
  | Ok (Return (_, d)) => shaped nr nc d
  | _ => True
  end.

(** The same for the value that [__read_packages] returns. *)
Definition shaped_pass (nr nc : nat) (r : result (bool * option ndarray))
    (w : world) : Prop :=
  match r with
  | Ok (_, d) => shaped nr nc d
  | _ => True
  end.

(** The counter of samples holds a number. *)
Definition counted (h : gmap string pyval) : Prop :=
  exists z, h !! "total_samples" = Some (PInt z).

(** The number of header columns of the matrix: sample identifier and
    elapsed time, and the source input time where there is one. *)
Definition header_columns (ft : Z) (h : gmap string pyval) : Z :=
  if (ft =? 0) && input_time_of h then 3 else 2.

(** A load that returns the header and the matrix. *)
Definition returns_both
    (r : result (option (gmap string pyval) * option ndarray) * world) : bool :=
  match r.1 with
  | Ok (Some _, Some _) => true
  | _ => false
  end.

(** No error record among the events. *)
Definition no_error (t : list event) : Prop := ~ In (EvLog LError) t.

(** The last event of a run. *)
Definition last_event
    (r : result (option (gmap string pyval) * option ndarray) * world)
    : option event :=
  last (trace r.2).

(** * Reasoning about programs of the monad *)

(** ** Runs *)

Lemma bind_run {A B} (m : M A) (k : A -> M B) w :
  bind m k w =
    match m w with
    | (Ok a, w') => k a w'
    | (Raise e, w') => (Raise e, w')
    | (Diverge, w') => (Diverge, w')
    end.
Proof. reflexivity. Qed.

Lemma bind_ok {A B} (m : M A) (k : A -> M B) w a w' :
  m w = (Ok a, w') -> bind m k w = k a w'.
Proof. intros H. unfold bind. now rewrite H. Qed.

Lemma bind_raise {A B} (m : M A) (k : A -> M B) w e w' :
  m w = (Raise e, w') -> bind m k w = (Raise e, w').
Proof. intros H. unfold bind. now rewrite H. Qed.

(** A successful run of [bind m k] is a successful run of [m] followed by a
    successful run of [k]. *)
Lemma bind_ok_inv {A B} (m : M A) (k : A -> M B) w b w'' :
  bind m k w = (Ok b, w'') ->
  exists a w', m w = (Ok a, w') /\ k a w' = (Ok b, w'').
Proof.
  unfold bind. destruct (m w) as [[a|e|] w']; intros H; try discriminate.
  eauto.
Qed.

Lemma hget_run k w v : header w !! k = Some v -> hget k w = (Ok v, w).
Proof. intros H. unfold hget. now rewrite H. Qed.

Lemma hget_ok_inv k w v w' :
  hget k w = (Ok v, w') -> w' = w /\ header w !! k = Some v.
Proof.
  unfold hget. destruct (header w !! k); intros H; inversion H; auto.
Qed.

Lemma hget_int_run k w z :
  header w !! k = Some (PInt z) -> hget_int k w = (Ok z, w).
Proof. intros H. unfold hget_int. now rewrite (bind_ok _ _ _ _ _ (hget_run _ _ _ H)). Qed.

Lemma hget_str_run k w s :
  header w !! k = Some (PStr s) -> hget_str k w = (Ok s, w).
Proof. intros H. unfold hget_str. now rewrite (bind_ok _ _ _ _ _ (hget_run _ _ _ H)). Qed.

(** ** Programs that leave the world alone *)

Lemma pure_ret {A} (a : A) : pure_m (ret a).
Proof. now intros w. Qed.

Lemma pure_raise {A} e : pure_m (@raise A e).
Proof. now intros w. Qed.

Lemma pure_diverge {A} : pure_m (@diverge A).
Proof. now intros w. Qed.

Lemma pure_bind {A B} (m : M A) (k : A -> M B) :
  pure_m m -> (forall a, pure_m (k a)) -> pure_m (bind m k).
Proof.
  intros Hm Hk w. unfold bind. specialize (Hm w).
  destruct (m w) as [[a|e|] w']; simpl in *; subst; auto. apply Hk.
Qed.

Lemma pure_hget k : pure_m (hget k).
Proof. intros w. unfold hget. now destruct (header w !! k). Qed.

Lemma pure_hmem k : pure_m (hmem k).
Proof. now intros w. Qed.

Lemma pure_get_header : pure_m get_header.
Proof. now intros w. Qed.

Lemma pure_file_tell : pure_m file_tell.
Proof. now intros w. Qed.

Lemma pure_local_get {A} (x : option A) : pure_m (local_get x).
Proof. destruct x; [apply pure_ret | apply pure_raise]. Qed.

Lemma pure_the_data d : pure_m (the_data d).
Proof. destruct d; [apply pure_ret | apply pure_raise]. Qed.

Lemma pure_hget_int k : pure_m (hget_int k).
Proof.
  apply pure_bind; [apply pure_hget |].
  intros []; try apply pure_raise; apply pure_ret.
Qed.

Lemma pure_hget_str k : pure_m (hget_str k).
Proof.
  apply pure_bind; [apply pure_hget |].
  intros []; try apply pure_raise; apply pure_ret.
Qed.

Lemma pure_py_add a b : pure_m (py_add a b).
Proof. destruct a, b; try apply pure_raise; apply pure_ret. Qed.

Lemma pure_py_max v : pure_m (py_max v).
Proof. destruct v as [| | | |[|x l]|[|x l]]; try apply pure_raise; apply pure_ret. Qed.

Lemma pure_py_floor_div a b : pure_m (py_floor_div a b).
Proof. unfold py_floor_div. destruct (b =? 0); [apply pure_raise | apply pure_ret]. Qed.

Lemma pure_decode_ascii bs : pure_m (decode_ascii bs).
Proof. unfold decode_ascii. destruct (forallb _ bs); [apply pure_ret | apply pure_raise]. Qed.

Lemma pure_struct_unpack_d bs : pure_m (struct_unpack_d bs).
Proof. unfold struct_unpack_d. destruct (_ =? _)%nat; [apply pure_ret | apply pure_raise]. Qed.

Lemma pure_reshape_rows vs k : pure_m (reshape_rows vs k).
Proof. unfold reshape_rows. destruct (np_reshape vs k); [apply pure_ret | apply pure_raise]. Qed.

Lemma pure_determine_file_type : pure_m determine_file_type.
Proof.
  unfold determine_file_type.
  repeat (apply pure_bind; [apply pure_hget_str | intros ?]). apply pure_ret.
Qed.

(** ** Frames: what a program may log and which header fields it may set

    [frame okE okK w w'] relates a world to a later one: the trace has grown
    by events that satisfy [okE], the header fields outside [okK] have kept
    their values (present or absent), and no field has been removed. *)

Lemma frame_refl okE okK w : frame okE okK w w.
Proof.
  split; [| split]; auto. exists []. split; [now rewrite app_nil_r | constructor].
Qed.

Lemma frame_trans okE okK a b c :
  frame okE okK a b -> frame okE okK b c -> frame okE okK a c.
Proof.
  intros [[t1 [E1 F1]] [H1 P1]] [[t2 [E2 F2]] [H2 P2]]. split; [| split].
  - exists (t1 ++ t2). split.
    + rewrite E2, E1. symmetry. apply app_assoc.
    + now apply Forall_app.
  - intros k Hk. now rewrite H2, H1.
  - auto.
Qed.

Lemma frame_weaken (okE okE' : event -> Prop) (okK okK' : string -> Prop) w w' :
  (forall e, okE e -> okE' e) -> (forall k, okK k -> okK' k) ->
  frame okE okK w w' -> frame okE' okK' w w'.
Proof.
  intros HE HK [[t [E F]] [H P]]. split; [| split; [| exact P]].
  - exists t. split; auto. eapply Forall_impl; eauto.
  - intros k Hk. apply H. intros Hk'. apply Hk. auto.
Qed.

Section Frames.

Variable okE : event -> Prop.
Variable okK : string -> Prop.

Lemma keeps_pure {A} (m : M A) : pure_m m -> keeps okE okK m.
Proof. intros H w. rewrite H. apply frame_refl. Qed.

Lemma keeps_bind {A B} (m : M A) (k : A -> M B) :
  keeps okE okK m -> (forall a, keeps okE okK (k a)) -> keeps okE okK (bind m k).
Proof.
  intros Hm Hk w. unfold bind. specialize (Hm w).
  destruct (m w) as [[a|e|] w']; simpl in *; auto.
  eapply frame_trans; [exact Hm | apply Hk].
Qed.

Lemma keeps_try_except {A} (m : M A) (h : exn -> M A) :
  keeps okE okK m -> (forall e, keeps okE okK (h e)) -> keeps okE okK (try_except m h).
Proof.
  intros Hm Hh w. unfold try_except. specialize (Hm w).
  destruct (m w) as [[a|e|] w']; simpl in *; auto.
  eapply frame_trans; [exact Hm | apply Hh].
Qed.

Lemma keeps_emit e : okE e -> keeps okE okK (emit e).
Proof.
  intros He w. split; [| split]; auto. exists [e]. split; auto.
Qed.

Lemma keeps_hset k v : okK k -> keeps okE okK (hset k v).
Proof.
  intros Hk w. split; [| split]; simpl.
  - exists []. split; [now rewrite app_nil_r | constructor].
  - intros k' Hk'. apply lookup_insert_ne. intros ->. auto.
  - intros k' Hs. destruct (decide (k = k')) as [->|Hne].
    + rewrite lookup_insert_eq. eauto.
    + now rewrite lookup_insert_ne.
Qed.

Lemma keeps_set_cursor p : keeps okE okK (set_cursor p).
Proof. intros w. split; [| split]; auto. exists []. split; [now rewrite app_nil_r | constructor]. Qed.

Lemma keeps_file_read file n : keeps okE okK (file_read file n).
Proof. intros w. split; [| split]; auto. exists []. split; [now rewrite app_nil_r | constructor]. Qed.

Lemma keeps_np_fromfile file n : keeps okE okK (np_fromfile file n).
Proof. intros w. split; [| split]; auto. exists []. split; [now rewrite app_nil_r | constructor]. Qed.

End Frames.

Create HintDb pure.

#[local] Hint Resolve pure_ret pure_raise pure_diverge pure_hget pure_hmem
  pure_get_header pure_file_tell pure_local_get pure_the_data pure_hget_int
  pure_hget_str pure_py_add pure_py_max pure_py_floor_div pure_decode_ascii
  pure_struct_unpack_d pure_reshape_rows pure_determine_file_type : pure.

Create HintDb keeps.

(** One step of a frame proof: a sequence, a primitive, a case distinction,
    a pure program, or a program whose footprint is already known. *)
Ltac keeps_step :=
  lazymatch goal with
  | |- keeps _ _ (bind _ _) => apply keeps_bind; [| intros ?]
  | |- keeps _ _ (try_except _ _) => apply keeps_try_except; [| intros ?]
  | |- keeps _ _ (set_cursor _) => apply keeps_set_cursor
  | |- keeps _ _ (file_read _ _) => apply keeps_file_read
  | |- keeps _ _ (np_fromfile _ _) => apply keeps_np_fromfile
  | |- keeps _ _ (emit _) => apply keeps_emit; solve [auto]
  | |- keeps _ _ (hset _ _) => apply keeps_hset; solve [auto]
  | |- keeps _ _ (if ?b then _ else _) => destruct b
  | |- keeps _ _ (match ?x with _ => _ end) => destruct x
  | |- keeps _ _ (let _ := _ in _) => cbv zeta
  | |- _ => first [ apply keeps_pure; solve [auto with pure]
                  | solve [eauto with keeps] ]
  end.

Ltac keeps_auto := repeat keeps_step.

Lemma keeps_file_seek okE okK off whence : keeps okE okK (file_seek off whence).
Proof. unfold file_seek. keeps_auto. Qed.

Lemma keeps_logging_warning okE okK : may_log okE -> keeps okE okK logging_warning.
Proof. intros H. apply keeps_emit, H. Qed.

Lemma keeps_logging_error okE okK : may_log okE -> keeps okE okK logging_error.
Proof. intros H. apply keeps_emit, H. Qed.

Lemma keeps_setitem_block okE okK d r0 r1 c0 c1 src :
  may_write okE -> keeps okE okK (setitem_block d r0 r1 c0 c1 src).
Proof.
  intros H. unfold setitem_block.
  destruct (slice_clip r0 r1 (nrows d)), (slice_clip c0 c1 (ncols d)).
  keeps_auto.
Qed.

#[local] Hint Resolve keeps_file_seek keeps_logging_warning keeps_logging_error
  keeps_setitem_block : keeps.

Lemma keeps_setitem_col okE okK d r0 r1 c v :
  may_write okE -> keeps okE okK (setitem_col d r0 r1 c v).
Proof. intros H. unfold setitem_col. keeps_auto. Qed.

Lemma keeps_setitem_cell okE okK d r c v :
  may_write okE -> keeps okE okK (setitem_cell d r c v).
Proof. intros H. unfold setitem_cell. keeps_auto. Qed.

Lemma keeps_setitem_row okE okK d r c0 c1 vs :
  may_write okE -> keeps okE okK (setitem_row d r c0 c1 vs).
Proof. intros H. unfold setitem_row. keeps_auto. Qed.

Lemma keeps_allocate_array okE okK env dims v check :
  may_log okE -> may_allocate okE -> (check = true -> okE EvMemCheck) ->
  keeps okE okK (_allocate_array env dims v check).
Proof.
  intros HL [HA HF] HC. unfold _allocate_array, np_empty, alloc_handler,
    virtual_memory, np_fill.
  destruct dims. keeps_auto.
Qed.

#[local] Hint Resolve keeps_setitem_col keeps_setitem_cell keeps_setitem_row : keeps.

(** ** The footprint of the decoder

    The counting pass logs and sets [total_samples] and [total_packages];
    the materializing pass logs, allocates and writes to the matrix, and
    sets no header field. *)

Section DecoderFootprints.

Variable okE : event -> Prop.
Variable okK : string -> Prop.
Variable env : mem_env.
Variable file : list byte.
Hypothesis Hlog : may_log okE.

Lemma keeps_chunk_loop rd hc fuel ri l :
  (rd = true -> may_write okE) ->
  keeps okE okK (chunk_loop file rd hc fuel ri l).
Proof.
  intros Hw. revert ri l.
  induction fuel as [|fuel IH]; intros ri [[si ns] d]; simpl.
  - keeps_auto.
  - destruct rd; [specialize (Hw eq_refl) |]; keeps_auto; apply IH.
Qed.

Lemma keeps_read_package_header rd incl :
  keeps okE okK (read_package_header file rd incl).
Proof. unfold read_package_header. keeps_auto. Qed.

Lemma keeps_read_chunked_package rd hc fuel l sid el :
  (rd = true -> may_write okE) -> (rd = false -> counts_in okK) ->
  keeps okE okK (read_chunked_package file rd hc fuel l sid el).
Proof.
  intros Hw Hk. unfold read_chunked_package.
  apply keeps_bind; [now apply keeps_chunk_loop |].
  intros [[[si ns] d]|v]; [| keeps_auto].
  destruct rd; simpl.
  - specialize (Hw eq_refl). keeps_auto.
  - destruct (Hk eq_refl). keeps_auto.
Qed.

Lemma keeps_read_flat_package ft rd incl hc l sid el t :
  (rd = true -> may_write okE) -> (rd = false -> counts_in okK) ->
  keeps okE okK (read_flat_package file ft rd incl hc l sid el t).
Proof.
  intros Hw Hk. unfold read_flat_package.
  apply keeps_bind; [keeps_auto |]. intros [n nv].
  destruct rd; simpl.
  - specialize (Hw eq_refl). keeps_auto.
  - destruct (Hk eq_refl). keeps_auto.
Qed.

Lemma keeps_read_package ft rd incl hc fuel l :
  (rd = true -> may_write okE) -> (rd = false -> counts_in okK) ->
  keeps okE okK (read_package file ft rd incl hc fuel l).
Proof.
  intros Hw Hk. unfold read_package.
  apply keeps_bind; [apply keeps_read_package_header |].
  intros [[sid el] t]. apply keeps_bind; [keeps_auto |].
  intros []; [now apply keeps_read_chunked_package | now apply keeps_read_flat_package].
Qed.

Lemma keeps_package_loop ft rd incl phs hc fuel cfuel l :
  (rd = true -> may_write okE) -> (rd = false -> counts_in okK) ->
  keeps okE okK (package_loop file ft rd incl phs hc fuel cfuel l).
Proof.
  intros Hw Hk. revert l. induction fuel as [|fuel IH]; intros l; simpl.
  - keeps_auto.
  - do 2 (apply keeps_bind; [keeps_auto | intros ?]).
    destruct (_ <=? _); [| keeps_auto].
    apply keeps_bind; [now apply keeps_read_package |].
    intros [l'|r]; [apply IH | keeps_auto].
Qed.

Lemma keeps_read_packages ft rd :
  (rd = true -> may_write okE /\ may_allocate okE) ->
  (rd = false -> counts_in okK) ->
  keeps okE okK (__read_packages env file ft rd).
Proof.
  intros Hw Hk. unfold __read_packages.
  do 4 (apply keeps_bind; [keeps_auto | intros ?]).
  destruct a2 as [[phs hc]|]; [| keeps_auto].
  destruct rd.
  - destruct (Hw eq_refl) as [Hwr Hal].
    do 2 (apply keeps_bind; [keeps_auto | intros ?]).
    apply keeps_bind; [apply keeps_allocate_array; auto; discriminate |].
    intros [d|]; [| keeps_auto].
    apply keeps_package_loop; auto.
  - apply keeps_package_loop; auto; discriminate.
Qed.

Lemma keeps_read_rows_v1 n i d :
  may_write okE -> keeps okE okK (read_rows_v1 file n i d).
Proof.
  intros Hw. revert i d. induction n as [|n IH]; intros i d; simpl.
  - keeps_auto.
  - keeps_auto.
Qed.

Lemma keeps_load_v1 ft rd :
  (rd = true -> may_write okE /\ may_allocate okE) ->
  okK "row_size" -> okK "num_rows" ->
  keeps okE okK (load_v1 env file ft rd).
Proof.
  intros Hw K1 K2. unfold load_v1.
  do 6 (apply keeps_bind; [keeps_auto | intros ?]).
  destruct rd; [| keeps_auto].
  destruct (Hw eq_refl) as [Hwr Hal].
  do 2 (apply keeps_bind; [keeps_auto | intros ?]).
  apply keeps_bind; [apply keeps_allocate_array; auto; discriminate |].
  intros [d|]; keeps_auto; now apply keeps_read_rows_v1.
Qed.

Lemma keeps_load_v23 ft rd :
  (rd = true -> may_write okE /\ may_allocate okE) ->
  counts_in okK -> okK "max_samples_stream" ->
  keeps okE okK (load_v23 env file ft rd).
Proof.
  intros Hw [K1 K2] K3. unfold load_v23.
  do 5 (apply keeps_bind; [keeps_auto | intros ?]).
  apply keeps_bind.
  { apply keeps_read_packages; [discriminate | intros _; now split]. }
  intros r1. destruct (fst r1); [| keeps_auto].
  destruct rd; [| keeps_auto].
  apply keeps_bind.
  { apply keeps_read_packages; [auto | discriminate]. }
  intros r2. keeps_auto.
Qed.

Lemma keeps_read_stream_details n :
  okK "stream_data_types" -> okK "stream_samples_per_package" ->
  keeps okE okK (read_stream_details file n).
Proof.
  intros K1 K2. induction n as [|n IH]; simpl.
  - keeps_auto.
  - unfold happend. keeps_auto.
Qed.

End DecoderFootprints.

(** ** What a whole load may log *)

Lemma load_event_log rd : may_log (load_event rd).
Proof. now intros l. Qed.

Lemma load_event_write : may_write (load_event true).
Proof. now intros r0 r1 c0 c1. Qed.

Lemma load_event_allocate : may_allocate (load_event true).
Proof. now split. Qed.

Lemma keeps_read_contents okE okK env file rd :
  may_log okE -> (rd = true -> may_write okE /\ may_allocate okE) ->
  (forall k, derived_field k -> okK k) ->
  keeps okE okK (read_contents env file rd).
Proof.
  intros HL HW HK. unfold read_contents.
  assert (K1 : okK "row_size") by (apply HK; unfold derived_field; auto 10).
  assert (K2 : okK "num_rows") by (apply HK; unfold derived_field; auto 10).
  assert (K3 : okK "total_samples") by (apply HK; unfold derived_field; auto 10).
  assert (K4 : okK "total_packages") by (apply HK; unfold derived_field; auto 10).
  assert (K5 : okK "max_samples_stream") by (apply HK; unfold derived_field; auto 10).
  do 2 (apply keeps_bind; [keeps_auto | intros ?]).
  apply keeps_bind; [| intros ?; keeps_auto].
  destruct (py_eq_int _ _).
  - apply keeps_load_v1; auto.
  - apply keeps_bind; [keeps_auto | intros ?].
    destruct (py_in_ints _ _); [| keeps_auto].
    apply keeps_load_v23; auto. now split.
Qed.

Lemma keeps_with_file okE okK env file rd :
  may_log okE -> (rd = true -> may_write okE /\ may_allocate okE) ->
  (forall k, okK k) ->
  keeps okE okK (with_file env file rd).
Proof.
  intros HL HW HK. unfold with_file, read_preamble.
  do 2 (apply keeps_bind; [keeps_auto | intros ?]).
  destruct (negb _); [keeps_auto |].
  apply keeps_bind.
  { unfold read_header_fields. keeps_auto.
    apply keeps_read_stream_details; auto. }
  intros _. apply keeps_read_contents; auto.
Qed.

(** Every event of a load is one that [load_event] allows. *)
Lemma load_data_events env file rd w :
  exists t, trace (load_data env file rd w).2 = trace w ++ t /\
            Forall (load_event rd) t.
Proof.
  assert (H : keeps (load_event rd) (fun _ => True)
                (try_except (with_file env file rd)
                   (fun e => logging_error ;; ret (None, None)))).
  { apply keeps_try_except.
    - apply keeps_with_file; auto using load_event_log.
      intros ->. split; [apply load_event_write | apply load_event_allocate].
    - intros e. pose proof (load_event_log rd). keeps_auto. }
  destruct (H (hclear w).2) as [Ht _]. exact Ht.
Qed.

(** ** Weakest preconditions

    [wp m Q w]: running [m] from [w] ends in an outcome and a world that
    satisfy [Q]. *)

Lemma wp_bind {A B} (m : M A) (k : A -> M B) Q w :
  wp m (wp_then k Q) w -> wp (bind m k) Q w.
Proof.
  unfold wp, wp_then, bind. now destruct (m w) as [[a|e|] w'].
Qed.

Lemma wp_mono {A} (m : M A) (Q1 Q2 : result A -> world -> Prop) w :
  wp m Q1 w -> (forall r w', Q1 r w' -> Q2 r w') -> wp m Q2 w.
Proof. unfold wp. auto. Qed.

Lemma wp_run {A} (m : M A) Q w r w' : wp m Q w -> m w = (r, w') -> Q r w'.
Proof. unfold wp. intros H E. now rewrite E in H. Qed.

Lemma wp_pure {A} (m : M A) Q w :
  pure_m m -> (forall r, (m w).1 = r -> Q r w) -> wp m Q w.
Proof. intros Hp H. unfold wp. specialize (Hp w). destruct (m w) as [r w'] eqn:E. simpl in *. subst w'. now apply H. Qed.

Lemma wp_try_except {A} (m : M A) (h : exn -> M A) Q w :
  wp m (fun r w' => match r with
                    | Raise e => wp (h e) Q w'
                    | _ => Q r w'
                    end) w ->
  wp (try_except m h) Q w.
Proof.
  unfold wp, try_except. now destruct (m w) as [[a|e|] w'].
Qed.

(** A program inside a frame, as a weakest precondition. *)
Lemma wp_keeps {A} (m : M A) okE okK (Q : result A -> world -> Prop) w :
  keeps okE okK m ->
  (forall r w', frame okE okK w w' -> Q r w') -> wp m Q w.
Proof. intros Hk H. apply H, Hk. Qed.

(** The primitives. *)

Lemma wp_ret {A} (a : A) (Q : result A -> world -> Prop) w :
  Q (Ok a) w -> wp (ret a) Q w.
Proof. exact id. Qed.

Lemma wp_raise {A} e (Q : result A -> world -> Prop) w :
  Q (Raise e) w -> wp (raise e) Q w.
Proof. exact id. Qed.

Lemma wp_diverge {A} (Q : result A -> world -> Prop) w :
  Q Diverge w -> wp diverge Q w.
Proof. exact id. Qed.

Lemma wp_hset k v (Q : result unit -> world -> Prop) w :
  Q (Ok tt) {| cursor := cursor w; header := <[k := v]> (header w); trace := trace w |} ->
  wp (hset k v) Q w.
Proof. exact id. Qed.

Lemma wp_hclear (Q : result unit -> world -> Prop) w :
  Q (Ok tt) {| cursor := cursor w; header := ∅; trace := trace w |} ->
  wp hclear Q w.
Proof. exact id. Qed.

Lemma wp_emit e (Q : result unit -> world -> Prop) w :
  Q (Ok tt) {| cursor := cursor w; header := header w; trace := trace w ++ [e] |} ->
  wp (emit e) Q w.
Proof. exact id. Qed.

Lemma wp_set_cursor p (Q : result unit -> world -> Prop) w :
  Q (Ok tt) {| cursor := p; header := header w; trace := trace w |} ->
  wp (set_cursor p) Q w.
Proof. exact id. Qed.

Lemma wp_file_read file n (Q : result (list byte) -> world -> Prop) w :
  Q (Ok (bytes_at file (cursor w) n))
    {| cursor := cursor w + Z.of_nat (length (bytes_at file (cursor w) n));
       header := header w; trace := trace w |} ->
  wp (file_read file n) Q w.
Proof. exact id. Qed.

Lemma wp_np_fromfile file n (Q : result (list Z) -> world -> Prop) w :
  Q (np_fromfile file n w).1
    {| cursor := cursor (np_fromfile file n w).2; header := header w; trace := trace w |} ->
  wp (np_fromfile file n) Q w.
Proof. exact id. Qed.

Lemma wp_file_tell (Q : result Z -> world -> Prop) w :
  Q (Ok (cursor w)) w -> wp file_tell Q w.
Proof. exact id. Qed.

Lemma wp_get_header (Q : result (gmap string pyval) -> world -> Prop) w :
  Q (Ok (header w)) w -> wp get_header Q w.
Proof. exact id. Qed.

Lemma wp_hmem k (Q : result bool -> world -> Prop) w :
  Q (Ok (bool_decide (is_Some (header w !! k)))) w -> wp (hmem k) Q w.
Proof. exact id. Qed.

(** One step of symbolic execution. *)
Ltac wp_step :=
  lazymatch goal with
  | |- wp (bind _ _) _ _ => apply wp_bind
  | |- wp (try_except _ _) _ _ => apply wp_try_except
  | |- wp (if ?b then _ else _) _ _ => destruct b eqn:?
  | |- wp (match ?x with _ => _ end) _ _ => destruct x eqn:?
  | |- wp (let _ := _ in _) _ _ => cbv zeta
  | |- wp_then _ _ _ _ => unfold wp_then at 1; cbv beta iota
  | |- wp (ret _) _ _ => apply wp_ret
  | |- wp (raise _) _ _ => apply wp_raise
  | |- wp diverge _ _ => apply wp_diverge
  | |- wp (hset _ _) _ _ => apply wp_hset
  | |- wp hclear _ _ => apply wp_hclear
  | |- wp (emit _) _ _ => apply wp_emit
  | |- wp (set_cursor _) _ _ => apply wp_set_cursor
  | |- wp (file_read _ _) _ _ => apply wp_file_read
  | |- wp (np_fromfile _ _) _ _ => apply wp_np_fromfile
  | |- wp file_tell _ _ => apply wp_file_tell
  | |- wp get_header _ _ => apply wp_get_header
  | |- wp (hmem _) _ _ => apply wp_hmem
  | |- wp logging_error _ _ => unfold logging_error
  | |- wp logging_warning _ _ => unfold logging_warning
  | |- wp (file_seek _ _) _ _ => unfold file_seek
  | |- wp (decode_ascii _) _ _ => unfold decode_ascii
  | |- wp (struct_unpack_d _) _ _ => unfold struct_unpack_d
  | |- wp (py_floor_div _ _) _ _ => unfold py_floor_div
  | |- wp (local_get _) _ _ => unfold local_get
  | |- wp (the_data _) _ _ => unfold the_data
  | |- wp (reshape_rows _ _) _ _ => unfold reshape_rows
  | |- wp (py_add _ _) _ _ => unfold py_add
  | |- wp (py_max _) _ _ => unfold py_max
  end.

(** The fields of a world that is given as a record. *)
Ltac world_simpl := cbn [cursor header trace] in *.

Ltac wp_steps := repeat (wp_step; world_simpl).

(** ** Header lookups *)

Lemma wp_hget k (Q : result pyval -> world -> Prop) w v :
  header w !! k = Some v -> Q (Ok v) w -> wp (hget k) Q w.
Proof. intros H HQ. unfold wp. now rewrite (hget_run _ _ _ H). Qed.

Lemma wp_hget_int k (Q : result Z -> world -> Prop) w z :
  header w !! k = Some (PInt z) -> Q (Ok z) w -> wp (hget_int k) Q w.
Proof. intros H HQ. unfold wp. now rewrite (hget_int_run _ _ _ H). Qed.

Lemma wp_hget_str k (Q : result string -> world -> Prop) w s :
  header w !! k = Some (PStr s) -> Q (Ok s) w -> wp (hget_str k) Q w.
Proof. intros H HQ. unfold wp. now rewrite (hget_str_run _ _ _ H). Qed.

(** Lookups in a header that is a stack of insertions. *)
Ltac hlookup :=
  cbn [cursor header trace];
  repeat first
    [ rewrite lookup_insert_eq
    | rewrite lookup_insert_ne by done
    | rewrite lookup_empty
    | match goal with
      | H : forall k, _ -> _ -> header ?w !! k = _ |- context [header ?w !! _] =>
          rewrite H by done
      end ];
  try reflexivity; try eassumption; eauto.

Ltac wp_get :=
  lazymatch goal with
  | |- wp (hget _) _ _ => eapply wp_hget; [solve [hlookup] |]
  | |- wp (hget_int _) _ _ => eapply wp_hget_int; [solve [hlookup] |]
  | |- wp (hget_str _) _ _ => eapply wp_hget_str; [solve [hlookup] |]
  | |- wp (happend _ _) _ _ => unfold happend
  | |- _ => wp_step
  end.

Ltac wp_run := repeat (wp_get; world_simpl).

Lemma int_from_bytes_nonneg bs : 0 <= int_from_bytes bs.
Proof.
  induction bs as [|b bs IH]; simpl; [lia |].
  unfold byte_val. lia.
Qed.

(** Lines 82-84 append one entry per stream to both lists and touch nothing
    else. *)
Lemma wp_read_stream_details file n (Q : result unit -> world -> Prop) w a b :
  header w !! "stream_data_types" = Some (PList a) ->
  header w !! "stream_samples_per_package" = Some (PList b) ->
  (forall w' a' b',
      length a' = n -> length b' = n ->
      header w' !! "stream_data_types" = Some (PList (a ++ a')) ->
      header w' !! "stream_samples_per_package" = Some (PList (b ++ b')) ->
      (forall k, k <> "stream_data_types" -> k <> "stream_samples_per_package" ->
                 header w' !! k = header w !! k) ->
      trace w' = trace w -> cursor w <= cursor w' ->
      Q (Ok tt) w') ->
  wp (read_stream_details file n) Q w.
Proof.
  revert w a b. induction n as [|n IH]; intros w a b Ha Hb HQ; simpl.
  - wp_run. apply (HQ w [] []); auto; try lia; now rewrite app_nil_r.
  - wp_run.
    eapply IH; world_simpl; [hlookup | hlookup |].
    intros w' a' b' La Lb Ha' Hb' Hk Ht Hc. world_simpl.
    rewrite <- app_assoc in Ha', Hb'.
    refine (HQ w' (_ :: a') (_ :: b') _ _ Ha' Hb' _ Ht _); simpl; auto; try lia.
    intros k K1 K2. rewrite Hk by done. hlookup.
Qed.

(** ** The header after lines 53-92 *)

Lemma py_in_ints_23 v : py_in_ints (PInt v) [2; 3] = true <-> v = 2 \/ v = 3.
Proof. simpl. lia. Qed.

Lemma py_in_ints_123 v :
  py_in_ints (PInt v) [1; 2; 3] = true <-> v = 1 \/ v = 2 \/ v = 3.
Proof. simpl. lia. Qed.

Lemma py_eq_int_iff v z : py_eq_int (PInt v) z = true <-> v = z.
Proof. unfold py_eq_int. simpl. lia. Qed.

Lemma py_in_ints_23_false v :
  py_in_ints (PInt v) [2; 3] = false <-> ~ (v = 2 \/ v = 3).
Proof. simpl. lia. Qed.

Lemma py_eq_int_false v z : py_eq_int (PInt v) z = false <-> v <> z.
Proof. unfold py_eq_int. simpl. lia. Qed.

(** Turn the boolean tests of the decoder into propositions. *)
Ltac tests :=
  repeat match goal with
    | H : String.eqb _ _ = true |- _ => apply String.eqb_eq in H
    | H : String.eqb _ _ = false |- _ => apply String.eqb_neq in H
    | H : py_eq_int (PInt _) _ = true |- _ => apply py_eq_int_iff in H
    | H : py_eq_int (PInt _) _ = false |- _ => apply py_eq_int_false in H
    | H : py_in_ints (PInt _) [2; 3] = true |- _ => apply py_in_ints_23 in H
    | H : py_in_ints (PInt _) [2; 3] = false |- _ => apply py_in_ints_23_false in H
    | H : py_in_ints (PInt _) [1; 2; 3] = true |- _ => apply py_in_ints_123 in H
    end.

Lemma wp_file_read_any file n (Q : result (list byte) -> world -> Prop) w :
  (forall bs c', cursor w <= c' ->
     Q (Ok bs) {| cursor := c'; header := header w; trace := trace w |}) ->
  wp (file_read file n) Q w.
Proof. intros H. apply wp_file_read, H. lia. Qed.

(** Symbolic execution that forgets which bytes were read. *)
Ltac wp_skim :=
  repeat (lazymatch goal with
          | |- wp (file_read _ _) _ _ => apply wp_file_read_any; intros ? ? ?
          | |- _ => wp_get
          end; world_simpl).

Lemma wp_read_header_fields file (Q : result unit -> world -> Prop) w fs v :
  header w = <["version" := PInt v]> (<["file_size" := PInt fs]> ∅) ->
  (forall w', header_shape fs v (header w') -> trace w' = trace w ->
              cursor w <= cursor w' -> Q (Ok tt) w') ->
  (forall e w', Q (Raise e) w') ->
  wp (read_header_fields file) Q w.
Proof.
  intros Hh HQ HR. unfold read_header_fields.
  destruct w as [c h t]; simpl in *; subst h.
  wp_skim; try apply HR; try congruence.
  all: try (eapply wp_read_stream_details;
            [ solve [hlookup] | solve [hlookup]
            | intros w' a' b' La Lb Ha' Hb' Hk Ht Hc ];
            world_simpl; wp_skim; try apply HR).
  all: apply HQ; world_simpl; [ | congruence | lia ].
  all: tests; constructor; try solve [hlookup].
  all: try (eexists; split; [solve [hlookup] | apply int_from_bytes_nonneg]).
  all: try (intros ns0; hlookup; intros [= <-]; apply int_from_bytes_nonneg).
  all: try (intros Hv; first [ exfalso; tauto | exfalso; lia
                             | repeat constructor; solve [hlookup]
                             | simpl in *; do 5 eexists; repeat split;
                               try solve [hlookup]; assumption ]).
  all: eexists; (split; [solve [hlookup] |]); split; intros Hcode.
  all: first [ eexists; solve [hlookup] | solve [hlookup]
             | exfalso; tauto | exfalso; lia ].
Qed.

(** ** From the bytes to the parsed header *)

Lemma preamble_run file :
  (hclear ;; read_preamble file) start = (Ok tt, after_preamble file).
Proof. reflexivity. Qed.

Lemma parsed_header_run file h :
  parsed_header file = Some h <->
  exists w', read_header_fields file (after_preamble file) = (Ok tt, w') /\
             header w' = h.
Proof.
  unfold parsed_header.
  change ((hclear ;; read_preamble file ;; read_header_fields file) start)
    with (read_header_fields file (after_preamble file)).
  destruct (read_header_fields file (after_preamble file)) as [[[]|e|] w'].
  - split; [intros [= <-]; eauto | intros (w2 & [= <-] & <-); reflexivity].
  - split; [discriminate | intros (w2 & [=] & _)].
  - split; [discriminate | intros (w2 & [=] & _)].
Qed.

Lemma header_shape_run file w' :
  read_header_fields file (after_preamble file) = (Ok tt, w') ->
  header_shape (getsize file) (version_tag file) (header w') /\
  trace w' = [].
Proof.
  intros E.
  refine (wp_run _ (fun r w' => r = Ok tt -> _) _ _ _ _ E eq_refl).
  apply wp_read_header_fields with (fs := getsize file) (v := version_tag file).
  - reflexivity.
  - intros w2 Hs Ht _ _. auto.
  - discriminate.
Qed.

(** The header that lines 48-92 build has the shape that the version tag
    prescribes. *)
Lemma parsed_header_shape file h :
  parsed_header file = Some h ->
  header_shape (getsize file) (version_tag file) h.
Proof.
  intros (w' & E & <-)%parsed_header_run. now apply header_shape_run.
Qed.

(** With a known version, the body of [load_data] is [read_contents] run on
    the parsed header. *)
Lemma load_data_body_known env file rd :
  version_tag file = 1 \/ version_tag file = 2 \/ version_tag file = 3 ->
  load_data_body env file rd start =
    (read_header_fields file ;; read_contents env file rd) (after_preamble file).
Proof.
  intros Hv%py_in_ints_123.
  unfold load_data_body, with_file.
  change ((hclear ;; read_preamble file ;; ?k) start)
    with ((read_preamble file ;; k) {| cursor := 0; header := ∅; trace := [] |}).
  rewrite (bind_ok _ _ _ tt (after_preamble file)) by reflexivity.
  rewrite (bind_ok _ _ _ (PInt (version_tag file)) (after_preamble file))
    by (apply hget_run, lookup_insert_eq).
  now rewrite Hv.
Qed.

(** With any other version tag, building the log message raises. *)
Lemma load_data_body_unknown env file rd :
  ~ (version_tag file = 1 \/ version_tag file = 2 \/ version_tag file = 3) ->
  load_data_body env file rd start = (Raise TypeError, after_preamble file).
Proof.
  intros Hv. unfold load_data_body, with_file.
  change ((hclear ;; read_preamble file ;; ?k) start)
    with ((read_preamble file ;; k) {| cursor := 0; header := ∅; trace := [] |}).
  rewrite (bind_ok _ _ _ tt (after_preamble file)) by reflexivity.
  rewrite (bind_ok _ _ _ (PInt (version_tag file)) (after_preamble file))
    by (apply hget_run, lookup_insert_eq).
  destruct (py_in_ints _ _) eqn:E; [apply py_in_ints_123 in E; tauto |].
  cbn [negb].
  rewrite (bind_ok (hget "version") _ _ (PInt (version_tag file)) (after_preamble file))
    by (apply hget_run, lookup_insert_eq).
  reflexivity.
Qed.

(** [load_data] turns every exception of its body into [(None, None)]. *)
Lemma load_data_raise env file rd e w w' :
  load_data_body env file rd w = (Raise e, w') ->
  (load_data env file rd w).1 = Ok (None, None).
Proof. intros E. unfold load_data, try_except. now rewrite E. Qed.

Lemma load_data_ok env file rd r w w' :
  load_data_body env file rd w = (Ok r, w') ->
  load_data env file rd w = (Ok r, w').
Proof. intros E. unfold load_data, try_except. now rewrite E. Qed.

Lemma run_load_data_raise env file rd e w' :
  load_data_body env file rd start = (Raise e, w') ->
  (run_load_data env file rd).1 = Ok (None, None).
Proof. apply load_data_raise. Qed.

(** ** A file that declares no streams *)

Lemma read_contents_no_streams env file rd w v :
  header w !! "version" = Some (PInt v) -> v = 2 \/ v = 3 ->
  (exists code, header w !! "code" = Some (PStr code)) ->
  header w !! "stream_samples_per_package" = Some (PList []) ->
  (read_contents env file rd w).1 = Raise ValueError.
Proof.
  intros Hver Hv [code Hcode] Hspp.
  change (wp (read_contents env file rd) (fun r _ => r = Raise ValueError) w).
  unfold read_contents, determine_file_type, load_v23.
  wp_run; tests; try lia; reflexivity.
Qed.

(** ** The header that is returned *)

Lemma wp_any {A} (m : M A) (Q : result A -> world -> Prop) w :
  (forall r w', Q r w') -> wp m Q w.
Proof. intros H. apply H. Qed.

(** Symbolic execution that follows the control structure only. *)
Ltac wp_blind :=
  repeat (lazymatch goal with
          | |- wp (bind _ _) _ _ => apply wp_bind
          | |- wp (if ?b then _ else _) _ _ => destruct b
          | |- wp (match ?x with _ => _ end) _ _ => destruct x
          | |- wp_then _ _ ?r _ => unfold wp_then at 1; cbv beta iota
          | |- wp (ret _) _ _ => apply wp_ret
          | |- wp get_header _ _ => apply wp_get_header
          | |- wp _ _ _ => apply wp_any; intros [?|?|] ?
          end).

(** A [return header, data] statement returns the header as it is at that
    moment, and nothing changes it afterwards. *)
Lemma read_contents_returns env file rd w h d w' :
  read_contents env file rd w = (Ok (Some h, d), w') -> h = header w'.
Proof.
  intros E.
  refine (wp_run _ (fun r w' => forall h d, r = Ok (Some h, d) -> h = header w')
            _ _ _ _ E h d eq_refl).
  unfold read_contents, load_v1, load_v23.
  wp_blind; intros; congruence.
Qed.

(** ** Reading only the header *)

(** Take the successful run of a sequence apart, step by step. *)
Ltac peel E :=
  let a := fresh "a" in
  let w := fresh "w" in
  let E1 := fresh "E" in
  apply bind_ok_inv in E; destruct E as (a & w & E1 & E).

(** Replay the steps of a run that was taken apart. *)
Ltac replay :=
  repeat match goal with
    | H : ?m ?w = (Ok _, _) |- context [bind ?m _ ?w] =>
        rewrite (bind_ok m _ w _ _ H)
    end.

(** A run that sets no header field leaves the header as it is. *)
Lemma keeps_header okE {A} (m : M A) w r w' :
  keeps okE (fun _ => False) m -> m w = (r, w') -> header w' = header w.
Proof.
  intros Hk E. specialize (Hk w). rewrite E in Hk. simpl in Hk.
  destruct Hk as (_ & Hh & _).
  apply map_eq. intros k. apply Hh. exact id.
Qed.

Lemma any_event_log : may_log any_event.
Proof. now intros l. Qed.

Lemma any_event_write : may_write any_event.
Proof. now intros r0 r1 c0 c1. Qed.

Lemma any_event_allocate : may_allocate any_event.
Proof. now split. Qed.

#[local] Hint Resolve any_event_log any_event_write any_event_allocate : keeps.

Lemma load_v1_header_only env file ft w r w1 :
  load_v1 env file ft true w = (Ok r, w1) ->
  exists w1', load_v1 env file ft false w = (Ok None, w1') /\
              header w1' = header w1.
Proof.
  intros E. unfold load_v1 in *.
  do 6 peel E.
  eexists. split.
  - replay. reflexivity.
  - symmetry. eapply (keeps_header any_event); [| exact E].
    keeps_auto.
    + apply keeps_allocate_array; auto with keeps. discriminate.
    + apply keeps_read_rows_v1; auto with keeps.
Qed.

Lemma load_v23_header_only env file ft w r w1 :
  load_v23 env file ft true w = (Ok r, w1) ->
  exists w1', load_v23 env file ft false w = (Ok None, w1') /\
              header w1' = header w1.
Proof.
  intros E. unfold load_v23 in *.
  do 6 peel E.
  destruct (fst a4) eqn:Hs.
  - eexists. split.
    + replay. rewrite Hs. reflexivity.
    + symmetry. eapply (keeps_header any_event); [| exact E].
      keeps_auto.
      apply keeps_read_packages; auto with keeps; discriminate.
  - eexists. split.
    + replay. rewrite Hs. reflexivity.
    + inversion E. reflexivity.
Qed.

(** Whenever reading header and data returns a header, reading only the
    header returns that same header. *)
Lemma read_contents_header_only env file w h d w' :
  read_contents env file true w = (Ok (Some h, d), w') ->
  (read_contents env file false w).1 = Ok (Some h, None).
Proof.
  intros E. pose proof (read_contents_returns _ _ _ _ _ _ _ E) as ->.
  unfold read_contents in *.
  do 2 peel E. replay.
  destruct (py_eq_int a0 1).
  - apply bind_ok_inv in E as (r1 & w2 & Ev & E).
    destruct (load_v1_header_only _ _ _ _ _ _ Ev) as (w3 & E3 & Hh).
    rewrite (bind_ok _ _ _ _ _ E3). simpl. rewrite Hh.
    destruct r1 as [r|]; inversion E; reflexivity.
  - apply bind_ok_inv in E as (r1 & w2 & Ev & E).
    apply bind_ok_inv in Ev as (v2 & w3 & Eg & Ev).
    rewrite (bind_run _ _ w1), (bind_run (hget "version") _ w1), Eg.
    destruct (py_in_ints v2 [2; 3]).
    + destruct (load_v23_header_only _ _ _ _ _ _ Ev) as (w4 & E4 & Hh).
      rewrite E4. simpl. rewrite Hh.
      destruct r1 as [r|]; inversion E; reflexivity.
    + inversion Ev; subst. inversion E; reflexivity.
Qed.

(** ** A load that returns a header *)

(** A load returns a header only through [read_contents], run on the header
    of a known version. *)
Lemma load_returns_header_inv env file rd h d :
  (run_load_data env file rd).1 = Ok (Some h, d) ->
  known_version file /\
  exists w2 w3,
    read_header_fields file (after_preamble file) = (Ok tt, w2) /\
    read_contents env file rd w2 = (Ok (Some h, d), w3) /\
    h = header w3.
Proof.
  unfold run_load_data, known_version. intros H.
  destruct (load_data_body env file rd start) as [[r|e|] w] eqn:E.
  - rewrite (load_data_ok _ _ _ _ _ _ E) in H. simpl in H. injection H as ->.
    destruct (decide (version_tag file = 1 \/ version_tag file = 2 \/
                      version_tag file = 3)) as [Hv|Hv].
    + split; [exact Hv |].
      rewrite (load_data_body_known _ _ _ Hv) in E.
      apply bind_ok_inv in E as ([] & w2 & E2 & E3).
      exists w2, w. repeat split; auto.
      eapply read_contents_returns; eauto.
    + rewrite (load_data_body_unknown _ _ _ Hv) in E. discriminate.
  - rewrite (load_data_raise _ _ _ _ _ _ E) in H. discriminate.
  - unfold load_data, try_except in H. rewrite E in H. discriminate.
Qed.

Lemma load_data_run env file rd w2 r :
  known_version file ->
  read_header_fields file (after_preamble file) = (Ok tt, w2) ->
  (read_contents env file rd w2).1 = Ok r ->
  (run_load_data env file rd).1 = Ok r.
Proof.
  intros Hv E2 E3. unfold run_load_data.
  destruct (read_contents env file rd w2) as [r' w3] eqn:E. simpl in E3. subst r'.
  erewrite load_data_ok; [reflexivity |].
  rewrite (load_data_body_known _ _ _ Hv), (bind_ok _ _ _ _ _ E2). exact E.
Qed.

(** ** Cells that are never assigned *)

Lemma cell_np_full nr nc v r c x : cell (np_full nr nc v) r c = Some x -> x = v.
Proof.
  unfold cell, np_full. simpl.
  destruct (replicate nr (replicate nc v) !! r) as [row|] eqn:E; [| discriminate].
  apply lookup_replicate in E as [-> _].
  intros H. now apply lookup_replicate in H as [-> _].
Qed.

Lemma cell_update_cells d f r c x :
  cell (update_cells d f) r c = Some x ->
  f r c = Some x \/ (f r c = None /\ cell d r c = Some x).
Proof.
  unfold cell, update_cells. simpl.
  rewrite list_lookup_imap.
  destruct (rows d !! r) as [row|]; simpl; [| discriminate].
  rewrite list_lookup_imap.
  destruct (row !! c) as [y|]; simpl; [| discriminate].
  destruct (f r c) as [z|]; simpl; intros [= <-]; auto.
Qed.

(** An assignment changes no cell outside its region. *)
Lemma cell_block_update d ra rb ca cb src r c x :
  cell (block_update d ra rb ca cb src) r c = Some x ->
  ((ra <= r < rb)%nat /\ (ca <= c < cb)%nat) \/ cell d r c = Some x.
Proof.
  unfold block_update. intros H. apply cell_update_cells in H.
  destruct (in_range ra rb r && in_range ca cb c) eqn:E.
  - left. unfold in_range in E.
    apply andb_prop in E as [E1 E2].
    apply andb_prop in E1 as [A B]. apply andb_prop in E2 as [C D].
    apply Nat.leb_le in A, C. apply Nat.ltb_lt in B, D. lia.
  - right. destruct H as [H|[_ H]]; [discriminate | exact H].
Qed.

Lemma covered_mono t t' r c : covered t r c -> covered (t ++ t') r c.
Proof.
  intros (r0 & r1 & c0 & c1 & Hin & Hr & Hc).
  exists r0, r1, c0, c1. repeat split; try lia. apply in_or_app. now left.
Qed.

Lemma nan_mono t t' d : nan_unless_written t d -> nan_unless_written (t ++ t') d.
Proof.
  intros H r c v Hc Hn. apply (H r c v Hc). intros Hcov.
  apply Hn. now apply covered_mono.
Qed.

Lemma nan_full t nr nc : nan_unless_written t (np_full nr nc np_nan).
Proof. intros r c v Hc _. now apply cell_np_full in Hc. Qed.

Lemma nan_block_update t d ra rb ca cb src :
  nan_unless_written t d ->
  nan_unless_written (t ++ [EvWrite ra rb ca cb]) (block_update d ra rb ca cb src).
Proof.
  intros H r c v Hc Hn.
  apply cell_block_update in Hc as [[Hr Hcc]|Hc].
  - exfalso. apply Hn. exists ra, rb, ca, cb. repeat split; try lia.
    apply in_or_app. right. now left.
  - apply (H r c v Hc). intros Hcov. apply Hn. now apply covered_mono.
Qed.

(** The matrix that the allocator returns holds [fill_value] everywhere. *)
Lemma allocate_array_filled env dims v check w a w' :
  _allocate_array env dims v check w = (Ok (Some a), w') ->
  exists nr nc, a = np_full nr nc v.
Proof.
  intros E.
  refine (wp_run _ (fun r _ => forall a, r = Ok (Some a) -> _) _ _ _ _ E a eq_refl).
  unfold _allocate_array, np_empty, alloc_handler, np_fill, virtual_memory.
  destruct dims as [r c].
  wp_steps; intros ? [=]; subst; eauto.
Qed.

(** ** The materializing pass and the cells it does not assign *)

Lemma wp_np_fromfile_any file n (Q : result (list Z) -> world -> Prop) w :
  (forall vs c', Q (Ok vs) {| cursor := c'; header := header w; trace := trace w |}) ->
  wp (np_fromfile file n) Q w.
Proof. intros H. unfold wp, np_fromfile. cbn. apply H. Qed.

Lemma wp_setitem_block_nan d r0 r1 c0 c1 src
    (Q : result ndarray -> world -> Prop) w :
  nan_unless_written (trace w) d ->
  (forall d' e, nan_unless_written (trace w ++ [e]) d' ->
     Q (Ok d') {| cursor := cursor w; header := header w; trace := trace w ++ [e] |}) ->
  (forall e, Q (Raise e) w) ->
  wp (setitem_block d r0 r1 c0 c1 src) Q w.
Proof.
  intros Hd HQ HR. unfold setitem_block.
  destruct (slice_clip r0 r1 (nrows d)) as [ra rb].
  destruct (slice_clip c0 c1 (ncols d)) as [ca cb].
  destruct (_ && _); [| apply HR].
  unfold wp, bind, emit, ret. cbn. apply HQ. now apply nan_block_update.
Qed.

Lemma wp_setitem_col_nan d r0 r1 c v (Q : result ndarray -> world -> Prop) w :
  nan_unless_written (trace w) d ->
  (forall d' e, nan_unless_written (trace w ++ [e]) d' ->
     Q (Ok d') {| cursor := cursor w; header := header w; trace := trace w ++ [e] |}) ->
  (forall e, Q (Raise e) w) ->
  wp (setitem_col d r0 r1 c v) Q w.
Proof.
  intros Hd HQ HR. unfold setitem_col.
  destruct (index_ok _ _); [now apply wp_setitem_block_nan | apply HR].
Qed.

Lemma wp_setitem_cell_nan d r c v (Q : result ndarray -> world -> Prop) w :
  nan_unless_written (trace w) d ->
  (forall d' e, nan_unless_written (trace w ++ [e]) d' ->
     Q (Ok d') {| cursor := cursor w; header := header w; trace := trace w ++ [e] |}) ->
  (forall e, Q (Raise e) w) ->
  wp (setitem_cell d r c v) Q w.
Proof.
  intros Hd HQ HR. unfold setitem_cell.
  destruct (_ && _); [now apply wp_setitem_block_nan | apply HR].
Qed.

Lemma wp_setitem_row_nan d r c0 c1 vs (Q : result ndarray -> world -> Prop) w :
  nan_unless_written (trace w) d ->
  (forall d' e, nan_unless_written (trace w ++ [e]) d' ->
     Q (Ok d') {| cursor := cursor w; header := header w; trace := trace w ++ [e] |}) ->
  (forall e, Q (Raise e) w) ->
  wp (setitem_row d r c0 c1 vs) Q w.
Proof.
  intros Hd HQ HR. unfold setitem_row.
  destruct (index_ok _ _); [now apply wp_setitem_block_nan | apply HR].
Qed.

(** The invariant for the matrix at hand, whatever was logged since. *)
Ltac nan_hyp :=
  first [ eassumption
        | match goal with
          | H : nan_unless_written_opt _ (Some ?a) |- nan_unless_written _ ?a =>
              apply (H a eq_refl)
          end
        | apply nan_mono; nan_hyp ].

Ltac nan_opt :=
  lazymatch goal with
  | |- nan_unless_written_opt _ (Some _) =>
      let a := fresh in intros a [= <-]; nan_hyp
  | |- nan_unless_written_opt _ None => intros ? [=]
  | |- nan_unless_written_opt _ _ =>
      first [ eassumption
            | let a := fresh in let E := fresh in
              intros a E;
              match goal with
              | H : nan_unless_written_opt _ _ |- _ =>
                  specialize (H a E); nan_hyp
              end ]
  end.

(** Symbolic execution that keeps track of the trace only. *)
Ltac nan_walk :=
  repeat (lazymatch goal with
          | |- wp (bind _ _) _ _ => apply wp_bind
          | |- wp_then _ _ _ _ => unfold wp_then at 1; cbv beta iota
          | |- wp (if ?b then _ else _) _ _ => destruct b
          | |- wp (match ?x with _ => _ end) _ _ => destruct x
          | |- wp (let _ := _ in _) _ _ => cbv zeta
          | |- wp (ret _) _ _ => apply wp_ret
          | |- wp (raise _) _ _ => apply wp_raise
          | |- wp diverge _ _ => apply wp_diverge
          | |- wp (hset _ _) _ _ => apply wp_hset
          | |- wp (emit _) _ _ => apply wp_emit
          | |- wp (set_cursor _) _ _ => apply wp_set_cursor
          | |- wp (file_read _ _) _ _ => apply wp_file_read_any; intros ? ? _
          | |- wp (np_fromfile _ _) _ _ => apply wp_np_fromfile_any; intros ? ?
          | |- wp file_tell _ _ => apply wp_file_tell
          | |- wp get_header _ _ => apply wp_get_header
          | |- wp (hmem _) _ _ => apply wp_hmem
          | |- wp logging_error _ _ => unfold logging_error
          | |- wp logging_warning _ _ => unfold logging_warning
          | |- wp (file_seek _ _) _ _ => unfold file_seek
          | |- wp (the_data _) _ _ => unfold the_data
          | |- wp (setitem_block _ _ _ _ _ _) _ _ =>
              apply wp_setitem_block_nan; [solve [nan_hyp] | intros ? ? ? | intros ?]
          | |- wp (setitem_col _ _ _ _ _) _ _ =>
              apply wp_setitem_col_nan; [solve [nan_hyp] | intros ? ? ? | intros ?]
          | |- wp (setitem_cell _ _ _ _) _ _ =>
              apply wp_setitem_cell_nan; [solve [nan_hyp] | intros ? ? ? | intros ?]
          | |- wp (setitem_row _ _ _ _ _) _ _ =>
              apply wp_setitem_row_nan; [solve [nan_hyp] | intros ? ? ? | intros ?]
          | |- wp (chunk_loop _ _ _ _ _ _) _ _ => fail
          | |- wp (package_loop _ _ _ _ _ _ _ _ _) _ _ => fail
          | |- wp (read_rows_v1 _ _ _ _) _ _ => fail
          | |- wp (read_package _ _ _ _ _ _ _) _ _ => fail
          | |- wp (read_chunked_package _ _ _ _ _ _ _) _ _ => fail
          | |- wp (read_flat_package _ _ _ _ _ _ _ _ _) _ _ => fail
          | |- wp (_allocate_array _ _ _ _) _ _ => fail
          | |- wp _ _ _ => apply wp_pure; [solve [auto with pure] | intros [?|?|] _]
          end; world_simpl).

Lemma chunk_loop_nan file rd hc fuel ri l w :
  nan_unless_written_opt (trace w) (snd l) ->
  wp (chunk_loop file rd hc fuel ri l) nan_chunk w.
Proof.
  revert ri l w. induction fuel as [|fuel IH]; intros ri [[si ns] d] w Hd;
    simpl in *.
  - nan_walk; simpl; trivial.
  - nan_walk; simpl; trivial; try (apply IH; simpl; nan_opt); try nan_opt.
Qed.

Lemma read_chunked_package_nan file rd hc fuel l sid el w :
  nan_unless_written_opt (trace w) (data l) ->
  wp (read_chunked_package file rd hc fuel l sid el) nan_package w.
Proof.
  intros Hd. unfold read_chunked_package. apply wp_bind.
  eapply wp_mono; [apply chunk_loop_nan; exact Hd |].
  intros [[[[si ns] d]|[b d]]|e|] w' Hr; unfold wp_then; simpl in *; trivial.
  nan_walk; simpl; trivial; nan_opt.
Qed.

Lemma read_flat_package_nan file ft rd incl hc l sid el t w :
  nan_unless_written_opt (trace w) (data l) ->
  wp (read_flat_package file ft rd incl hc l sid el t) nan_package w.
Proof.
  intros Hd. unfold read_flat_package. destruct l as [d ri ns]. simpl in *.
  nan_walk; simpl; trivial; nan_opt.
Qed.

Lemma read_package_nan file ft rd incl hc fuel l w :
  nan_unless_written_opt (trace w) (data l) ->
  wp (read_package file ft rd incl hc fuel l) nan_package w.
Proof.
  intros Hd. unfold read_package, read_package_header.
  nan_walk; simpl; trivial;
    first [ apply read_chunked_package_nan | apply read_flat_package_nan ];
    simpl; nan_opt.
Qed.

Lemma package_loop_nan file ft rd incl phs hc fuel cfuel l w :
  nan_unless_written_opt (trace w) (data l) ->
  wp (package_loop file ft rd incl phs hc fuel cfuel l) nan_result w.
Proof.
  revert l w. induction fuel as [|fuel IH]; intros l w Hd; simpl.
  - nan_walk; simpl; trivial.
  - nan_walk; simpl; trivial.
    eapply wp_mono; [apply read_package_nan; exact Hd |].
    intros [[l'|[b d]]|e|] w' Hr; unfold wp_then; simpl in *; trivial.
    now apply IH.
Qed.

Lemma allocate_array_nan env dims check w :
  wp (_allocate_array env dims np_nan check)
    (fun r w' => forall a, r = Ok (Some a) -> nan_unless_written (trace w') a) w.
Proof.
  unfold wp. destruct (_allocate_array env dims np_nan check w) as [r w'] eqn:E.
  simpl. intros a ->.
  destruct (allocate_array_filled _ _ _ _ _ _ _ E) as (nr & nc & ->).
  apply nan_full.
Qed.

Lemma read_packages_nan env file ft rd w :
  wp (__read_packages env file ft rd) nan_result w.
Proof.
  unfold __read_packages.
  nan_walk;
    lazymatch goal with
    | |- wp (_allocate_array _ _ _ _) _ _ =>
        eapply wp_mono; [apply allocate_array_nan |];
        intros [[?d|]|?e|] w' Hr; unfold wp_then; cbv beta iota;
        [ apply package_loop_nan; intros ? [= <-]; now apply Hr
        | apply wp_ret; intros ? [=]
        | exact I | exact I ]
    | |- wp (package_loop _ _ _ _ _ _ _ _ _) _ _ =>
        apply package_loop_nan; intros ? [=]
    | |- nan_result (Ok (_, None)) _ => intros ? [=]
    | |- _ => exact I
    end.
Qed.

Lemma read_rows_v1_nan file n i d w :
  nan_unless_written (trace w) d ->
  wp (read_rows_v1 file n i d)
    (fun r w' => forall a, r = Ok a -> nan_unless_written (trace w') a) w.
Proof.
  revert i d w. induction n as [|n IH]; intros i d w Hd; simpl.
  - apply wp_ret. now intros a [= <-].
  - nan_walk; try (intros ? [=]); try (apply IH; nan_hyp).
Qed.

Lemma load_v1_nan env file ft rd w :
  wp (load_v1 env file ft rd) nan_returned w.
Proof.
  unfold load_v1.
  nan_walk;
    lazymatch goal with
    | |- wp (_allocate_array _ _ _ _) _ _ =>
        eapply wp_mono; [apply allocate_array_nan |];
        intros [[?d|]|?e|] w' Hr; unfold wp_then; cbv beta iota;
        [ nan_walk;
          [ eapply wp_mono; [apply read_rows_v1_nan; now apply Hr |];
            intros [?d|?e|] w'' Hr'; unfold wp_then; cbv beta iota;
            [ nan_walk; intros ? ? [= _ <-]; now apply Hr'
            | intros ? ? [=] | intros ? ? [=] ]
          | intros ? ? [=] .. ]
        | nan_walk; intros ? ? [=]
        | intros ? ? [=] | intros ? ? [=] ]
    | |- _ => intros ? ? [=]
    end.
Qed.

(** A result that carries no matrix. *)
Ltac no_data :=
  lazymatch goal with
  | |- wp (ret _) _ _ => apply wp_ret; no_data
  | |- _ => let E := fresh in intros ? ? E; solve [inversion E]
  end.

Lemma load_v23_nan env file ft rd w :
  wp (load_v23 env file ft rd) nan_returned w.
Proof.
  unfold load_v23.
  nan_walk; try no_data.
  apply wp_any. intros [[b d]|e|] w1; unfold wp_then; cbn [fst snd];
    try no_data.
  destruct b; [| no_data].
  destruct rd; [| no_data].
  apply wp_bind.
  eapply wp_mono; [apply read_packages_nan |].
  intros [[b2 d2]|e|] w2 Hr; unfold wp_then; cbn [fst snd]; try no_data.
  destruct b2; [| no_data].
  nan_walk. intros ? ? [= _ ->]. now apply Hr.
Qed.

Lemma read_contents_nan env file rd w :
  wp (read_contents env file rd) nan_loaded w.
Proof.
  unfold read_contents.
  nan_walk; try no_data.
  - eapply wp_mono; [apply load_v1_nan |].
    intros [[[h d]|]|e|] w1 Hr; unfold wp_then; cbv beta iota; try no_data.
    apply wp_ret. intros ? ? [= _ ->]. eapply Hr. reflexivity.
  - eapply wp_mono; [apply load_v23_nan |].
    intros [[[h d]|]|e|] w1 Hr; unfold wp_then; cbv beta iota; try no_data.
    apply wp_ret. intros ? ? [= _ ->]. eapply Hr. reflexivity.
Qed.

Lemma load_data_nan env file rd w :
  wp (load_data env file rd) nan_loaded w.
Proof.
  unfold load_data, load_data_body, with_file.
  apply wp_try_except. apply wp_bind. apply wp_any.
  intros [[]|e|] w1; unfold wp_then; cbv beta iota;
    [| nan_walk; no_data | no_data].
  apply wp_bind. apply wp_any.
  intros [[]|e|] w2; unfold wp_then; cbv beta iota;
    [| nan_walk; no_data | no_data].
  apply wp_bind. apply wp_any.
  intros [v|e|] w3; unfold wp_then; cbv beta iota;
    [| nan_walk; no_data | no_data].
  destruct (negb _).
  - apply wp_bind. apply wp_any.
    intros [v'|e|] w4; unfold wp_then; cbv beta iota;
      [| nan_walk; no_data | no_data].
    apply wp_bind. apply wp_any.
    intros [v''|e|] w5; unfold wp_then; cbv beta iota;
      [| nan_walk; no_data | no_data].
    nan_walk; no_data.
  - apply wp_bind. apply wp_any.
    intros [[]|e|] w4; unfold wp_then; cbv beta iota;
      [| nan_walk; no_data | no_data].
    eapply wp_mono; [apply read_contents_nan |].
    intros [[h d]|e|] w5 Hr; cbv beta iota; [exact Hr | nan_walk; no_data | no_data].
Qed.

(** ** Termination: the loops never use up their fuel *)

Lemma calm_ret {A} (a : A) : calm (ret a).
Proof. intros w. split; [reflexivity | discriminate]. Qed.

Lemma calm_raise {A} e : calm (@raise A e).
Proof. intros w. split; [reflexivity | discriminate]. Qed.

Lemma calm_bind {A B} (m : M A) (k : A -> M B) :
  calm m -> (forall a, calm (k a)) -> calm (bind m k).
Proof.
  intros Hm Hk w. unfold bind. destruct (Hm w) as [H1 H2].
  destruct (m w) as [[a|e|] w']; simpl in *; subst.
  - apply Hk.
  - split; [reflexivity | discriminate].
  - contradiction.
Qed.

Lemma calm_hget k : calm (hget k).
Proof.
  intros w. unfold hget. destruct (header w !! k); split;
    reflexivity || discriminate.
Qed.

Lemma calm_hget_int k : calm (hget_int k).
Proof.
  apply calm_bind; [apply calm_hget |].
  intros []; try apply calm_raise; apply calm_ret.
Qed.

Lemma calm_hget_str k : calm (hget_str k).
Proof.
  apply calm_bind; [apply calm_hget |].
  intros []; try apply calm_raise; apply calm_ret.
Qed.

Lemma calm_hmem k : calm (hmem k).
Proof. intros w. split; [reflexivity | discriminate]. Qed.

Lemma calm_local_get {A} (x : option A) : calm (local_get x).
Proof. destruct x; [apply calm_ret | apply calm_raise]. Qed.

Lemma calm_the_data d : calm (the_data d).
Proof. destruct d; [apply calm_ret | apply calm_raise]. Qed.

Lemma calm_reshape_rows vs k : calm (reshape_rows vs k).
Proof. unfold reshape_rows. destruct (np_reshape vs k); [apply calm_ret | apply calm_raise]. Qed.

Lemma calm_struct_unpack_d bs : calm (struct_unpack_d bs).
Proof. unfold struct_unpack_d. destruct (_ =? _)%nat; [apply calm_ret | apply calm_raise]. Qed.

Lemma calm_py_max v : calm (py_max v).
Proof. destruct v as [| | | |[|x l]|[|x l]]; try apply calm_raise; apply calm_ret. Qed.

Lemma calm_py_floor_div a b : calm (py_floor_div a b).
Proof. unfold py_floor_div. destruct (b =? 0); [apply calm_raise | apply calm_ret]. Qed.

Lemma calm_determine_file_type : calm determine_file_type.
Proof.
  unfold determine_file_type.
  repeat (apply calm_bind; [apply calm_hget_str | intros ?]). apply calm_ret.
Qed.

Create HintDb calm.

#[local] Hint Resolve calm_ret calm_raise calm_hget calm_hget_int calm_hget_str
  calm_hmem calm_local_get calm_the_data calm_reshape_rows calm_struct_unpack_d
  calm_py_max calm_py_floor_div calm_determine_file_type : calm.

Lemma wp_calm {A} (m : M A) (Q : result A -> world -> Prop) w :
  calm m -> (forall r, r <> Diverge -> Q r w) -> wp m Q w.
Proof.
  intros Hc H. unfold wp. destruct (Hc w) as [H1 H2]. rewrite H1. now apply H.
Qed.

Lemma bytes_at_length file pos n :
  0 <= pos -> 0 <= n -> pos + n <= getsize file ->
  Z.of_nat (length (bytes_at file pos n)) = n.
Proof.
  intros Hp Hn Hle. unfold bytes_at, getsize in *.
  rewrite length_take, length_drop. lia.
Qed.

(** Reading [n] bytes moves the cursor forward, by exactly [n] when that
    many bytes are left. *)
Lemma wp_file_read_len file n (Q : result (list byte) -> world -> Prop) w :
  (forall bs c', cursor w <= c' ->
     (0 <= cursor w -> 0 <= n -> cursor w + n <= getsize file ->
      c' = cursor w + n) ->
     Q (Ok bs) {| cursor := c'; header := header w; trace := trace w |}) ->
  wp (file_read file n) Q w.
Proof.
  intros H. apply wp_file_read, H; [lia |].
  intros Hp Hn Hle. now rewrite bytes_at_length.
Qed.

Lemma wp_np_fromfile_fwd file n (Q : result (list Z) -> world -> Prop) w :
  (forall vs c', cursor w <= c' ->
     Q (Ok vs) {| cursor := c'; header := header w; trace := trace w |}) ->
  wp (np_fromfile file n) Q w.
Proof. intros H. unfold wp, np_fromfile. cbn. apply H. lia. Qed.

(** An assignment to the matrix moves neither the cursor nor the header. *)
Lemma wp_setitem_block_still d r0 r1 c0 c1 src
    (Q : result ndarray -> world -> Prop) w :
  (forall d' t, Q (Ok d') {| cursor := cursor w; header := header w; trace := t |}) ->
  (forall e, Q (Raise e) w) ->
  wp (setitem_block d r0 r1 c0 c1 src) Q w.
Proof.
  intros HQ HR. unfold setitem_block.
  destruct (slice_clip r0 r1 (nrows d)) as [ra rb].
  destruct (slice_clip c0 c1 (ncols d)) as [ca cb].
  destruct (_ && _); [| apply HR].
  unfold wp, bind, emit, ret. cbn. apply HQ.
Qed.

(** Comparisons as propositions. *)
Ltac comparisons :=
  repeat match goal with
    | H : (_ <=? _) = true |- _ => apply Z.leb_le in H
    | H : (_ <=? _) = false |- _ => apply Z.leb_gt in H
    | H : (_ <? _) = true |- _ => apply Z.ltb_lt in H
    | H : (_ <? _) = false |- _ => apply Z.ltb_ge in H
    | H : (_ =? _) = true |- _ => apply Z.eqb_eq in H
    | H : (_ =? _) = false |- _ => apply Z.eqb_neq in H
    end.

(** A step that reads the state only. *)
Ltac calm_step :=
  apply wp_calm; [solve [auto with calm] | intros [?|?|] ?; [| | congruence]].

(** Symbolic execution that keeps track of the cursor. *)
Ltac fwd_walk :=
  repeat (lazymatch goal with
          | |- wp (bind (read_package _ _ _ _ _ _ _) _) _ _ => fail
          | |- wp (bind (__read_packages _ _ _ _) _) _ _ => fail
          | |- wp (bind _ _) _ _ => apply wp_bind
          | |- wp_then _ _ _ _ => unfold wp_then at 1; cbv beta iota
          | |- wp (if ?b then _ else _) _ _ => destruct b eqn:?
          | |- wp (match ?x with _ => _ end) _ _ => destruct x eqn:?
          | |- wp (let _ := _ in _) _ _ => cbv zeta
          | |- wp (ret _) _ _ => apply wp_ret
          | |- wp (raise _) _ _ => apply wp_raise
          | |- wp diverge _ _ => apply wp_diverge
          | |- wp (hset _ _) _ _ => apply wp_hset
          | |- wp (emit _) _ _ => apply wp_emit
          | |- wp (set_cursor _) _ _ => apply wp_set_cursor
          | |- wp (file_read _ _) _ _ => apply wp_file_read_len; intros ? ? ? ?
          | |- wp (np_fromfile _ _) _ _ => apply wp_np_fromfile_fwd; intros ? ? ?
          | |- wp file_tell _ _ => apply wp_file_tell
          | |- wp get_header _ _ => apply wp_get_header
          | |- wp logging_error _ _ => unfold logging_error
          | |- wp logging_warning _ _ => unfold logging_warning
          | |- wp (file_seek _ 0) _ _ =>
              unfold file_seek; change (0 =? 0) with true; cbv iota
          | |- wp (file_seek _ 1) _ _ =>
              unfold file_seek; change (1 =? 0) with false; cbv iota
          | |- wp (setitem_col _ _ _ _ _) _ _ => unfold setitem_col
          | |- wp (setitem_cell _ _ _ _) _ _ => unfold setitem_cell
          | |- wp (setitem_row _ _ _ _ _) _ _ => unfold setitem_row
          | |- wp (setitem_block _ _ _ _ _ _) _ _ =>
              apply wp_setitem_block_still; [intros ? ? | intros ?]
          | |- wp (hget "version") _ _ =>
              first [eapply wp_hget; [solve [hlookup] |] | calm_step]
          | |- wp (hget_int "file_size") _ _ =>
              first [eapply wp_hget_int; [solve [hlookup] |] | calm_step]
          | |- wp (hget_int "num_streams") _ _ =>
              first [eapply wp_hget_int; [solve [hlookup] |] | calm_step]
          | |- wp (chunk_loop _ _ _ _ _ _) _ _ => fail
          | |- wp (package_loop _ _ _ _ _ _ _ _ _) _ _ => fail
          | |- wp (read_package _ _ _ _ _ _ _) _ _ => fail
          | |- wp (read_chunked_package _ _ _ _ _ _ _) _ _ => fail
          | |- wp (read_flat_package _ _ _ _ _ _ _ _ _) _ _ => fail
          | |- wp (read_package_header _ _ _) _ _ => fail
          | |- wp (_allocate_array _ _ _ _) _ _ => fail
          | |- wp (__read_packages _ _ _ _) _ _ => fail
          | |- wp _ _ _ => calm_step
          end; world_simpl).

(** The goal of a step that has come to an end. *)
Ltac ends :=
  lazymatch goal with
  | |- ends_after _ _ (Raise _) _ => split; [discriminate | intros ? [=]]
  | |- ends_after _ _ (Ok _) _ =>
      split; [discriminate |];
      intros ? _; world_simpl; split;
      [ comparisons; lia
      | split; [solve [hlookup] | eexists; split; [solve [hlookup] | eassumption]] ]
  | |- ends_after _ _ Diverge _ => exfalso; comparisons; lia
  end.

Lemma chunk_loop_ends file rd hc fuel ri l w ns :
  header w !! "file_size" = Some (PInt (getsize file)) ->
  header w !! "num_streams" = Some (PInt ns) -> 0 <= ns ->
  0 <= cursor w ->
  Z.of_nat fuel + cursor w > getsize file ->
  wp (chunk_loop file rd hc fuel ri l) (ends_after (getsize file) (cursor w)) w.
Proof.
  revert ri l w. induction fuel as [|fuel IH];
    intros ri [[si nsm] d] w Hfs Hns Hn0 Hc Hfuel; simpl.
  - fwd_walk; ends.
  - fwd_walk; try ends.
    all: pose proof (int_from_bytes_nonneg bs); pose proof (int_from_bytes_nonneg bs0).
    all: comparisons.
    all: try (eapply wp_mono;
              [ eapply (IH _ _ _); world_simpl; [hlookup | hlookup | eassumption | nia | nia]
              | intros r w' [Hd Hx]; split; [exact Hd |];
                intros x Hr; destruct (Hx x Hr); world_simpl; split; [nia | assumption] ]).
Qed.

Lemma ends_after_mono {A} fs c c' (r : result A) w :
  c <= c' -> ends_after fs c' r w -> ends_after fs c r w.
Proof.
  intros Hc [Hd Hx]. split; [exact Hd |].
  intros x Hr. destruct (Hx x Hr). split; [lia | assumption].
Qed.

(** Sequencing after a step that has come to an end. *)
Lemma wp_ends_bind {A B} (m : M A) (k : A -> M B) fs c
    (Q : result B -> world -> Prop) w :
  wp m (ends_after fs c) w ->
  (forall a w' ns, c <= cursor w' ->
     header w' !! "file_size" = Some (PInt fs) ->
     header w' !! "num_streams" = Some (PInt ns) -> 0 <= ns ->
     wp (k a) Q w') ->
  (forall e w', Q (Raise e) w') ->
  wp (bind m k) Q w.
Proof.
  intros Hm Hk HR. apply wp_bind. eapply wp_mono; [exact Hm |].
  intros [a|e|] w' [Hd Hx]; unfold wp_then; cbv beta iota.
  - destruct (Hx a eq_refl) as (Hc & Hfs & ns & Hns & Hn0). eauto.
  - apply HR.
  - contradiction.
Qed.

Lemma wp_allocate_array_still env dims v check
    (Q : result (option ndarray) -> world -> Prop) w :
  (forall r t, r <> Diverge ->
     Q r {| cursor := cursor w; header := header w; trace := t |}) ->
  wp (_allocate_array env dims v check) Q w.
Proof.
  intros H. destruct w as [c h t]. destruct dims as [r k].
  unfold wp, _allocate_array, try_except, bind, np_empty, alloc_handler,
    virtual_memory, np_fill, local_get, logging_error, emit, ret, raise.
  cbn.
  destruct ((r <? 0) || (k <? 0)); cbn; [apply H; discriminate |].
  destruct (np_empty_ok env _); cbn; [| apply H; discriminate].
  destruct check; cbn; [| apply H; discriminate].
  destruct (_ <=? _); cbn; apply H; discriminate.
Qed.

Lemma read_package_header_ends file rd incl w ns :
  header w !! "file_size" = Some (PInt (getsize file)) ->
  header w !! "num_streams" = Some (PInt ns) -> 0 <= ns ->
  0 <= cursor w -> cursor w + 4 <= getsize file ->
  wp (read_package_header file rd incl)
    (ends_after (getsize file) (cursor w + 4)) w.
Proof.
  intros Hfs Hns Hn0 Hc Hle. unfold read_package_header.
  fwd_walk; ends.
Qed.

Lemma read_chunked_package_ends file rd hc fuel l sid el w ns :
  header w !! "file_size" = Some (PInt (getsize file)) ->
  header w !! "num_streams" = Some (PInt ns) -> 0 <= ns ->
  0 <= cursor w -> Z.of_nat fuel > getsize file ->
  wp (read_chunked_package file rd hc fuel l sid el)
    (ends_after (getsize file) (cursor w)) w.
Proof.
  intros Hfs Hns Hn0 Hc Hfuel. unfold read_chunked_package.
  eapply wp_ends_bind;
    [ eapply chunk_loop_ends; eauto; lia
    | intros [[[si nsm] d]|v] w' ns' Hc' Hfs' Hns' Hn0'
    | intros; ends ].
  - fwd_walk; try ends.
  - fwd_walk; ends.
Qed.

Lemma read_flat_package_ends file ft rd incl hc l sid el t w ns :
  header w !! "file_size" = Some (PInt (getsize file)) ->
  header w !! "num_streams" = Some (PInt ns) -> 0 <= ns ->
  0 <= cursor w ->
  wp (read_flat_package file ft rd incl hc l sid el t)
    (ends_after (getsize file) (cursor w)) w.
Proof.
  intros Hfs Hns Hn0 Hc. unfold read_flat_package.
  fwd_walk; try ends.
  all: pose proof (int_from_bytes_nonneg bs); comparisons; ends.
Qed.

Lemma read_package_ends file ft rd incl hc fuel l w ns :
  header w !! "file_size" = Some (PInt (getsize file)) ->
  header w !! "num_streams" = Some (PInt ns) -> 0 <= ns ->
  0 <= cursor w -> cursor w + 4 <= getsize file ->
  Z.of_nat fuel > getsize file ->
  wp (read_package file ft rd incl hc fuel l)
    (ends_after (getsize file) (cursor w + 4)) w.
Proof.
  intros Hfs Hns Hn0 Hc Hle Hfuel. unfold read_package.
  eapply wp_ends_bind;
    [ eapply read_package_header_ends; eauto
    | intros [[sid el] t] w' ns' Hc' Hfs' Hns' Hn0'
    | intros; ends ].
  fwd_walk; try ends.
  all: eapply wp_mono;
    [ first [ eapply read_chunked_package_ends | eapply read_flat_package_ends ];
      eauto; lia
    | intros r w2; apply ends_after_mono; exact Hc' ].
Qed.

Lemma package_loop_ends file ft rd incl phs hc fuel cfuel l w ns :
  header w !! "file_size" = Some (PInt (getsize file)) ->
  header w !! "num_streams" = Some (PInt ns) -> 0 <= ns ->
  0 <= cursor w -> 4 <= phs ->
  Z.of_nat fuel + cursor w > getsize file ->
  Z.of_nat cfuel > getsize file ->
  wp (package_loop file ft rd incl phs hc fuel cfuel l)
    (ends_after (getsize file) (cursor w)) w.
Proof.
  revert l w ns. induction fuel as [|fuel IH];
    intros l w ns Hfs Hns Hn0 Hc Hp Hfuel Hcf; cbn [package_loop].
  - fwd_walk; ends.
  - fwd_walk; try ends. comparisons.
    eapply wp_ends_bind;
      [ eapply read_package_ends; eauto; lia
      | intros [l'|v] w' ns' Hc' Hfs' Hns' Hn0'
      | intros; ends ].
    + eapply wp_mono;
        [ eapply (IH l' w' ns'); eauto; lia
        | intros r w2; apply ends_after_mono; lia ].
    + fwd_walk. ends.
Qed.

Lemma loop_fuel_enough file : Z.of_nat (loop_fuel file) > getsize file.
Proof. unfold loop_fuel, getsize. lia. Qed.

Lemma read_packages_ends env file ft rd w ns :
  header w !! "file_size" = Some (PInt (getsize file)) ->
  header w !! "num_streams" = Some (PInt ns) -> 0 <= ns ->
  wp (__read_packages env file ft rd) (ends_after (getsize file) 0) w.
Proof.
  intros Hfs Hns Hn0. unfold __read_packages.
  pose proof (loop_fuel_enough file) as Hfuel.
  fwd_walk; try ends.
  all: comparisons.
  all: try (apply wp_allocate_array_still; intros [[d|]|e|] t Hd;
            unfold wp_then; cbv beta iota; try contradiction; fwd_walk; try ends).
  all: eapply wp_mono;
    [ eapply package_loop_ends; world_simpl;
      [ solve [hlookup] | solve [hlookup] | eassumption | lia | lia | lia | lia ]
    | intros r w2; apply ends_after_mono; world_simpl; lia ].
Qed.

(** A program that comes to an end, whatever it returns or raises. *)
Lemma wp_then_live {A B} (m : M A) (k : A -> M B)
    (Q : result B -> world -> Prop) w :
  wp m (fun r _ => r <> Diverge) w ->
  (forall a w', wp (k a) Q w') ->
  (forall e w', Q (Raise e) w') ->
  wp m (wp_then k Q) w.
Proof.
  intros Hm Hk HR. eapply wp_mono; [exact Hm |].
  intros [a|e|] w' Hd; unfold wp_then; cbv beta iota;
    [apply Hk | apply HR | contradiction].
Qed.

Lemma read_rows_v1_ends file n i d w :
  wp (read_rows_v1 file n i d) (fun r _ => r <> Diverge) w.
Proof.
  revert i d w. induction n as [|n IH]; intros i d w; cbn [read_rows_v1].
  - fwd_walk. discriminate.
  - fwd_walk; try discriminate. apply IH.
Qed.

Lemma load_v1_ends env file ft rd w :
  wp (load_v1 env file ft rd) (fun r _ => r <> Diverge) w.
Proof.
  unfold load_v1. fwd_walk; try discriminate.
  all: apply wp_allocate_array_still; intros [[d|]|e|] t Hd;
    unfold wp_then; cbv beta iota; try contradiction;
    fwd_walk; try discriminate.
  all: apply wp_then_live; [apply read_rows_v1_ends | | discriminate].
  all: intros; fwd_walk; discriminate.
Qed.

Lemma load_v23_ends env file ft rd w ns :
  header w !! "file_size" = Some (PInt (getsize file)) ->
  header w !! "num_streams" = Some (PInt ns) -> 0 <= ns ->
  wp (load_v23 env file ft rd) (fun r _ => r <> Diverge) w.
Proof.
  intros Hfs Hns Hn0. unfold load_v23. fwd_walk; try discriminate.
  all: eapply wp_ends_bind;
    [ eapply read_packages_ends; world_simpl;
      [solve [hlookup] | solve [hlookup] | eassumption]
    | intros [ok d] w' ns' _ Hfs' Hns' Hn0'; fwd_walk; try discriminate
    | discriminate ].
  eapply wp_ends_bind;
    [ eapply read_packages_ends; eassumption
    | intros [ok' d'] w2 ns2 _ _ _ _; fwd_walk; discriminate
    | discriminate ].
Qed.

Lemma read_contents_ends env file rd w v :
  header_shape (getsize file) v (header w) ->
  wp (read_contents env file rd) (fun r _ => r <> Diverge) w.
Proof.
  intros [Hfs Hver _ Hv23 _ Hpos _ _]. unfold read_contents.
  fwd_walk; try discriminate; tests.
  - apply wp_then_live; [apply load_v1_ends | | discriminate].
    intros [r|] w'; fwd_walk; discriminate.
  - destruct (Hv23 ltac:(assumption)) as (ns & dts & spp & e1 & e2 & Hns & _).
    apply wp_then_live; [| | discriminate].
    + eapply load_v23_ends; eauto.
    + intros [r|] w'; fwd_walk; discriminate.
Qed.

(** The body of [load_data] comes to an end on every file. *)
Lemma load_data_body_ends env file rd :
  (load_data_body env file rd start).1 <> Diverge.
Proof.
  destruct (decide (version_tag file = 1 \/ version_tag file = 2 \/
                    version_tag file = 3)) as [Hv|Hv].
  - rewrite load_data_body_known by exact Hv.
    change (wp (read_header_fields file ;; read_contents env file rd)
              (fun r _ => r <> Diverge) (after_preamble file)).
    apply wp_bind.
    apply wp_read_header_fields
      with (fs := getsize file) (v := version_tag file);
      [reflexivity | | discriminate].
    intros w' Hs _ _. unfold wp_then. eapply read_contents_ends, Hs.
  - now rewrite load_data_body_unknown by exact Hv.
Qed.

(** [load_data] returns on every file: neither loop runs out of fuel and
    no exception gets past the [except] clause. *)
Lemma load_data_returns env file rd :
  exists r, (run_load_data env file rd).1 = Ok r.
Proof.
  pose proof (load_data_body_ends env file rd) as H.
  unfold run_load_data, load_data, try_except.
  destruct (load_data_body env file rd start) as [[r|e|] w']; simpl in *.
  - eauto.
  - eexists. reflexivity.
  - contradiction.
Qed.

(** * The claims *)

(** ** C2: a file with an unknown version tag *)

(** Building the message of the error record adds a str and an int, so an
    unknown version never gets to [return header, None]. *)
Lemma unknown_version_returns_nothing env file rd :
  ~ known_version file ->
  (load_data_body env file rd start).1 = Raise TypeError /\
  (run_load_data env file rd).1 = Ok (None, None).
Proof.
  intros Hv. pose proof (load_data_body_unknown env file rd Hv) as E.
  split; [now rewrite E |]. exact (run_load_data_raise _ _ _ _ _ E).
Qed.

(** C2 (the code departs from the claim): for the file whose version tag is
    4, the body of [load_data] raises a TypeError at line 58, before the
    [return header, None] of line 59, and [load_data] returns (None, None):
    the partial header with [file_size] and [version] is lost. *)
Theorem unknown_version_loses_header :
  version_tag file_version_4 = 4 /\
  (load_data_body env_no_memory file_version_4 true start).1 = Raise TypeError /\
  (run_load_data env_no_memory file_version_4 true).1 = Ok (None, None) /\
  (run_load_data env_no_memory file_version_4 false).1 = Ok (None, None).
Proof. repeat split; vm_compute; reflexivity. Qed.

(** ** C9: a file that declares no streams *)

(** C9: for every file of version 2 or 3 whose header declares zero streams,
    taking the maximum of the empty [stream_samples_per_package] raises a
    ValueError in the body of [load_data], and [load_data] returns
    (None, None), whether or not the data was asked for. *)
Theorem no_streams_returns_nothing env file rd h v :
  parsed_header file = Some h ->
  h !! "version" = Some (PInt v) -> v = 2 \/ v = 3 ->
  h !! "num_streams" = Some (PInt 0) ->
  (load_data_body env file rd start).1 = Raise ValueError /\
  (run_load_data env file rd).1 = Ok (None, None).
Proof.
  intros (w2 & E2 & <-)%parsed_header_run Hver Hv Hns.
  destruct (header_shape_run _ _ E2) as [[_ Hver' Hcode H23 _ _ _ _] _].
  assert (v = version_tag file) as -> by congruence.
  destruct (H23 Hv) as (ns & dts & spp & e1 & e2 & Hn & _ & Hspp & _ & Hlen & _).
  assert (ns = 0) as -> by congruence.
  destruct spp; [| discriminate].
  assert (Hk : known_version file) by (unfold known_version; tauto).
  assert (E : (load_data_body env file rd start).1 = Raise ValueError).
  { rewrite (load_data_body_known _ _ _ Hk), (bind_ok _ _ _ _ _ E2).
    destruct Hcode as (code & Hcode & _).
    eapply read_contents_no_streams; eauto. }
  split; [exact E |].
  destruct (load_data_body env file rd start) as [r w] eqn:Eb.
  simpl in E. subst r. exact (run_load_data_raise _ _ _ _ _ Eb).
Qed.

Lemma no_streams_returns_nothing_witness :
  exists h,
    parsed_header file_no_streams = Some h /\
    h !! "version" = Some (PInt 2) /\
    h !! "num_streams" = Some (PInt 0) /\
    (load_data_body env_no_memory file_no_streams true start).1 = Raise ValueError /\
    (run_load_data env_no_memory file_no_streams true).1 = Ok (None, None).
Proof.
  assert (Hv : parsed_field file_no_streams "version" = Some (PInt 2))
    by (vm_compute; reflexivity).
  assert (Hn : parsed_field file_no_streams "num_streams" = Some (PInt 0))
    by (vm_compute; reflexivity).
  unfold parsed_field in Hv, Hn.
  destruct (parsed_header file_no_streams) as [h|] eqn:E; [| discriminate Hv].
  exists h. split; [reflexivity |]. split; [exact Hv |]. split; [exact Hn |].
  exact (no_streams_returns_nothing env_no_memory file_no_streams true h 2
           E Hv (or_introl eq_refl) Hn).
Defined.

(** ** C6: the fields that depend on the version and on the kind of file *)

Lemma not_derived_version : ~ derived_field "version".
Proof. unfold derived_field. intuition discriminate. Qed.

Lemma not_derived_code : ~ derived_field "code".
Proof. unfold derived_field. intuition discriminate. Qed.

Lemma not_derived_input_time : ~ derived_field "includes_source_input_time".
Proof. unfold derived_field. intuition discriminate. Qed.

Lemma not_derived_v23 k : In k fields_v23 -> ~ derived_field k.
Proof.
  unfold fields_v23, derived_field. simpl.
  intros [<-|[<-|[<-|[<-|[<-|[]]]]]]; intuition discriminate.
Qed.

(** C6: in every header that [load_data] returns, [run_start_epoch],
    [file_start_epoch], [num_streams], [stream_data_types] and
    [stream_samples_per_package] are present exactly when the version is 2
    or 3, and [includes_source_input_time] is present exactly when the
    lower-cased code is "src" and the version is 3; a field that is not
    present is missing from the dictionary. *)
Theorem gated_fields_present_iff env file rd h d :
  (run_load_data env file rd).1 = Ok (Some h, d) ->
  exists v code,
    h !! "version" = Some (PInt v) /\
    h !! "code" = Some (PStr code) /\
    (forall k, In k fields_v23 -> (is_Some (h !! k) <-> v = 2 \/ v = 3)) /\
    (forall k, In k fields_v23 -> (h !! k = None <-> ~ (v = 2 \/ v = 3))) /\
    (is_Some (h !! "includes_source_input_time") <->
       str_lower code = "src" /\ v = 3) /\
    (h !! "includes_source_input_time" = None <->
       ~ (str_lower code = "src" /\ v = 3)).
Proof.
  intros (_ & w2 & w3 & E2 & E3 & ->)%load_returns_header_inv.
  destruct (header_shape_run _ _ E2) as [[_ Hver (code & Hcode & Hin & Hout) H23 H1 _ _ _] _].
  assert (Hk : forall k, ~ derived_field k -> header w3 !! k = header w2 !! k).
  { intros k Hd.
    pose proof (keeps_read_contents any_event derived_field env file rd
                  any_event_log
                  (fun _ => conj any_event_write any_event_allocate)
                  (fun k H => H) w2) as (_ & Hh & _).
    rewrite E3 in Hh. now apply Hh. }
  exists (version_tag file), code.
  rewrite !Hk by auto using not_derived_version, not_derived_code,
    not_derived_input_time.
  assert (Hg : forall k, In k fields_v23 ->
             (is_Some (header w2 !! k) <->
                version_tag file = 2 \/ version_tag file = 3)).
  { intros k Hin23. split.
    - intros Hs.
      destruct (decide (version_tag file = 2 \/ version_tag file = 3)) as [|Hn];
        [assumption |].
      specialize (H1 Hn). rewrite Forall_forall in H1.
      rewrite (H1 k) in Hs; [destruct Hs; discriminate | now apply list_elem_of_In].
    - intros Hv.
      destruct (H23 Hv) as (ns & dts & spp & e1 & e2 & A & B & C & _ & _ & D & E).
      unfold fields_v23 in Hin23. simpl in Hin23.
      destruct Hin23 as [<-|[<-|[<-|[<-|[<-|[]]]]]]; eauto. }
  split; [exact Hver |]. split; [exact Hcode |].
  split; [| split; [| split; [split | split]]].
  - intros k Hin23. rewrite Hk by now apply not_derived_v23. now apply Hg.
  - intros k Hin23. rewrite Hk by now apply not_derived_v23. split.
    + intros Hn Hv. apply (Hg k Hin23) in Hv. rewrite Hn in Hv. now destruct Hv.
    + intros Hn. rewrite eq_None_not_Some. intros Hs. apply Hn. now apply (Hg k).
  - intros Hs.
    destruct (decide (str_lower code = "src" /\ version_tag file = 3)) as [|Hn];
      [assumption |].
    rewrite (Hout Hn) in Hs. destruct Hs; discriminate.
  - intros Hc. destruct (Hin Hc) as [b Hb]. eauto.
  - intros Hn Hc. destruct (Hin Hc) as [b Hb]. congruence.
  - intros Hn. now apply Hout.
Qed.

Lemma gated_fields_present_iff_witness :
  exists h d,
    (run_load_data env_no_memory file_src_v3 true).1 = Ok (Some h, d) /\
    exists v code,
      h !! "version" = Some (PInt v) /\
      h !! "code" = Some (PStr code) /\
      (forall k, In k fields_v23 -> (is_Some (h !! k) <-> v = 2 \/ v = 3)) /\
      (forall k, In k fields_v23 -> (h !! k = None <-> ~ (v = 2 \/ v = 3))) /\
      (is_Some (h !! "includes_source_input_time") <->
         str_lower code = "src" /\ v = 3) /\
      (h !! "includes_source_input_time" = None <->
         ~ (str_lower code = "src" /\ v = 3)).
Proof.
  assert (Hr : returns_header (run_load_data env_no_memory file_src_v3 true) = true)
    by (vm_compute; reflexivity).
  unfold returns_header in Hr.
  destruct (run_load_data env_no_memory file_src_v3 true).1
    as [[[h|] d]|e|] eqn:E;
    [| discriminate Hr | discriminate Hr | discriminate Hr].
  exists h, d. split; [reflexivity |].
  exact (gated_fields_present_iff env_no_memory file_src_v3 true h d E).
Defined.

(** ** C3: the samples that the counting pass adds for a chunked package *)

(** C3 (the code departs from the claim): the package of
    [file_uneven_chunks] is complete, its two chunks declare 1 stream x 3
    samples and 1 stream x 1 sample, and the accumulated stream count equals
    [num_streams] = 2; the counting pass adds 1 to [total_samples], the
    sample count of the last chunk, where the maximum over the chunks is 3.
    [total_packages] is incremented by one. *)
Theorem counting_adds_last_chunk_samples :
  let r := run_load_data env_no_memory file_uneven_chunks false in
  header_field r "pos_data_start" = Some (PInt 62) /\
  header_field r "num_streams" = Some (PInt 2) /\
  header_field r "max_samples_stream" = Some (PInt 3) /\
  chunk_header_at file_uneven_chunks (62 + 12) = (1, 3) /\
  chunk_header_at file_uneven_chunks (62 + 12 + 4 + 3 * 8) = (1, 1) /\
  62 + 12 + 4 + 3 * 8 + 4 + 1 * 8 = getsize file_uneven_chunks /\
  header_field r "total_samples" = Some (PInt 1) /\
  header_field r "total_packages" = Some (PInt 1) /\
  Z.max 3 1 = 3.
Proof. cbv zeta. repeat split; vm_compute; reflexivity. Qed.

(** ** C1: the two passes on a well-formed file *)

(** C1 (the code departs from the claim): on [file_two_uneven_packages],
    whose two packages are complete, the counting pass gives
    [total_samples] = 2 and [total_packages] = 2; the materializing pass
    allocates 2 rows and raises a ValueError when the 2-sample chunk of the
    second package is assigned to the one row that is left, so [load_data]
    returns (None, None) and no matrix. *)
Theorem passes_disagree_on_uneven_chunks :
  let f := file_two_uneven_packages in
  header_field (run_load_data env_no_memory f false) "total_samples" = Some (PInt 2) /\
  header_field (run_load_data env_no_memory f false) "total_packages" = Some (PInt 2) /\
  final_cursor (run_load_data env_no_memory f false) = getsize f /\
  (load_data_body env_no_memory f true start).1 = Raise ValueError /\
  final_cursor (run_load_data env_no_memory f true) = getsize f - 12 /\
  (run_load_data env_no_memory f true).1 = Ok (None, None).
Proof. cbv zeta. repeat split; vm_compute; reflexivity. Qed.

(** ** C4: a file that is cut off inside a chunk *)

(** C4 (the code departs from the claim): [file_truncated_chunk] is
    [file_truncated_chunk_prefix], one complete package of 3 rows, followed
    by a package that is cut off inside its second chunk.  The counting pass
    stops at the cut with a warning and keeps the complete package
    ([total_samples] = 3, [total_packages] = 1).  The materializing pass has
    no [return] on that path: it assigns the first chunk of the cut package
    to rows past the end of the matrix and raises a ValueError, so
    [load_data] returns (None, None) and the rows of the complete package
    are lost. *)
Theorem truncated_chunk_loses_prior_rows :
  let f := file_truncated_chunk in
  let p := file_truncated_chunk_prefix in
  take (length p) f = p /\
  (length f = length p + 52)%nat /\
  option_map nrows (returned_data (run_load_data env_no_memory p true)) = Some 3%nat /\
  header_field (run_load_data env_no_memory f false) "total_samples" = Some (PInt 3) /\
  header_field (run_load_data env_no_memory f false) "total_packages" = Some (PInt 1) /\
  trace (run_load_data env_no_memory f false).2 = [EvLog LWarning] /\
  (load_data_body env_no_memory f true start).1 = Raise ValueError /\
  (run_load_data env_no_memory f true).1 = Ok (None, None).
Proof. cbv zeta. repeat split; vm_compute; reflexivity. Qed.

(** ** C5: the rows of a version 1 file *)

(** C5 (the code departs from the claim): for the plugin file
    [file_v1_plugin] with two columns, [row_size] is 8 * 2 = 16 and
    [num_rows] is floor((62 - 30) / 16) = 2, but decoding a row reads
    4 + 8 * (2 - 1) = 12 bytes, so the two rows consume 24 bytes and not
    2 * 16 = 32: the second row is read from the middle of the first. *)
Theorem plugin_rows_are_misread :
  let r := run_load_data env_no_memory file_v1_plugin true in
  header_field r "version" = Some (PInt 1) /\
  header_field r "code" = Some (PStr "plg") /\
  header_field r "num_columns" = Some (PInt 2) /\
  header_field r "file_size" = Some (PInt 62) /\
  header_field r "pos_data_start" = Some (PInt 30) /\
  header_field r "row_size" = Some (PInt 16) /\
  header_field r "num_rows" = Some (PInt 2) /\
  final_cursor r = 30 + 2 * 12 /\
  final_cursor r <> 30 + 2 * 16.
Proof. cbv zeta. repeat split; vm_compute; (reflexivity || discriminate). Qed.

(** On the source file [file_v1_source] with three columns the rows are read
    whole: [row_size] is 4 + 8 * (3 - 1) = 20, [num_rows] is
    floor((76 - 33) / 20) = 2, the two rows consume 2 * 20 bytes and the
    three trailing bytes stay unread. *)
Example source_rows_are_read_whole :
  let r := run_load_data env_no_memory file_v1_source true in
  header_field r "code" = Some (PStr "src") /\
  header_field r "num_columns" = Some (PInt 3) /\
  header_field r "file_size" = Some (PInt 76) /\
  header_field r "pos_data_start" = Some (PInt 33) /\
  header_field r "row_size" = Some (PInt 20) /\
  header_field r "num_rows" = Some (PInt 2) /\
  final_cursor r = 33 + 2 * 20.
Proof. cbv zeta. repeat split; vm_compute; reflexivity. Qed.

(** ** C7: reading only the header *)

(** Reading only the header logs at most; it never allocates. *)
Lemma header_only_never_allocates env file :
  Forall (fun e => exists l, e = EvLog l)
    (trace (run_load_data env file false).2).
Proof.
  destruct (load_data_events env file false start) as (t & Ht & Hf).
  unfold run_load_data. rewrite Ht. simpl.
  eapply Forall_impl; [exact Hf |].
  intros [l| | | |]; simpl; try discriminate; try tauto. eauto.
Qed.

(** Whenever a load with the data returns a header, the load of the header
    alone returns the same header. *)
Lemma header_only_same_header env file h d :
  (run_load_data env file true).1 = Ok (Some h, d) ->
  (run_load_data env file false).1 = Ok (Some h, None).
Proof.
  intros (Hv & w2 & w3 & E2 & E3 & _)%load_returns_header_inv.
  eapply load_data_run; eauto.
  eapply read_contents_header_only; eauto.
Qed.

(** C7 (the code departs from the claim): for the well-formed file
    [file_wide_first_chunk], reading only the header returns a header with
    [total_samples] = 1, whereas reading the data raises a ValueError in the
    materializing pass and returns no header at all. *)
Theorem full_read_loses_header :
  let f := file_wide_first_chunk in
  returns_header (run_load_data env_no_memory f false) = true /\
  header_field (run_load_data env_no_memory f false) "total_samples" = Some (PInt 1) /\
  returned_data (run_load_data env_no_memory f false) = None /\
  trace (run_load_data env_no_memory f false).2 = [] /\
  (load_data_body env_no_memory f true start).1 = Raise ValueError /\
  (run_load_data env_no_memory f true).1 = Ok (None, None).
Proof. cbv zeta. repeat split; vm_compute; reflexivity. Qed.

(** ** C8: the memory check of the allocator *)

Lemma nbytes_shape r c :
  0 <= r -> 0 <= c -> nbytes (Z.to_nat r, Z.to_nat c) = 8 * r * c.
Proof. intros Hr Hc. unfold nbytes. simpl. lia. Qed.

Lemma np_empty_run env r c w :
  0 <= r -> 0 <= c -> np_empty_ok env (8 * r * c) = true ->
  np_empty env (r, c) w = (Ok (Z.to_nat r, Z.to_nat c), logged w [EvEmpty r c]).
Proof.
  intros Hr Hc Hok. unfold np_empty.
  destruct (r <? 0) eqn:E1; [lia |]. destruct (c <? 0) eqn:E2; [lia |].
  simpl. now rewrite Hok.
Qed.

Lemma logged_logged w es es' : logged (logged w es) es' = logged w (es ++ es').
Proof. unfold logged. simpl. now rewrite app_assoc. Qed.

(** With [check_mem] the allocator consults the available memory after
    [np.empty] and before [data.fill]; when there is not enough it logs an
    error and returns [None] without filling. *)
Lemma allocate_checked env r c v w :
  0 <= r -> 0 <= c -> np_empty_ok env (8 * r * c) = true ->
  _allocate_array env (r, c) v true w =
    if mem_available env <=? 8 * r * c
    then (Ok None, logged w [EvEmpty r c; EvMemCheck; EvLog LError])
    else (Ok (Some (np_full (Z.to_nat r) (Z.to_nat c) v)),
          logged w [EvEmpty r c; EvMemCheck;
                    EvFill (Z.to_nat r) (Z.to_nat c)]).
Proof.
  intros Hr Hc Hok. unfold _allocate_array, try_except.
  rewrite bind_run. rewrite bind_run.
  rewrite (np_empty_run _ _ _ _ Hr Hc Hok). cbn [ret].
  rewrite (nbytes_shape _ _ Hr Hc).
  unfold virtual_memory, alloc_handler, np_fill, logging_error, emit, bind, ret,
    local_get, logged. cbn.
  destruct (mem_available env <=? 8 * r * c); cbn; now rewrite <- !app_assoc.
Qed.

(** The allocator of misc.py always makes that check. *)
Lemma misc_allocate_checked env r c v w :
  0 <= r -> 0 <= c -> np_empty_ok env (8 * r * c) = true ->
  allocate_array env (r, c) v w =
    if mem_available env <=? 8 * r * c
    then (Ok None, logged w [EvEmpty r c; EvMemCheck; EvLog LError])
    else (Ok (Some (np_full (Z.to_nat r) (Z.to_nat c) v)),
          logged w [EvEmpty r c; EvMemCheck;
                    EvFill (Z.to_nat r) (Z.to_nat c)]).
Proof.
  intros Hr Hc Hok. unfold allocate_array, try_except.
  rewrite bind_run. rewrite bind_run.
  rewrite (np_empty_run _ _ _ _ Hr Hc Hok). cbn [ret].
  rewrite (nbytes_shape _ _ Hr Hc).
  unfold virtual_memory, alloc_handler, np_fill, logging_error, emit, bind, ret,
    local_get, logged. cbn.
  destruct (mem_available env <=? 8 * r * c); cbn; now rewrite <- !app_assoc.
Qed.

(** Without [check_mem], which is how the decoder calls it, the allocator
    fills whatever [np.empty] returned. *)
Lemma allocate_unchecked env r c v w :
  0 <= r -> 0 <= c -> np_empty_ok env (8 * r * c) = true ->
  _allocate_array env (r, c) v false w =
    (Ok (Some (np_full (Z.to_nat r) (Z.to_nat c) v)),
     logged w [EvEmpty r c; EvFill (Z.to_nat r) (Z.to_nat c)]).
Proof.
  intros Hr Hc Hok. unfold _allocate_array, try_except.
  rewrite bind_run. rewrite bind_run.
  rewrite (np_empty_run _ _ _ _ Hr Hc Hok). cbn [ret].
  unfold np_fill, emit, bind, ret, logged. cbn. now rewrite <- !app_assoc.
Qed.

(** Without [check_mem] the allocator never returns [None]. *)
Lemma allocate_unchecked_not_none env dims v w :
  (_allocate_array env dims v false w).1 <> Ok None.
Proof.
  change (wp (_allocate_array env dims v false) (fun r _ => r <> Ok None) w).
  unfold _allocate_array, np_empty, alloc_handler, np_fill. destruct dims as [r c].
  wp_steps; discriminate.
Qed.

(** No load consults the available memory. *)
Lemma load_never_checks_memory env file rd :
  ~ In EvMemCheck (trace (run_load_data env file rd).2).
Proof.
  destruct (load_data_events env file rd start) as (t & Ht & Hf).
  unfold run_load_data. rewrite Ht. simpl. intros Hin.
  rewrite Forall_forall in Hf. apply list_elem_of_In in Hin.
  exact (Hf _ Hin).
Qed.

(** C8 (the claim as stated fails): the load of [file_src_v3] on a machine
    with no available memory fills its matrix without any memory check
    before it, and returns the matrix. *)
Lemma decoder_allocates_unchecked :
  mem_available env_no_memory = 0 /\
  returned_data (run_load_data env_no_memory file_src_v3 true) <> None /\
  ~ checked_before_fill (trace (run_load_data env_no_memory file_src_v3 true).2).
Proof.
  split; [reflexivity |]. split.
  - assert (H : option_map nrows
                  (returned_data (run_load_data env_no_memory file_src_v3 true))
                = Some 1%nat) by (vm_compute; reflexivity).
    intros E. rewrite E in H. discriminate H.
  - assert (Ht : trace (run_load_data env_no_memory file_src_v3 true).2 =
                 [EvEmpty 1 5; EvFill 1 5; EvWrite 0 1 0 1; EvWrite 0 1 1 2;
                  EvWrite 0 1 2 3; EvWrite 0 1 3 5])
      by (vm_compute; reflexivity).
    rewrite Ht. intros H.
    destruct (H 1%nat 1%nat 5%nat eq_refl) as (j & Hj & Hm).
    destruct j as [|j]; [discriminate Hm | lia].
Qed.

(** C8 (as amended): the allocator checks the available memory before it
    commits an allocation only when it is called with [check_mem] (the
    allocator of misc.py always does); it then returns [None] instead of
    filling when the available memory does not exceed the bytes needed.
    The decoder calls it without [check_mem]: its allocations are filled
    without a check and are never refused with [None], and no load ever
    consults the available memory. *)
Theorem memory_check_only_on_request env r c v w :
  0 <= r -> 0 <= c -> np_empty_ok env (8 * r * c) = true ->
  (_allocate_array env (r, c) v true w =
     if mem_available env <=? 8 * r * c
     then (Ok None, logged w [EvEmpty r c; EvMemCheck; EvLog LError])
     else (Ok (Some (np_full (Z.to_nat r) (Z.to_nat c) v)),
           logged w [EvEmpty r c; EvMemCheck;
                     EvFill (Z.to_nat r) (Z.to_nat c)])) /\
  (allocate_array env (r, c) v w =
     if mem_available env <=? 8 * r * c
     then (Ok None, logged w [EvEmpty r c; EvMemCheck; EvLog LError])
     else (Ok (Some (np_full (Z.to_nat r) (Z.to_nat c) v)),
           logged w [EvEmpty r c; EvMemCheck;
                     EvFill (Z.to_nat r) (Z.to_nat c)])) /\
  (_allocate_array env (r, c) v false w =
     (Ok (Some (np_full (Z.to_nat r) (Z.to_nat c) v)),
      logged w [EvEmpty r c; EvFill (Z.to_nat r) (Z.to_nat c)])) /\
  (forall dims v' w', (_allocate_array env dims v' false w').1 <> Ok None) /\
  (forall file rd, ~ In EvMemCheck (trace (run_load_data env file rd).2)).
Proof.
  intros Hr Hc Hok. repeat split.
  - now apply allocate_checked.
  - now apply misc_allocate_checked.
  - now apply allocate_unchecked.
  - intros. apply allocate_unchecked_not_none.
  - intros. apply load_never_checks_memory.
Qed.

Lemma memory_check_only_on_request_witness :
  _allocate_array env_no_memory (1, 2) np_nan true start =
    (Ok None, logged start [EvEmpty 1 2; EvMemCheck; EvLog LError]) /\
  _allocate_array env_no_memory (1, 2) np_nan false start =
    (Ok (Some (np_full 1 2 np_nan)), logged start [EvEmpty 1 2; EvFill 1 2]).
Proof.
  pose proof (memory_check_only_on_request env_no_memory 1 2 np_nan start
                ltac:(lia) ltac:(lia) eq_refl) as (H1 & _ & H3 & _).
  split; [exact H1 | exact H3].
Defined.

(** ** C10: the cells that the materializing pass does not assign *)

(** C10: the matrix that [_allocate_array] returns to the decoder, which
    calls it with the default [fill_value] NaN, holds NaN in every cell; and
    in the matrix that [load_data] returns, every cell that no assignment
    of the load covered still holds NaN. *)
Theorem unassigned_cells_hold_nan env file hd d r c v :
  (run_load_data env file true).1 = Ok (hd, Some d) ->
  cell d r c = Some v ->
  ~ covered (trace (run_load_data env file true).2) r c ->
  v = np_nan /\
  (forall dims check w a w' r' c' v',
      _allocate_array env dims np_nan check w = (Ok (Some a), w') ->
      cell a r' c' = Some v' -> v' = np_nan).
Proof.
  intros E Hc Hn. split.
  - pose proof (load_data_nan env file true start) as H.
    unfold wp, nan_loaded in H. unfold run_load_data in *.
    exact (H hd d E r c v Hc Hn).
  - intros dims check w a w' r' c' v' Ea Hc'.
    destruct (allocate_array_filled _ _ _ _ _ _ _ Ea) as (nr & nc & ->).
    now apply cell_np_full in Hc'.
Qed.

Lemma unassigned_cells_hold_nan_witness :
  returned_cell (run_load_data env_no_memory file_short_first_chunk true) 1 2
    = Some np_nan /\
  returned_cell (run_load_data env_no_memory file_short_first_chunk true) 0 2
    = Some 0x3FF0000000000000.
Proof.
  assert (Ht : trace (run_load_data env_no_memory file_short_first_chunk true).2 =
               [EvEmpty 3 4; EvFill 3 4; EvWrite 0 1 2 3; EvWrite 0 3 3 4;
                EvWrite 0 3 0 1; EvWrite 0 3 1 2])
    by (vm_compute; reflexivity).
  assert (Hs : match returned_cell
                       (run_load_data env_no_memory file_short_first_chunk true) 1 2
               with Some _ => true | None => false end = true)
    by (vm_compute; reflexivity).
  split; [| vm_compute; reflexivity].
  unfold returned_cell, returned_data in *.
  destruct (run_load_data env_no_memory file_short_first_chunk true).1
    as [[hd [d|]]|e|] eqn:E;
    [| discriminate Hs | discriminate Hs | discriminate Hs].
  destruct (cell d 1 2) as [v|] eqn:Hc; [| discriminate Hs].
  f_equal.
  refine (proj1 (unassigned_cells_hold_nan env_no_memory file_short_first_chunk
                   hd d 1 2 v E Hc _)).
  rewrite Ht. intros (r0 & r1 & c0 & c1 & Hin & Hr & Hcc).
  simpl in Hin.
  destruct Hin as [H|[H|[H|[H|[H|[H|[]]]]]]]; inversion H; subst; lia.
Defined.

(** * Further properties of the decoder *)

(** ** Reading only the header *)

Lemma read_contents_no_data env file w h d w' :
  read_contents env file false w = (Ok (h, d), w') -> d = None.
Proof.
  intros E.
  refine (wp_run _ (fun r _ => forall h d, r = Ok (h, d) -> d = None)
            _ _ _ _ E h d eq_refl).
  unfold read_contents, load_v1, load_v23. cbv iota.
  wp_blind; intros; congruence.
Qed.

(** A load of the header alone returns no matrix, whatever else it
    returns. *)
Theorem header_only_returns_no_data env file h d :
  (run_load_data env file false).1 = Ok (h, d) -> d = None.
Proof.
  unfold run_load_data. intros H.
  destruct (load_data_body env file false start) as [[r|e|] w] eqn:E.
  - rewrite (load_data_ok _ _ _ _ _ _ E) in H. simpl in H. injection H as ->.
    destruct (decide (known_version file)) as [Hv|Hv].
    + rewrite (load_data_body_known _ _ _ Hv) in E.
      apply bind_ok_inv in E as ([] & w2 & E2 & E3).
      eapply read_contents_no_data, E3.
    + rewrite (load_data_body_unknown _ _ _ Hv) in E. discriminate E.
  - rewrite (load_data_raise _ _ _ _ _ _ E) in H. congruence.
  - unfold load_data, try_except in H. rewrite E in H. discriminate H.
Qed.

Lemma header_only_returns_no_data_witness :
  exists h d,
    (run_load_data env_no_memory file_src_v3 false).1 = Ok (h, d) /\ d = None.
Proof.
  assert (Hr : returns_header (run_load_data env_no_memory file_src_v3 false) = true)
    by (vm_compute; reflexivity).
  unfold returns_header in Hr.
  destruct (run_load_data env_no_memory file_src_v3 false).1
    as [[h d]|e|] eqn:E; [| discriminate Hr | discriminate Hr].
  exists h, d. split; [reflexivity |].
  exact (header_only_returns_no_data env_no_memory file_src_v3 h d E).
Defined.


(** Whenever a load with the data returns a header, the load of the header
    alone returns that same header, and no matrix. *)
Theorem header_same_without_data env file h d :
  (run_load_data env file true).1 = Ok (Some h, d) ->
  (run_load_data env file false).1 = Ok (Some h, None).
Proof. apply header_only_same_header. Qed.

Lemma header_same_without_data_witness :
  exists h d,
    (run_load_data env_no_memory file_src_v3 true).1 = Ok (Some h, d) /\
    (run_load_data env_no_memory file_src_v3 false).1 = Ok (Some h, None).
Proof.
  assert (Hr : returns_header (run_load_data env_no_memory file_src_v3 true) = true)
    by (vm_compute; reflexivity).
  unfold returns_header in Hr.
  destruct (run_load_data env_no_memory file_src_v3 true).1
    as [[[h|] d]|e|] eqn:E;
    [| discriminate Hr | discriminate Hr | discriminate Hr].
  exists h, d. split; [reflexivity |].
  exact (header_same_without_data env_no_memory file_src_v3 h d E).
Defined.

Lemma unknown_version_returns_nothing_witness :
  ~ known_version file_version_4 /\
  (load_data_body env_no_memory file_version_4 true start).1 = Raise TypeError /\
  (run_load_data env_no_memory file_version_4 true).1 = Ok (None, None).
Proof.
  assert (Hv : ~ known_version file_version_4).
  { unfold known_version.
    replace (version_tag file_version_4) with 4 by (vm_compute; reflexivity).
    lia. }
  split; [exact Hv |].
  exact (unknown_version_returns_nothing env_no_memory file_version_4 true Hv).
Defined.

(** ** The ranges of the header fields *)

Lemma int_from_bytes_bound bs n :
  (length bs <= n)%nat -> is_uint (8 * Z.of_nat n) (int_from_bytes bs).
Proof.
  intros Hl. split; [apply int_from_bytes_nonneg |].
  assert (H : int_from_bytes bs < 2 ^ (8 * Z.of_nat (length bs))).
  { clear Hl. induction bs as [|b bs IH]; [simpl; lia |].
    cbn [int_from_bytes length].
    replace (8 * Z.of_nat (S (length bs))) with (8 + 8 * Z.of_nat (length bs)) by lia.
    rewrite Z.pow_add_r by lia.
    assert (byte_val b < 256).
    { unfold byte_val. pose proof (Byte.to_N_bounded b). lia. }
    assert (0 <= byte_val b) by (unfold byte_val; lia).
    change (2 ^ 8) with 256. lia. }
  eapply Z.lt_le_trans; [exact H |].
  apply Z.pow_le_mono_r; lia.
Qed.

(** Reading never moves the cursor past the end of the file. *)
Lemma wp_file_read_within file n (Q : result (list byte) -> world -> Prop) w :
  (forall bs c', (length bs <= Z.to_nat n)%nat -> cursor w <= c' ->
     (cursor w <= getsize file -> c' <= getsize file) ->
     Q (Ok bs) {| cursor := c'; header := header w; trace := trace w |}) ->
  wp (file_read file n) Q w.
Proof.
  intros H. apply wp_file_read, H; unfold bytes_at, getsize.
  - rewrite length_take. lia.
  - lia.
  - rewrite length_take, length_drop. lia.
Qed.

Ltac wp_within :=
  repeat (lazymatch goal with
          | |- wp (file_read _ _) _ _ =>
              apply wp_file_read_within; intros ? ? ? ? ?
          | |- _ => wp_get
          end; world_simpl).

Lemma wp_read_stream_details_within file n (Q : result unit -> world -> Prop) w a b :
  header w !! "stream_data_types" = Some (PList a) ->
  header w !! "stream_samples_per_package" = Some (PList b) ->
  (forall w' a' b',
      length a' = n -> length b' = n ->
      Forall (is_uint 8) a' -> Forall (is_uint 16) b' ->
      header w' !! "stream_data_types" = Some (PList (a ++ a')) ->
      header w' !! "stream_samples_per_package" = Some (PList (b ++ b')) ->
      (forall k, k <> "stream_data_types" -> k <> "stream_samples_per_package" ->
                 header w' !! k = header w !! k) ->
      cursor w <= cursor w' ->
      (cursor w <= getsize file -> cursor w' <= getsize file) ->
      Q (Ok tt) w') ->
  wp (read_stream_details file n) Q w.
Proof.
  revert w a b. induction n as [|n IH]; intros w a b Ha Hb HQ; simpl.
  - wp_run. apply (HQ w [] []); auto; try lia; now rewrite app_nil_r.
  - wp_within.
    eapply IH; world_simpl; [hlookup | hlookup |].
    intros w' a' b' La Lb Fa Fb Ha' Hb' Hk Hc Hc'. world_simpl.
    rewrite <- app_assoc in Ha', Hb'.
    refine (HQ w' (_ :: a') (_ :: b') _ _ _ _ Ha' Hb' _ _ _); simpl; auto; try lia.
    + constructor; [| exact Fa]. now apply (int_from_bytes_bound bs 1).
    + constructor; [| exact Fb]. now apply (int_from_bytes_bound bs0 2).
    + intros k K1 K2. rewrite Hk by done. hlookup.
Qed.

Lemma str_split_nonempty sep s : str_split sep s <> [].
Proof.
  destruct s as [|c s]; simpl; [discriminate |].
  destruct (Ascii.eqb c sep); [discriminate |].
  destruct (str_split sep s); discriminate.
Qed.

Lemma length_string_of_list_byte bs :
  String.length (string_of_list_byte bs) = length bs.
Proof.
  unfold string_of_list_byte.
  induction bs as [|b bs IH]; simpl; [reflexivity | now rewrite IH].
Qed.

(** The leaves of a description of the header. *)
Ltac header_leaf :=
  first
    [ solve [hlookup]
    | lazymatch goal with
      | |- is_uint _ (int_from_bytes ?b) =>
          match goal with
          | H : (length b <= Z.to_nat ?n)%nat |- _ =>
              exact (int_from_bytes_bound b (Z.to_nat n) H)
          end
      end
    | apply str_split_nonempty
    | rewrite length_string_of_list_byte; assumption
    | assumption
    | lia ].

Lemma wp_read_header_fields_ranges file (Q : result unit -> world -> Prop) w fs v :
  header w = <["version" := PInt v]> (<["file_size" := PInt fs]> ∅) ->
  0 <= cursor w <= getsize file ->
  (forall w', fixed_fields file (header w') ->
              (v = 2 \/ v = 3 -> stream_fields (header w')) ->
              header w' !! "pos_data_start" = Some (PInt (cursor w')) ->
              Q (Ok tt) w') ->
  (forall e w', Q (Raise e) w') ->
  wp (read_header_fields file) Q w.
Proof.
  intros Hh Hc HQ HR. unfold read_header_fields.
  destruct w as [c h t]; simpl in *; subst h.
  wp_within; try apply HR; try congruence.
  all: try (eapply wp_read_stream_details_within;
            [ solve [hlookup] | solve [hlookup]
            | intros w' a' b' La Lb Fa Fb Ha' Hb' Hk Hc1 Hc2 ];
            world_simpl; wp_within; try apply HR).
  all: apply HQ; world_simpl;
    [ constructor
    | intros Hv; tests; first [exfalso; lia | exfalso; tauto | constructor]
    | solve [hlookup] ].
  all: repeat match goal with
         | |- exists _, _ => eexists
         | |- _ /\ _ => split
         end.
  all: header_leaf.
Qed.

Lemma header_ranges_run file w' :
  read_header_fields file (after_preamble file) = (Ok tt, w') ->
  fixed_fields file (header w') /\
  (version_tag file = 2 \/ version_tag file = 3 -> stream_fields (header w')) /\
  header w' !! "pos_data_start" = Some (PInt (cursor w')).
Proof.
  intros E.
  refine (wp_run _ (fun r w' => r = Ok tt -> _) _ _ _ _ E eq_refl).
  apply wp_read_header_fields_ranges
    with (fs := getsize file) (v := version_tag file).
  - reflexivity.
  - unfold after_preamble, getsize. cbn [cursor]. rewrite length_take. lia.
  - intros w2 Hf Hs Hp _. auto.
  - discriminate.
Qed.

(** The header that a load returns is the parsed header plus the derived
    fields. *)
Lemma returned_header_agrees env file rd h d :
  (run_load_data env file rd).1 = Ok (Some h, d) ->
  known_version file /\
  exists w2,
    read_header_fields file (after_preamble file) = (Ok tt, w2) /\
    forall k, ~ derived_field k -> h !! k = header w2 !! k.
Proof.
  intros (Hv & w2 & w3 & E2 & E3 & ->)%load_returns_header_inv.
  split; [exact Hv |]. exists w2. split; [exact E2 |].
  intros k Hd.
  pose proof (keeps_read_contents any_event derived_field env file rd
                any_event_log
                (fun _ => conj any_event_write any_event_allocate)
                (fun k H => H) w2) as (_ & Hh & _).
  rewrite E3 in Hh. now apply Hh.
Qed.

Ltac not_derived := unfold derived_field; intuition discriminate.

Lemma fixed_fields_agree file h h0 :
  (forall k, ~ derived_field k -> h !! k = h0 !! k) ->
  fixed_fields file h0 -> fixed_fields file h.
Proof.
  intros Hk [H1 H2 H3 H4 H5 H6].
  constructor; rewrite !Hk by not_derived; assumption.
Qed.

Lemma stream_fields_agree h h0 :
  (forall k, ~ derived_field k -> h !! k = h0 !! k) ->
  stream_fields h0 -> stream_fields h.
Proof.
  intros Hk [H1 H2].
  constructor; rewrite !Hk by not_derived; assumption.
Qed.

(** Every header that [load_data] returns holds the size of the file, a
    version tag that is 1, 2 or 3, and the fields of lines 61-92 within the
    ranges of their encodings; the data starts inside the file. *)
Theorem returned_header_fixed_fields env file rd h d :
  (run_load_data env file rd).1 = Ok (Some h, d) ->
  known_version file /\
  h !! "file_size" = Some (PInt (getsize file)) /\
  h !! "version" = Some (PInt (version_tag file)) /\
  fixed_fields file h.
Proof.
  intros (Hv & w2 & E2 & Hk)%returned_header_agrees.
  destruct (header_shape_run _ _ E2) as [[Hs Hver _ _ _ _ _ _] _].
  destruct (header_ranges_run _ _ E2) as (Hf & _ & _).
  split; [exact Hv |].
  rewrite !Hk by not_derived.
  split; [exact Hs |]. split; [exact Hver |].
  eapply fixed_fields_agree; eauto.
Qed.

Lemma returned_header_fixed_fields_witness :
  exists h d,
    (run_load_data env_no_memory file_src_v3 true).1 = Ok (Some h, d) /\
    known_version file_src_v3 /\
    h !! "file_size" = Some (PInt (getsize file_src_v3)) /\
    h !! "version" = Some (PInt (version_tag file_src_v3)) /\
    fixed_fields file_src_v3 h.
Proof.
  assert (Hr : returns_header (run_load_data env_no_memory file_src_v3 true) = true)
    by (vm_compute; reflexivity).
  unfold returns_header in Hr.
  destruct (run_load_data env_no_memory file_src_v3 true).1
    as [[[h|] d]|e|] eqn:E;
    [| discriminate Hr | discriminate Hr | discriminate Hr].
  exists h, d. split; [reflexivity |].
  exact (returned_header_fixed_fields env_no_memory file_src_v3 true h d E).
Defined.

(** Every header of version 2 or 3 that [load_data] returns holds both
    epochs and the stream details: as many data types and sample counts as
    there are streams, each within the range of its encoding. *)
Theorem returned_header_stream_fields env file rd h d :
  (run_load_data env file rd).1 = Ok (Some h, d) ->
  version_tag file = 2 \/ version_tag file = 3 ->
  stream_fields h.
Proof.
  intros (_ & w2 & E2 & Hk)%returned_header_agrees Hv.
  destruct (header_ranges_run _ _ E2) as (_ & Hs & _).
  eapply stream_fields_agree; eauto.
Qed.

Lemma returned_header_stream_fields_witness :
  exists h d,
    (run_load_data env_no_memory file_src_v3 true).1 = Ok (Some h, d) /\
    version_tag file_src_v3 = 3 /\
    stream_fields h.
Proof.
  assert (Hr : returns_header (run_load_data env_no_memory file_src_v3 true) = true)
    by (vm_compute; reflexivity).
  assert (Hv : version_tag file_src_v3 = 3) by (vm_compute; reflexivity).
  unfold returns_header in Hr.
  destruct (run_load_data env_no_memory file_src_v3 true).1
    as [[[h|] d]|e|] eqn:E;
    [| discriminate Hr | discriminate Hr | discriminate Hr].
  exists h, d. split; [reflexivity |]. split; [exact Hv |].
  exact (returned_header_stream_fields env_no_memory file_src_v3 true h d E
           (or_intror Hv)).
Defined.

(** ** A MemoryError of [np.empty] *)

(** When [np.empty] itself raises MemoryError, the handler of either
    allocator builds its message from [mem], which is not assigned yet: the
    allocator raises UnboundLocalError instead of returning [None], and
    logs nothing. *)
Theorem allocators_lose_memory_error env r c v check w :
  0 <= r -> 0 <= c -> np_empty_ok env (8 * r * c) = false ->
  _allocate_array env (r, c) v check w = (Raise UnboundLocalError, w) /\
  allocate_array env (r, c) v w = (Raise UnboundLocalError, w).
Proof.
  intros Hr Hc Hok.
  unfold _allocate_array, allocate_array, try_except, bind, np_empty.
  destruct (r <? 0) eqn:E1; [lia |]. destruct (c <? 0) eqn:E2; [lia |].
  cbn. rewrite Hok. cbn. destruct w; auto.
Qed.

Lemma allocators_lose_memory_error_witness :
  _allocate_array env_no_alloc (2, 3) np_nan false start
    = (Raise UnboundLocalError, start) /\
  allocate_array env_no_alloc (2, 3) np_nan start
    = (Raise UnboundLocalError, start).
Proof.
  exact (allocators_lose_memory_error env_no_alloc 2 3 np_nan false start
           ltac:(lia) ltac:(lia) eq_refl).
Defined.

Lemma wp_allocate_array_fails env dims v check
    (Q : result (option ndarray) -> world -> Prop) w :
  (forall n, np_empty_ok env n = false) ->
  (forall e, Q (Raise e) w) ->
  wp (_allocate_array env dims v check) Q w.
Proof.
  intros Hno HR. destruct dims as [r c].
  unfold wp, _allocate_array, try_except, bind, np_empty.
  destruct ((r <? 0) || (c <? 0)); cbn; [apply HR |].
  rewrite Hno. cbn. destruct w; apply HR.
Qed.

Lemma read_contents_v1_fails env file w :
  (forall n, np_empty_ok env n = false) ->
  header w !! "version" = Some (PInt 1) ->
  wp (read_contents env file true) (fun r _ => exists e, r = Raise e) w.
Proof.
  intros Hno Hver. unfold read_contents, load_v1.
  fwd_walk; tests; try lia; eauto.
  all: apply wp_allocate_array_fails; [exact Hno |].
  all: intros e; unfold wp_then; cbv beta iota; eauto.
Qed.

(** On a machine where [np.empty] raises MemoryError, loading the data of
    a version 1 file returns (None, None): the [return header, None] of
    line 127 is not reached. *)
Theorem v1_load_without_memory_returns_nothing env file :
  (forall n, np_empty_ok env n = false) ->
  version_tag file = 1 ->
  (run_load_data env file true).1 = Ok (None, None).
Proof.
  intros Hno Hv.
  assert (Hk : known_version file) by (unfold known_version; tauto).
  destruct (load_data_body env file true start) as [[r|e|] w] eqn:E.
  - exfalso. rewrite (load_data_body_known _ _ _ Hk) in E.
    apply bind_ok_inv in E as ([] & w2 & E2 & E3).
    destruct (header_shape_run _ _ E2) as [[_ Hver _ _ _ _ _ _] _].
    rewrite Hv in Hver.
    pose proof (read_contents_v1_fails env file w2 Hno Hver) as H.
    unfold wp in H. rewrite E3 in H. destruct H as [e H]. discriminate H.
  - exact (run_load_data_raise _ _ _ _ _ E).
  - exfalso. pose proof (load_data_body_ends env file true) as H.
    rewrite E in H. now apply H.
Qed.

Lemma v1_load_without_memory_returns_nothing_witness :
  version_tag file_v1_source = 1 /\
  (run_load_data env_no_alloc file_v1_source true).1 = Ok (None, None) /\
  returns_header (run_load_data env_no_alloc file_v1_source false) = true.
Proof.
  assert (Hv : version_tag file_v1_source = 1) by (vm_compute; reflexivity).
  split; [exact Hv |]. split; [| vm_compute; reflexivity].
  exact (v1_load_without_memory_returns_nothing env_no_alloc file_v1_source
           (fun _ => eq_refl) Hv).
Defined.

(** ** The derived fields of a version 1 header *)

Lemma read_contents_v1_rows env file w code nc pds :
  header w !! "version" = Some (PInt 1) ->
  header w !! "file_size" = Some (PInt (getsize file)) ->
  header w !! "code" = Some (PStr code) ->
  header w !! "num_columns" = Some (PInt nc) ->
  header w !! "pos_data_start" = Some (PInt pds) ->
  wp (read_contents env file false)
    (fun r _ => forall h d, r = Ok (Some h, d) ->
       let rs := if String.eqb (str_lower code) "src"
                    || String.eqb (str_lower code) "dat"
                 then 4 + (nc - 1) * 8 else nc * 8 in
       rs <> 0 /\
       h !! "row_size" = Some (PInt rs) /\
       h !! "num_rows" = Some (PInt ((getsize file - pds) / rs))) w.
Proof.
  intros Hver Hfs Hcode Hnc Hpds.
  unfold read_contents, determine_file_type, load_v1. cbv zeta.
  destruct (String.eqb (str_lower code) "src") eqn:Es;
    destruct (String.eqb (str_lower code) "dat") eqn:Ed.
  all: wp_run; try discriminate.
  all: rewrite ?Es, ?Ed in *; simpl in *; try discriminate.
  all: intros h d [= <- <-]; comparisons.
  all: split; [lia |]; split; hlookup.
  all: repeat f_equal; lia.
Qed.

(** In every version 1 header that [load_data] returns, [row_size] is
    4 + 8 * (num_columns - 1) for a source or pipeline file and
    8 * num_columns for any other, it is not zero, and [num_rows] is the
    floor of (file_size - pos_data_start) / row_size. *)
Theorem v1_header_row_fields env file rd h d :
  (run_load_data env file rd).1 = Ok (Some h, d) ->
  version_tag file = 1 ->
  exists code nc pds,
    h !! "code" = Some (PStr code) /\
    h !! "num_columns" = Some (PInt nc) /\
    h !! "pos_data_start" = Some (PInt pds) /\
    let rs := if String.eqb (str_lower code) "src"
                 || String.eqb (str_lower code) "dat"
              then 4 + (nc - 1) * 8 else nc * 8 in
    rs <> 0 /\
    h !! "row_size" = Some (PInt rs) /\
    h !! "num_rows" = Some (PInt ((getsize file - pds) / rs)).
Proof.
  intros E Hv.
  assert (E' : (run_load_data env file false).1 = Ok (Some h, None)).
  { destruct rd; [eapply header_only_same_header, E |].
    pose proof E as (_ & w2 & w3 & E2 & E3 & _)%load_returns_header_inv.
    apply read_contents_no_data in E3. now subst d. }
  destruct (returned_header_agrees _ _ _ _ _ E') as (_ & w2' & E2' & Hk).
  apply load_returns_header_inv in E' as (_ & w2 & w3 & E2 & E3 & ->).
  assert (w2' = w2) as -> by congruence.
  destruct (header_shape_run _ _ E2)
    as [[Hs Hver (code & Hcode & _) _ _ _ (nc & Hnc & _) (pds & Hpds)] _].
  rewrite Hv in Hver.
  exists code, nc, pds.
  rewrite !Hk by not_derived.
  split; [exact Hcode |]. split; [exact Hnc |]. split; [exact Hpds |].
  pose proof (read_contents_v1_rows env file w2 code nc pds
                Hver Hs Hcode Hnc Hpds) as H.
  unfold wp in H. rewrite E3 in H. exact (H _ _ eq_refl).
Qed.

Lemma v1_header_row_fields_witness :
  exists h d,
    (run_load_data env_no_memory file_v1_plugin true).1 = Ok (Some h, d) /\
    h !! "row_size" = Some (PInt 16) /\
    h !! "num_rows" = Some (PInt 2).
Proof.
  assert (Hr : returns_header (run_load_data env_no_memory file_v1_plugin true) = true)
    by (vm_compute; reflexivity).
  assert (Hv : version_tag file_v1_plugin = 1) by (vm_compute; reflexivity).
  assert (Hc : header_field (run_load_data env_no_memory file_v1_plugin true) "code"
               = Some (PStr "plg")) by (vm_compute; reflexivity).
  assert (Hn : header_field (run_load_data env_no_memory file_v1_plugin true)
                 "num_columns" = Some (PInt 2)) by (vm_compute; reflexivity).
  assert (Hp : header_field (run_load_data env_no_memory file_v1_plugin true)
                 "pos_data_start" = Some (PInt 30)) by (vm_compute; reflexivity).
  assert (Hs : getsize file_v1_plugin = 62) by (vm_compute; reflexivity).
  unfold returns_header in Hr. unfold header_field in Hc, Hn, Hp.
  destruct (run_load_data env_no_memory file_v1_plugin true).1
    as [[[h|] d]|e|] eqn:E;
    [| discriminate Hr | discriminate Hr | discriminate Hr].
  exists h, d. split; [reflexivity |].
  destruct (v1_header_row_fields env_no_memory file_v1_plugin true h d E Hv)
    as (code & nc & pds & Hc' & Hn' & Hp' & _ & Hrs & Hnr).
  rewrite Hs in Hnr.
  assert (code = "plg") as -> by congruence.
  assert (nc = 2) as -> by congruence.
  assert (pds = 30) as -> by congruence.
  split; [exact Hrs | exact Hnr].
Defined.

(** ** The derived fields of a version 2 or 3 header *)

Lemma fold_max_le rest x y : x <= y -> x <= fold_left Z.max rest y.
Proof.
  revert y. induction rest as [|z rest IH]; intros y H; simpl; [exact H |].
  apply IH. lia.
Qed.

Lemma fold_max_spec rest x :
  In (fold_left Z.max rest x) (x :: rest) /\
  Forall (fun y => y <= fold_left Z.max rest x) (x :: rest).
Proof.
  revert x. induction rest as [|z rest IH]; intros x; simpl.
  - split; [auto | constructor; [lia | constructor]].
  - destruct (IH (Z.max x z)) as [Hin Hall]. split.
    + simpl in Hin. destruct Hin as [Hm|Hm]; [| auto].
      rewrite <- Hm. destruct (Z.max_spec x z) as [[_ ->]|[_ ->]]; auto.
    + apply Forall_cons in Hall as [Hm Hall].
      constructor; [| constructor]; [| | exact Hall].
      * apply fold_max_le. lia.
      * apply fold_max_le. lia.
Qed.

Lemma read_contents_v23_max env file w v code spp :
  header w !! "version" = Some (PInt v) -> v = 2 \/ v = 3 ->
  header w !! "code" = Some (PStr code) ->
  header w !! "stream_samples_per_package" = Some (PList spp) ->
  wp (read_contents env file false)
    (fun r _ => forall h d, r = Ok (Some h, d) ->
       exists x rest, spp = x :: rest /\
         h !! "max_samples_stream" = Some (PInt (fold_left Z.max rest x))) w.
Proof.
  intros Hver Hv Hcode Hspp.
  unfold read_contents, determine_file_type, load_v23. cbv zeta.
  wp_run; tests; try lia; try discriminate.
  all: eapply (wp_keeps _ any_event
                 (fun k => k = "total_samples" \/ k = "total_packages"));
    [ apply keeps_read_packages; [exact any_event_log | intros [=] | intros _; split; auto] |].
  all: intros [[ok dd]|e|] w' (_ & Hk & _); unfold wp_then; cbv beta iota;
    try discriminate.
  all: wp_run; intros h d [= <- <-]; do 2 eexists; (split; [reflexivity |]).
  all: world_simpl; rewrite Hk by (intros [?|?]; discriminate); hlookup.
Qed.

(** In every header of version 2 or 3 that [load_data] returns, there is
    at least one stream and [max_samples_stream] is the maximum of
    [stream_samples_per_package]: one of its entries, and not below any. *)
Theorem v23_header_max_samples env file rd h d :
  (run_load_data env file rd).1 = Ok (Some h, d) ->
  version_tag file = 2 \/ version_tag file = 3 ->
  exists ns spp m,
    h !! "num_streams" = Some (PInt ns) /\ 1 <= ns /\
    h !! "stream_samples_per_package" = Some (PList spp) /\
    h !! "max_samples_stream" = Some (PInt m) /\
    In m spp /\ Forall (fun y => y <= m) spp.
Proof.
  intros E Hv.
  assert (E' : (run_load_data env file false).1 = Ok (Some h, None)).
  { destruct rd; [eapply header_only_same_header, E |].
    pose proof E as (_ & w2 & w3 & E2 & E3 & _)%load_returns_header_inv.
    apply read_contents_no_data in E3. now subst d. }
  destruct (returned_header_agrees _ _ _ _ _ E') as (_ & w2' & E2' & Hk).
  apply load_returns_header_inv in E' as (_ & w2 & w3 & E2 & E3 & ->).
  assert (w2' = w2) as -> by congruence.
  destruct (header_shape_run _ _ E2)
    as [[_ Hver (code & Hcode & _) H23 _ _ _ _] _].
  destruct (H23 Hv) as (ns & dts & spp & e1 & e2 & Hns & _ & Hspp & _ & Hlen & _).
  pose proof (read_contents_v23_max env file w2 _ code spp Hver Hv Hcode Hspp) as H.
  unfold wp in H. rewrite E3 in H.
  destruct (H _ _ eq_refl) as (x & rest & -> & Hm).
  exists ns, (x :: rest), (fold_left Z.max rest x).
  rewrite !Hk by not_derived.
  split; [exact Hns |]. split; [simpl in Hlen; lia |].
  split; [exact Hspp |]. split; [exact Hm |].
  apply fold_max_spec.
Qed.

Lemma v23_header_max_samples_witness :
  exists h d,
    (run_load_data env_no_memory file_short_first_chunk true).1 = Ok (Some h, d) /\
    exists ns spp m,
      h !! "num_streams" = Some (PInt ns) /\ 1 <= ns /\
      h !! "stream_samples_per_package" = Some (PList spp) /\
      h !! "max_samples_stream" = Some (PInt m) /\
      In m spp /\ Forall (fun y => y <= m) spp.
Proof.
  assert (Hr : returns_header
                 (run_load_data env_no_memory file_short_first_chunk true) = true)
    by (vm_compute; reflexivity).
  assert (Hv : version_tag file_short_first_chunk = 2) by (vm_compute; reflexivity).
  unfold returns_header in Hr.
  destruct (run_load_data env_no_memory file_short_first_chunk true).1
    as [[[h|] d]|e|] eqn:E;
    [| discriminate Hr | discriminate Hr | discriminate Hr].
  exists h, d. split; [reflexivity |].
  exact (v23_header_max_samples env_no_memory file_short_first_chunk true h d E
           (or_introl Hv)).
Defined.

(** ** Decoding the rows of a version 1 source or pipeline file *)

Lemma cell_update_cells_eq d f r c :
  cell (update_cells d f) r c =
    match cell d r c with
    | Some x => Some (default x (f r c))
    | None => None
    end.
Proof.
  unfold cell, update_cells. simpl.
  rewrite list_lookup_imap.
  destruct (rows d !! r) as [row|]; simpl; [| reflexivity].
  rewrite list_lookup_imap.
  now destruct (row !! c).
Qed.

Lemma cell_np_full_in nr nc v r c :
  (r < nr)%nat -> (c < nc)%nat -> cell (np_full nr nc v) r c = Some v.
Proof.
  intros Hr Hc. unfold cell, np_full. simpl.
  rewrite lookup_replicate_2 by exact Hr.
  now apply lookup_replicate_2.
Qed.

Lemma file_read_exact file n w :
  0 <= cursor w -> 0 <= n -> cursor w + n <= getsize file ->
  file_read file n w =
    (Ok (bytes_at file (cursor w) n),
     {| cursor := cursor w + n; header := header w; trace := trace w |}).
Proof.
  intros Hc Hn Hle. unfold file_read.
  change (take (Z.to_nat n) (drop (Z.to_nat (cursor w)) file))
    with (bytes_at file (cursor w) n).
  now rewrite bytes_at_length.
Qed.

Lemma np_fromfile_exact file n w :
  0 <= cursor w -> 0 <= n -> cursor w + 8 * n <= getsize file ->
  np_fromfile file n w =
    (Ok (floats_at file (cursor w) (Z.to_nat n)),
     {| cursor := cursor w + 8 * n; header := header w; trace := trace w |}).
Proof.
  intros Hc Hn Hle. unfold np_fromfile, floats_at, getsize in *.
  destruct (n <? 0) eqn:E; [lia |].
  assert (Hm : Nat.min (Z.to_nat n)
                 (length (drop (Z.to_nat (cursor w)) file) / 8) = Z.to_nat n).
  { apply Nat.min_l. rewrite length_drop.
    apply Nat.div_le_lower_bound; lia. }
  rewrite Hm. repeat f_equal. lia.
Qed.

Lemma length_floats_of_bytes n bs : length (floats_of_bytes n bs) = n.
Proof. revert bs. induction n as [|n IH]; intros bs; simpl; auto. Qed.

Lemma lookup_floats_at file pos n j :
  0 <= pos -> (j < n)%nat ->
  floats_at file pos n !! j =
    Some (int_from_bytes (bytes_at file (pos + 8 * Z.of_nat j) 8)).
Proof.
  intros Hp. unfold floats_at, bytes_at.
  replace (Z.to_nat (pos + 8 * Z.of_nat j)) with (Z.to_nat pos + 8 * j)%nat by lia.
  rewrite <- drop_drop.
  generalize (drop (Z.to_nat pos) file) as bs.
  revert j. induction n as [|n IH]; intros j bs Hj; [lia |].
  destruct j as [|j].
  - reflexivity.
  - replace (8 * S j)%nat with (8 + 8 * j)%nat by lia.
    rewrite <- drop_drop. cbn [floats_of_bytes].
    change ((int_from_bytes (take 8 bs) :: floats_of_bytes n (drop 8 bs)) !! S j)
      with (floats_of_bytes n (drop 8 bs) !! j).
    apply IH. lia.
Qed.

Lemma wp_file_read_exact file n (Q : result (list byte) -> world -> Prop) w :
  0 <= cursor w -> 0 <= n -> cursor w + n <= getsize file ->
  Q (Ok (bytes_at file (cursor w) n))
    {| cursor := cursor w + n; header := header w; trace := trace w |} ->
  wp (file_read file n) Q w.
Proof.
  intros Hc Hn Hle HQ. unfold wp. now rewrite file_read_exact.
Qed.

Lemma wp_np_fromfile_exact file n (Q : result (list Z) -> world -> Prop) w :
  0 <= cursor w -> 0 <= n -> cursor w + 8 * n <= getsize file ->
  Q (Ok (floats_at file (cursor w) (Z.to_nat n)))
    {| cursor := cursor w + 8 * n; header := header w; trace := trace w |} ->
  wp (np_fromfile file n) Q w.
Proof.
  intros Hc Hn Hle HQ. unfold wp. now rewrite np_fromfile_exact.
Qed.

Lemma slice_clip_one i n : (i < n)%nat ->
  slice_clip (Z.of_nat i) (Z.of_nat i + 1) n = (i, S i).
Proof. intros H. unfold slice_clip. f_equal; lia. Qed.

(** [data[r, c] = v] inside the matrix. *)
Lemma wp_setitem_cell_in d r c v (Q : result ndarray -> world -> Prop) w :
  (r < nrows d)%nat -> (c < ncols d)%nat ->
  (forall t, Q (Ok (block_update d r (S r) c (S c) (scalar v)))
               {| cursor := cursor w; header := header w; trace := t |}) ->
  wp (setitem_cell d (Z.of_nat r) (Z.of_nat c) v) Q w.
Proof.
  intros Hr Hc HQ. unfold setitem_cell, index_ok.
  replace (_ && _) with true
    by (symmetry; rewrite !andb_true_iff, !Z.leb_le, !Z.ltb_lt; lia).
  unfold setitem_block.
  rewrite (slice_clip_one r) by exact Hr. rewrite (slice_clip_one c) by exact Hc.
  replace (broadcastable _ _ && broadcastable _ _) with true
    by (unfold broadcastable; simpl; now rewrite !orb_true_r).
  unfold wp, bind, emit, ret. cbn. apply HQ.
Qed.

(** [data[r, 1:nc] = values] for a row of the matrix and as many values as
    it has columns after the first. *)
Lemma wp_setitem_row_in d r nc vs (Q : result ndarray -> world -> Prop) w :
  (r < nrows d)%nat -> 1 <= nc -> ncols d = Z.to_nat nc ->
  length vs = Z.to_nat (nc - 1) ->
  (forall t, Q (Ok (block_update d r (S r) 1 (Z.to_nat nc) (row_vector vs)))
               {| cursor := cursor w; header := header w; trace := t |}) ->
  wp (setitem_row d (Z.of_nat r) 1 nc vs) Q w.
Proof.
  intros Hr Hn Hc Hl HQ. unfold setitem_row, index_ok.
  replace (_ && _) with true
    by (symmetry; rewrite !andb_true_iff, !Z.leb_le, !Z.ltb_lt; lia).
  unfold setitem_block.
  rewrite (slice_clip_one r) by exact Hr.
  assert (Hs : slice_clip 1 nc (ncols d) = (1%nat, Z.to_nat nc)).
  { unfold slice_clip. rewrite Hc. f_equal; lia. }
  rewrite Hs.
  replace (broadcastable _ _ && broadcastable _ _) with true.
  - unfold wp, bind, emit, ret. cbn. apply HQ.
  - symmetry. unfold broadcastable, row_vector. cbn [nrows ncols].
    rewrite Hl. apply andb_true_iff. split; apply orb_true_iff.
    + right. apply Nat.eqb_eq. lia.
    + left. apply Nat.eqb_eq. lia.
Qed.

Lemma length_floats_at file pos n : length (floats_at file pos n) = n.
Proof. apply length_floats_of_bytes. Qed.

Lemma in_range_iff lo hi i : in_range lo hi i = true <-> (lo <= i < hi)%nat.
Proof.
  unfold in_range. rewrite andb_true_iff, Nat.leb_le, Nat.ltb_lt. tauto.
Qed.

(** The cells after [data[r, c] = v]. *)
Lemma cell_scalar_update d r c v r' c' :
  cell (block_update d r (S r) c (S c) (scalar v)) r' c' =
    match cell d r' c' with
    | Some x => Some (if bool_decide (r' = r /\ c' = c) then v else x)
    | None => None
    end.
Proof.
  unfold block_update. rewrite cell_update_cells_eq.
  destruct (cell d r' c') as [x|]; [| reflexivity]. f_equal.
  case_bool_decide as H.
  - destruct H as [-> ->].
    replace (in_range r (S r) r) with true by (symmetry; apply in_range_iff; lia).
    replace (in_range c (S c) c) with true by (symmetry; apply in_range_iff; lia).
    reflexivity.
  - destruct (in_range r (S r) r' && in_range c (S c) c') eqn:E; [| reflexivity].
    apply andb_true_iff in E as [E1%in_range_iff E2%in_range_iff].
    exfalso. apply H. lia.
Qed.

(** The cells after [data[r, 1:nc] = values]. *)
Lemma cell_row_update d r nc vs r' c' :
  length vs = (nc - 1)%nat ->
  cell (block_update d r (S r) 1 nc (row_vector vs)) r' c' =
    match cell d r' c' with
    | Some x =>
        Some (if bool_decide (r' = r /\ (1 <= c' < nc)%nat)
              then default x (vs !! (c' - 1)%nat) else x)
    | None => None
    end.
Proof.
  intros Hl. unfold block_update. rewrite cell_update_cells_eq.
  destruct (cell d r' c') as [x|]; [| reflexivity]. f_equal.
  case_bool_decide as H.
  - destruct H as [-> Hc].
    replace (in_range r (S r) r) with true by (symmetry; apply in_range_iff; lia).
    replace (in_range 1 nc c') with true by (symmetry; now apply in_range_iff).
    cbn [andb]. f_equal.
    unfold src_cell, row_vector, cell. cbn [nrows ncols rows Nat.eqb].
    change ([vs] !! 0%nat) with (Some vs).
    destruct (length vs =? 1)%nat eqn:E; [| reflexivity].
    apply Nat.eqb_eq in E. f_equal. lia.
  - destruct (in_range r (S r) r' && in_range 1 nc c') eqn:E; [| reflexivity].
    apply andb_true_iff in E as [E1%in_range_iff E2%in_range_iff].
    exfalso. apply H. lia.
Qed.

(** One iteration of the row loop decodes row [i]. *)
Lemma v1_decoded_step file pds nc nr i d :
  0 <= pds -> 1 <= nc -> (i < nr)%nat ->
  v1_decoded file pds nc nr i d ->
  let off := pds + Z.of_nat i * (4 + (nc - 1) * 8) in
  v1_decoded file pds nc nr (S i)
    (block_update
       (block_update d i (S i) 0 1
          (scalar (float64_of_int (int_from_bytes (bytes_at file off 4)))))
       i (S i) 1 (Z.to_nat nc)
       (row_vector (floats_at file (off + 4) (Z.to_nat (nc - 1))))).
Proof.
  intros Hp Hn Hi (Hr & Hc & Hcells) off.
  assert (Hoff : 0 <= off)
    by (unfold off; apply Z.add_nonneg_nonneg;
        [lia | apply Z.mul_nonneg_nonneg; lia]).
  split; [exact Hr |]. split; [exact Hc |].
  intros r c Hrn Hcn.
  destruct (Hcells r c Hrn Hcn) as (x & Hx & Hdec).
  rewrite cell_row_update by (rewrite length_floats_at; lia).
  rewrite cell_scalar_update, Hx.
  eexists. split; [reflexivity |].
  intros Hlt.
  destruct (decide (r = i)) as [->|Hri].
  - destruct c as [|j].
    + rewrite bool_decide_eq_false_2 by lia.
      rewrite bool_decide_eq_true_2 by auto.
      reflexivity.
    + rewrite bool_decide_eq_true_2 by lia.
      replace (S j - 1)%nat with j by lia.
      rewrite lookup_floats_at by lia. cbn [default].
      unfold v1_cell. fold off. reflexivity.
  - rewrite !bool_decide_eq_false_2 by tauto. apply Hdec. lia.
Qed.

Lemma read_rows_v1_decodes file pds nc nr n i d w :
  header w !! "num_columns" = Some (PInt nc) -> 1 <= nc -> 0 <= pds ->
  v1_decoded file pds nc nr i d -> (i + n <= nr)%nat ->
  cursor w = pds + Z.of_nat i * (4 + (nc - 1) * 8) ->
  pds + Z.of_nat (i + n) * (4 + (nc - 1) * 8) <= getsize file ->
  wp (read_rows_v1 file n (Z.of_nat i) d)
    (fun r w' => exists d', r = Ok d' /\
       v1_decoded file pds nc nr (i + n) d' /\
       cursor w' = pds + Z.of_nat (i + n) * (4 + (nc - 1) * 8) /\
       header w' = header w) w.
Proof.
  revert i d w. induction n as [|n IH]; intros i d w Hnc Hn Hp Hd Hle Hc Hfs.
  - apply wp_ret. exists d. rewrite Nat.add_0_r. auto.
  - cbn [read_rows_v1].
    pose proof Hd as (Hr & Hcol & _).
    set (rs := 4 + (nc - 1) * 8) in *.
    assert (Ers : rs = 4 + (nc - 1) * 8) by reflexivity. clearbody rs.
    assert (A : 0 <= Z.of_nat i * rs) by (apply Z.mul_nonneg_nonneg; lia).
    assert (C : 0 <= Z.of_nat n * rs) by (apply Z.mul_nonneg_nonneg; lia).
    assert (B : Z.of_nat (i + S n) * rs
                = Z.of_nat i * rs + rs + Z.of_nat n * rs)
      by (rewrite Nat2Z.inj_add, Nat2Z.inj_succ; ring).
    assert (D : Z.of_nat (S i) * rs = Z.of_nat i * rs + rs)
      by (rewrite Nat2Z.inj_succ; ring).
    apply wp_bind, wp_file_read_exact; [lia | lia | lia |].
    unfold wp_then; cbv beta iota.
    apply wp_bind, (wp_setitem_cell_in d i 0); [lia | lia |]. intros t1.
    unfold wp_then; cbv beta iota.
    apply wp_bind. eapply wp_hget_int; [exact Hnc |].
    unfold wp_then; cbv beta iota.
    apply wp_bind, wp_np_fromfile_exact; world_simpl; [lia | lia | lia |].
    unfold wp_then; cbv beta iota.
    apply wp_bind. eapply wp_hget_int; [exact Hnc |].
    unfold wp_then; cbv beta iota.
    apply wp_bind, wp_setitem_row_in;
      [ change (i < nrows d)%nat; lia | exact Hn | exact Hcol
      | apply length_floats_at |].
    intros t2. unfold wp_then; cbv beta iota.
    replace (Z.of_nat i + 1) with (Z.of_nat (S i)) by lia.
    eapply wp_mono.
    + apply (IH (S i)); world_simpl.
      * exact Hnc.
      * exact Hn.
      * exact Hp.
      * rewrite Hc. subst rs. apply v1_decoded_step; auto. lia.
      * lia.
      * lia.
      * replace (S i + n)%nat with (i + S n)%nat by lia. subst rs. exact Hfs.
    + intros r w' (d' & -> & Hd' & Hc' & Hh). world_simpl.
      exists d'. replace (i + S n)%nat with (S i + n)%nat by lia.
      subst rs. auto.
Qed.

Lemma wp_allocate_array_ok env r c v (Q : result (option ndarray) -> world -> Prop) w :
  0 <= r -> 0 <= c -> np_empty_ok env (8 * r * c) = true ->
  (forall t, Q (Ok (Some (np_full (Z.to_nat r) (Z.to_nat c) v)))
               {| cursor := cursor w; header := header w; trace := t |}) ->
  wp (_allocate_array env (r, c) v false) Q w.
Proof.
  intros Hr Hc Hok HQ. unfold wp.
  rewrite (allocate_unchecked _ _ _ _ _ Hr Hc Hok). apply HQ.
Qed.

Lemma v1_decoded_full file pds nc nr v :
  v1_decoded file pds nc nr 0 (np_full nr (Z.to_nat nc) v).
Proof.
  split; [reflexivity |]. split; [reflexivity |].
  intros r c Hr Hc. exists v. split; [now apply cell_np_full_in | lia].
Qed.

Lemma read_contents_v1_decodes env file w code nc :
  header w !! "version" = Some (PInt 1) ->
  header w !! "file_size" = Some (PInt (getsize file)) ->
  header w !! "code" = Some (PStr code) ->
  str_lower code = "src" \/ str_lower code = "dat" ->
  header w !! "num_columns" = Some (PInt nc) -> 1 <= nc ->
  header w !! "pos_data_start" = Some (PInt (cursor w)) ->
  0 <= cursor w <= getsize file ->
  let rs := 4 + (nc - 1) * 8 in
  let nr := (getsize file - cursor w) / rs in
  np_empty_ok env (8 * nr * nc) = true ->
  wp (read_contents env file true)
    (fun r w' => exists h d,
       r = Ok (Some h, Some d) /\
       cursor w' = cursor w + nr * rs /\
       v1_decoded file (cursor w) nc (Z.to_nat nr) (Z.to_nat nr) d) w.
Proof.
  intros Hver Hfs Hcode Hsd Hnc Hn Hpds Hc rs nr Hok.
  assert (Hrs : 4 <= rs) by (unfold rs; lia).
  assert (Hnr : 0 <= nr) by (apply Z.div_pos; lia).
  assert (Hfit : nr * rs <= getsize file - cursor w)
    by (rewrite Z.mul_comm; apply Z.mul_div_le; lia).
  unfold read_contents, determine_file_type, load_v1. cbv zeta.
  destruct (String.eqb (str_lower code) "src") eqn:Es;
    destruct (String.eqb (str_lower code) "dat") eqn:Ed.
  all: tests.
  all: try (exfalso; destruct Hsd; congruence).
  all: wp_run; try discriminate.
  all: rewrite ?Es, ?Ed in *; simpl in *; try discriminate.
  all: comparisons; try lia.
  all: apply wp_allocate_array_ok; [exact Hnr | lia | exact Hok |].
  all: intros t; unfold wp_then; cbv beta iota; wp_run.
  all: eapply wp_mono;
    [ apply (read_rows_v1_decodes file (cursor w) nc (Z.to_nat nr)
               (Z.to_nat nr) 0);
      world_simpl;
      [ solve [hlookup] | exact Hn | lia | apply v1_decoded_full | lia | lia
      | change (0 + Z.to_nat nr)%nat with (Z.to_nat nr);
        rewrite Z2Nat.id by lia; fold rs; lia ]
    | intros r w' (d' & -> & Hd' & Hc' & Hh); unfold wp_then; cbv beta iota;
      wp_run; do 2 eexists; split; [reflexivity |];
      split; [| exact Hd'];
      rewrite Hc'; change (0 + Z.to_nat nr)%nat with (Z.to_nat nr);
      rewrite Z2Nat.id by lia; reflexivity ].
Qed.

(** For a version 1 source or pipeline file with at least one column, on a
    machine where [np.empty] can provide the matrix, [load_data] returns a
    matrix of num_rows x num_columns cells: row [r] holds the sample
    identifier read at pos_data_start + r * row_size, converted to float64,
    and the num_columns - 1 doubles that follow it.  The rows consume
    num_rows * row_size bytes and what follows them is not read. *)
Theorem v1_source_rows_decoded env file h0 code nc pds :
  parsed_header file = Some h0 ->
  h0 !! "version" = Some (PInt 1) ->
  h0 !! "code" = Some (PStr code) ->
  str_lower code = "src" \/ str_lower code = "dat" ->
  h0 !! "num_columns" = Some (PInt nc) -> 1 <= nc ->
  h0 !! "pos_data_start" = Some (PInt pds) ->
  let rs := 4 + (nc - 1) * 8 in
  let nr := (getsize file - pds) / rs in
  np_empty_ok env (8 * nr * nc) = true ->
  exists h d,
    (run_load_data env file true).1 = Ok (Some h, Some d) /\
    final_cursor (run_load_data env file true) = pds + nr * rs /\
    nrows d = Z.to_nat nr /\ ncols d = Z.to_nat nc /\
    forall r c, (r < Z.to_nat nr)%nat -> (c < Z.to_nat nc)%nat ->
      cell d r c = Some (v1_cell file pds nc r c).
Proof.
  intros (w2 & E2 & <-)%parsed_header_run Hver Hcode Hsd Hnc Hn Hpds rs nr Hok.
  destruct (header_shape_run _ _ E2) as [[Hfs Hver' _ _ _ _ _ _] _].
  destruct (header_ranges_run _ _ E2) as ([_ _ _ _ _ (p & Hp & Hpr)] & _ & Hcur).
  assert (p = cursor w2) as -> by congruence.
  assert (pds = cursor w2) as -> by congruence.
  assert (Hk : known_version file)
    by (unfold known_version; left; congruence).
  pose proof (read_contents_v1_decodes env file w2 code nc
                Hver Hfs Hcode Hsd Hnc Hn Hcur Hpr Hok) as H.
  unfold wp in H.
  destruct (read_contents env file true w2) as [r w3] eqn:E3.
  destruct H as (h & d & Hr & Hc3 & (Hnr & Hncol & Hcells)).
  cbn [fst snd] in Hr, Hc3. subst r.
  assert (E : load_data env file true start = (Ok (Some h, Some d), w3)).
  { apply load_data_ok.
    now rewrite (load_data_body_known _ _ _ Hk), (bind_ok _ _ _ _ _ E2). }
  exists h, d. unfold run_load_data, final_cursor. rewrite E. cbn [fst snd].
  split; [reflexivity |]. split; [exact Hc3 |].
  split; [exact Hnr |]. split; [exact Hncol |].
  intros r c Hr Hc. destruct (Hcells r c Hr Hc) as (x & Hx & Hd).
  rewrite Hx. f_equal. now apply Hd.
Qed.

Lemma v1_source_rows_decoded_witness :
  exists h d,
    (run_load_data env_no_memory file_v1_source true).1 = Ok (Some h, Some d) /\
    final_cursor (run_load_data env_no_memory file_v1_source true) = 33 + 2 * 20 /\
    nrows d = 2%nat /\ ncols d = 3%nat /\
    cell d 1 0 = Some (float64_of_int 2) /\
    cell d 1 2 = Some 0x4010000000000000.
Proof.
  assert (Hv : parsed_field file_v1_source "version" = Some (PInt 1))
    by (vm_compute; reflexivity).
  assert (Hc : parsed_field file_v1_source "code" = Some (PStr "src"))
    by (vm_compute; reflexivity).
  assert (Hn : parsed_field file_v1_source "num_columns" = Some (PInt 3))
    by (vm_compute; reflexivity).
  assert (Hp : parsed_field file_v1_source "pos_data_start" = Some (PInt 33))
    by (vm_compute; reflexivity).
  unfold parsed_field in Hv, Hc, Hn, Hp.
  destruct (parsed_header file_v1_source) as [h0|] eqn:E; [| discriminate Hv].
  destruct (v1_source_rows_decoded env_no_memory file_v1_source h0 "src" 3 33
              E Hv Hc (or_introl eq_refl) Hn ltac:(lia) Hp eq_refl)
    as (h & d & Hr & Hcur & Hnr & Hnc & Hcells).
  exists h, d. split; [exact Hr |].
  split; [exact Hcur |]. split; [exact Hnr |]. split; [exact Hnc |].
  split.
  - rewrite (Hcells 1%nat 0%nat) by (vm_compute; lia). vm_compute. reflexivity.
  - rewrite (Hcells 1%nat 2%nat) by (vm_compute; lia). vm_compute. reflexivity.
Defined.

(** ** Files of a plugin *)

(** A version 1 file whose code is neither "src" nor "dat" and that
    declares no columns has a row size of zero: the division of line 119
    raises ZeroDivisionError and [load_data] returns (None, None), with or
    without the data. *)
Theorem v1_plugin_no_columns_returns_nothing env file rd h0 code :
  parsed_header file = Some h0 ->
  h0 !! "version" = Some (PInt 1) ->
  h0 !! "code" = Some (PStr code) ->
  str_lower code <> "src" -> str_lower code <> "dat" ->
  h0 !! "num_columns" = Some (PInt 0) ->
  (load_data_body env file rd start).1 = Raise ZeroDivisionError /\
  (run_load_data env file rd).1 = Ok (None, None).
Proof.
  intros (w2 & E2 & <-)%parsed_header_run Hver Hcode Hs Hd Hnc.
  destruct (header_shape_run _ _ E2) as [[Hfs Hver' _ _ _ _ _ (p & Hp)] _].
  assert (Hk : known_version file)
    by (unfold known_version; left; congruence).
  clear Hver'.
  assert (E : (load_data_body env file rd start).1 = Raise ZeroDivisionError).
  { rewrite (load_data_body_known _ _ _ Hk), (bind_ok _ _ _ _ _ E2).
    change (wp (read_contents env file rd)
              (fun r _ => r = Raise ZeroDivisionError) w2).
    unfold read_contents, determine_file_type, load_v1. cbv zeta.
    apply String.eqb_neq in Hs, Hd.
    wp_run; try discriminate; try reflexivity.
    all: rewrite ?Hs, ?Hd in *; simpl in *; try discriminate. }
  split; [exact E |].
  destruct (load_data_body env file rd start) as [r w] eqn:Eb.
  simpl in E. subst r. exact (run_load_data_raise _ _ _ _ _ Eb).
Qed.

Lemma v1_plugin_no_columns_returns_nothing_witness :
  (load_data_body env_no_memory file_v1_plugin_no_columns false start).1
    = Raise ZeroDivisionError /\
  (run_load_data env_no_memory file_v1_plugin_no_columns false).1
    = Ok (None, None).
Proof.
  assert (Hv : parsed_field file_v1_plugin_no_columns "version" = Some (PInt 1))
    by (vm_compute; reflexivity).
  assert (Hc : parsed_field file_v1_plugin_no_columns "code" = Some (PStr "plg"))
    by (vm_compute; reflexivity).
  assert (Hn : parsed_field file_v1_plugin_no_columns "num_columns" = Some (PInt 0))
    by (vm_compute; reflexivity).
  unfold parsed_field in Hv, Hc, Hn.
  destruct (parsed_header file_v1_plugin_no_columns) as [h0|] eqn:E;
    [| discriminate Hv].
  apply (v1_plugin_no_columns_returns_nothing env_no_memory
           file_v1_plugin_no_columns false h0 "plg" E Hv Hc);
    [discriminate | discriminate | exact Hn].
Defined.

Lemma wp_determine_file_type (Q : result Z -> world -> Prop) w code :
  header w !! "code" = Some (PStr code) ->
  Q (Ok (if String.eqb (str_lower code) "dat" then 1
         else if String.eqb (str_lower code) "src" then 0 else 2)) w ->
  wp determine_file_type Q w.
Proof.
  intros Hcode HQ. unfold determine_file_type. cbv zeta. wp_run. exact HQ.
Qed.

Lemma read_contents_v23_plugin env file rd w v code spp x :
  header w !! "version" = Some (PInt v) -> v = 2 \/ v = 3 ->
  header w !! "code" = Some (PStr code) ->
  str_lower code <> "src" -> str_lower code <> "dat" ->
  header w !! "stream_samples_per_package" = Some (PList (x :: spp)) ->
  header w !! "pos_data_start" = Some (PInt (cursor w)) -> 0 <= cursor w ->
  wp (read_contents env file rd)
    (fun r w' => exists h,
       r = Ok (Some h, None) /\
       h !! "total_samples" = Some (PInt 0) /\
       h !! "total_packages" = Some (PInt 0) /\
       trace w' = trace w ++ [EvLog LError]) w.
Proof.
  intros Hver Hv Hcode Hs Hd Hspp Hpds Hc.
  apply String.eqb_neq in Hs, Hd.
  unfold read_contents.
  apply wp_bind. eapply wp_determine_file_type; [exact Hcode |].
  rewrite Hs, Hd. unfold wp_then; cbv beta iota.
  unfold load_v23, __read_packages.
  wp_run; tests; comparisons.
  all: change (0 =? 0) with true in *; cbv iota in *.
  all: try lia; try discriminate.
  all: eexists; split; [reflexivity |]; repeat split; hlookup.
Qed.

(** A file of version 2 or 3 whose code is neither "src" nor "dat", with
    at least one stream: [load_data] logs one error (the package header
    size cannot be determined) and returns the header without data, with
    [total_samples] and [total_packages] zero, whether or not the data was
    asked for. *)
Theorem v23_plugin_data_not_read env file rd h0 v code ns :
  parsed_header file = Some h0 ->
  h0 !! "version" = Some (PInt v) -> v = 2 \/ v = 3 ->
  h0 !! "code" = Some (PStr code) ->
  str_lower code <> "src" -> str_lower code <> "dat" ->
  h0 !! "num_streams" = Some (PInt ns) -> 1 <= ns ->
  exists h,
    (run_load_data env file rd).1 = Ok (Some h, None) /\
    h !! "total_samples" = Some (PInt 0) /\
    h !! "total_packages" = Some (PInt 0) /\
    trace (run_load_data env file rd).2 = [EvLog LError].
Proof.
  intros (w2 & E2 & <-)%parsed_header_run Hver Hv Hcode Hs Hd Hns Hn.
  destruct (header_shape_run _ _ E2) as [[_ Hver' _ H23 _ _ _ _] Ht].
  assert (v = version_tag file) as -> by congruence.
  destruct (H23 Hv) as (ns' & dts & spp & e1 & e2 & Hns' & _ & Hspp & _ & Hlen & _).
  assert (ns' = ns) as -> by congruence.
  destruct spp as [|x spp]; [simpl in Hlen; lia |].
  destruct (header_ranges_run _ _ E2) as ([_ _ _ _ _ (p & Hp & Hpr)] & _ & Hcur).
  assert (p = cursor w2) as -> by congruence.
  assert (Hk : known_version file) by (unfold known_version; tauto).
  clear Hver'.
  pose proof (read_contents_v23_plugin env file rd w2 _ code spp x
                Hver Hv Hcode Hs Hd Hspp Hcur ltac:(lia)) as H.
  unfold wp in H.
  destruct (read_contents env file rd w2) as [r w3] eqn:E3.
  destruct H as (h & Hr & Hts & Htp & Htr). cbn [fst snd] in Hr, Htr. subst r.
  assert (E : load_data env file rd start = (Ok (Some h, None), w3)).
  { apply load_data_ok.
    now rewrite (load_data_body_known _ _ _ Hk), (bind_ok _ _ _ _ _ E2). }
  exists h. unfold run_load_data. rewrite E. cbn [fst snd].
  rewrite Htr, Ht. auto.
Qed.

Lemma v23_plugin_data_not_read_witness :
  exists h,
    (run_load_data env_no_memory file_v2_plugin true).1 = Ok (Some h, None) /\
    h !! "total_samples" = Some (PInt 0) /\
    h !! "total_packages" = Some (PInt 0) /\
    trace (run_load_data env_no_memory file_v2_plugin true).2 = [EvLog LError].
Proof.
  assert (Hv : parsed_field file_v2_plugin "version" = Some (PInt 2))
    by (vm_compute; reflexivity).
  assert (Hc : parsed_field file_v2_plugin "code" = Some (PStr "plg"))
    by (vm_compute; reflexivity).
  assert (Hn : parsed_field file_v2_plugin "num_streams" = Some (PInt 2))
    by (vm_compute; reflexivity).
  unfold parsed_field in Hv, Hc, Hn.
  destruct (parsed_header file_v2_plugin) as [h0|] eqn:E; [| discriminate Hv].
  apply (v23_plugin_data_not_read env_no_memory file_v2_plugin true h0 2 "plg" 2
           E Hv (or_introl eq_refl) Hc);
    [discriminate | discriminate | exact Hn | lia].
Defined.

(** ** The layout without chunks: the counting pass *)

Lemma samples_of_nonneg fuel file ft incl ns pos :
  0 <= samples_of (flat_packages fuel file ft incl ns pos).
Proof.
  revert pos. induction fuel as [|fuel IH]; intros pos; cbn [flat_packages].
  - unfold samples_of. simpl. lia.
  - cbv zeta. destruct (_ <=? _); [| unfold samples_of; simpl; lia].
    destruct (_ <=? _); [| unfold samples_of; simpl; lia].
    unfold samples_of in *. cbn [map foldr snd].
    specialize (IH (pos + flat_header_size ft incl
                    + ns * flat_samples file ft incl pos * 8)).
    assert (0 <= flat_samples file ft incl pos).
    { unfold flat_samples. destruct (ft =? 0); [apply int_from_bytes_nonneg | lia]. }
    lia.
Qed.

(** A program that ends in a given outcome and world. *)
Lemma wp_equals {A} (m : M A) w (o : result A * world) :
  wp m (fun r w' => (r, w') = o) w -> m w = o.
Proof. unfold wp. now destruct (m w). Qed.

Lemma flat_header_size_min ft incl : 12 <= flat_header_size ft incl.
Proof. unfold flat_header_size. destruct (ft =? 0); [destruct incl |]; lia. Qed.

Lemma flat_samples_nonneg file ft incl pos : 0 <= flat_samples file ft incl pos.
Proof.
  unfold flat_samples. destruct (ft =? 0); [apply int_from_bytes_nonneg | lia].
Qed.

(** One package of the layout without chunks, in the counting pass. *)
Lemma read_package_flat_count file ft incl hc cfuel mss ns l w ts tp :
  flat_layout ft mss incl ->
  header w !! "file_size" = Some (PInt (getsize file)) ->
  header w !! "num_streams" = Some (PInt ns) -> 0 <= ns ->
  header w !! "max_samples_stream" = Some (PInt mss) ->
  header w !! "total_samples" = Some (PInt ts) ->
  header w !! "total_packages" = Some (PInt tp) ->
  0 <= cursor w ->
  cursor w + flat_header_size ft incl <= getsize file ->
  let n := flat_samples file ft incl (cursor w) in
  let nxt := cursor w + flat_header_size ft incl + ns * n * 8 in
  read_package file ft false incl hc cfuel l w =
    if nxt <=? getsize file
    then (Ok (Next {| data := data l; row_index := row_index l;
                      num_samples := Some n |}),
          {| cursor := nxt;
             header := <["total_packages" := PInt (tp + 1)]>
                         (<["total_samples" := PInt (ts + n)]> (header w));
             trace := trace w |})
    else (Ok (Return (true, data l)),
          {| cursor := cursor w + flat_header_size ft incl;
             header := header w;
             trace := trace w ++ [EvLog LWarning] |}).
Proof.
  intros Hflat Hfs Hns Hn0 Hmss Hts Htp Hc Hfit n nxt.
  apply wp_equals. subst n nxt.
  pose proof (flat_samples_nonneg file ft incl (cursor w)) as Hs0.
  assert (Hnn : 0 <= ns * flat_samples file ft incl (cursor w))
    by (apply Z.mul_nonneg_nonneg; lia).
  unfold read_package, read_package_header, read_flat_package,
    flat_samples, flat_header_size in *.
  change (4 + 8 + 8) with 20. change (4 + 8) with 12.
  destruct Hflat as [->|(-> & Hm & ->)].
  - change (0 =? 0) with true in *. change (0 =? 1) with false. cbv iota in *.
    destruct incl.
    + replace (cursor w + 22 - 2) with (cursor w + 20) in * by lia.
      wp_run; comparisons; change (1 =? 0) with false in *; cbv iota in *;
        rewrite ?bytes_at_length in * by lia; try lia.
      all: destruct (_ <=? _) eqn:E; comparisons; try lia.
      all: f_equal; f_equal; lia.
    + replace (cursor w + 14 - 2) with (cursor w + 12) in * by lia.
      wp_run; comparisons; change (1 =? 0) with false in *; cbv iota in *;
        rewrite ?bytes_at_length in * by lia; try lia.
      all: destruct (_ <=? _) eqn:E; comparisons; try lia.
      all: f_equal; f_equal; lia.
  - change (1 =? 0) with false in *. change (1 =? 1) with true. cbv iota in *.
    wp_run; comparisons; change (1 =? 0) with false in *; cbv iota in *;
      try lia.
    all: destruct (_ <=? _) eqn:E; comparisons; try lia.
    all: f_equal; f_equal; lia.
Qed.

Lemma package_loop_counts file ft incl hc cfuel mss ns fuel l w ts tp :
  flat_layout ft mss incl ->
  header w !! "file_size" = Some (PInt (getsize file)) ->
  header w !! "num_streams" = Some (PInt ns) -> 0 <= ns ->
  header w !! "max_samples_stream" = Some (PInt mss) ->
  header w !! "total_samples" = Some (PInt ts) ->
  header w !! "total_packages" = Some (PInt tp) ->
  0 <= cursor w ->
  Z.of_nat fuel + cursor w > getsize file ->
  wp (package_loop file ft false incl (flat_header_size ft incl) hc
        fuel cfuel l)
    (fun r w' =>
       let ps := flat_packages fuel file ft incl ns (cursor w) in
       r = Ok (true, data l) /\
       header w' !! "total_samples" = Some (PInt (ts + samples_of ps)) /\
       header w' !! "total_packages"
         = Some (PInt (tp + Z.of_nat (length ps))) /\
       (forall k, k <> "total_samples" -> k <> "total_packages" ->
                  header w' !! k = header w !! k)) w.
Proof.
  intros Hflat. revert l w ts tp.
  induction fuel as [|fuel IH];
    intros l w ts tp Hfs Hns Hn0 Hmss Hts Htp Hc Hfuel;
    cbn [package_loop flat_packages].
  - wp_run; comparisons.
    + exfalso. unfold flat_header_size in *.
      destruct (ft =? 0); [destruct incl |]; lia.
    + unfold samples_of. simpl. rewrite !Z.add_0_r. auto.
  - cbv zeta. wp_run; comparisons.
    + unfold wp at 1.
      rewrite (read_package_flat_count file ft incl hc cfuel mss ns l w ts tp)
        by (world_simpl; auto).
      pose proof (flat_header_size_min ft incl) as Hmin.
      pose proof (flat_samples_nonneg file ft incl (cursor w)) as Hs0.
      assert (Hnn : 0 <= ns * flat_samples file ft incl (cursor w))
        by (apply Z.mul_nonneg_nonneg; lia).
      destruct (_ <=? _) eqn:E; comparisons; cbn [fst snd];
        unfold wp_then; cbv beta iota.
      * eapply wp_mono.
        -- eapply (IH _ _ (ts + flat_samples file ft incl (cursor w)) (tp + 1));
             world_simpl; try solve [hlookup]; lia.
        -- world_simpl. intros r w' (-> & Hts' & Htp' & Hk). cbv zeta.
           split; [reflexivity |].
           unfold samples_of in *. cbn [map foldr snd length].
           rewrite Hts', Htp'.
           split; [f_equal; f_equal; lia |].
           split; [f_equal; f_equal; lia |].
           intros k K1 K2. rewrite Hk by assumption. hlookup.
      * apply wp_ret. world_simpl. unfold samples_of. simpl.
        rewrite !Z.add_0_r. auto.
    + unfold samples_of. simpl. rewrite !Z.add_0_r. auto.
Qed.

(** ** The layout without chunks: assignments inside the matrix *)

Lemma cell_block_update_eq d ra rb ca cb src r c :
  cell (block_update d ra rb ca cb src) r c =
    match cell d r c with
    | Some x =>
        Some (if in_range ra rb r && in_range ca cb c
              then default x (src_cell src ra ca r c) else x)
    | None => None
    end.
Proof.
  unfold block_update. rewrite cell_update_cells_eq.
  destruct (cell d r c) as [x|]; [| reflexivity].
  now destruct (in_range ra rb r && in_range ca cb c).
Qed.

Lemma slice_clip_in i n len : 0 <= n -> (i + Z.to_nat n <= len)%nat ->
  slice_clip (Z.of_nat i) (Z.of_nat i + n) len = (i, (i + Z.to_nat n)%nat).
Proof. intros Hn H. unfold slice_clip. f_equal; lia. Qed.

Lemma broadcastable_refl n : broadcastable n n = true.
Proof. unfold broadcastable. now rewrite Nat.eqb_refl. Qed.

Lemma broadcastable_one n : broadcastable 1 n = true.
Proof. unfold broadcastable. simpl. apply orb_true_r. Qed.

(** [data[ra:rb, ca:cb] = src] for a region inside the matrix and a source
    of the shape of the region, or a scalar. *)
Lemma wp_setitem_block_in d r n c k src (Q : result ndarray -> world -> Prop) w :
  0 <= n -> 0 <= k ->
  (r + Z.to_nat n <= nrows d)%nat -> (c + Z.to_nat k <= ncols d)%nat ->
  (nrows src = Z.to_nat n \/ nrows src = 1%nat) ->
  (ncols src = Z.to_nat k \/ ncols src = 1%nat) ->
  (forall t, Q (Ok (block_update d r (r + Z.to_nat n) c (c + Z.to_nat k) src))
               {| cursor := cursor w; header := header w; trace := t |}) ->
  wp (setitem_block d (Z.of_nat r) (Z.of_nat r + n) (Z.of_nat c) (Z.of_nat c + k) src)
    Q w.
Proof.
  intros Hn Hk Hr Hc Hsr Hsc HQ. unfold setitem_block.
  rewrite (slice_clip_in r n) by assumption.
  rewrite (slice_clip_in c k) by assumption.
  replace (broadcastable _ _ && broadcastable _ _) with true.
  - unfold wp, bind, emit, ret. cbn. apply HQ.
  - symmetry. apply andb_true_iff. split.
    + replace (r + Z.to_nat n - r)%nat with (Z.to_nat n) by lia.
      destruct Hsr as [->| ->]; [apply broadcastable_refl | apply broadcastable_one].
    + replace (c + Z.to_nat k - c)%nat with (Z.to_nat k) by lia.
      destruct Hsc as [->| ->]; [apply broadcastable_refl | apply broadcastable_one].
Qed.

(** [data[r0:r0+n, c] = v] *)
Lemma wp_setitem_col_in d r n c v (Q : result ndarray -> world -> Prop) w :
  0 <= n -> (r + Z.to_nat n <= nrows d)%nat -> (c < ncols d)%nat ->
  (forall t, Q (Ok (block_update d r (r + Z.to_nat n) c (c + 1) (scalar v)))
               {| cursor := cursor w; header := header w; trace := t |}) ->
  wp (setitem_col d (Z.of_nat r) (Z.of_nat r + n) (Z.of_nat c) v) Q w.
Proof.
  intros Hn Hr Hc HQ. unfold setitem_col, index_ok.
  replace (_ && _) with true
    by (symmetry; rewrite !andb_true_iff, !Z.leb_le, !Z.ltb_lt; lia).
  apply (wp_setitem_block_in d r n c 1); auto; try lia.
Qed.

(** [data[r, c:c+k] = values] for as many values as the region has cells. *)
Lemma wp_setitem_row_at d r c k vs (Q : result ndarray -> world -> Prop) w :
  0 <= k -> (r < nrows d)%nat -> (c + Z.to_nat k <= ncols d)%nat ->
  length vs = Z.to_nat k ->
  (forall t, Q (Ok (block_update d r (r + 1) c (c + Z.to_nat k) (row_vector vs)))
               {| cursor := cursor w; header := header w; trace := t |}) ->
  wp (setitem_row d (Z.of_nat r) (Z.of_nat c) (Z.of_nat c + k) vs) Q w.
Proof.
  intros Hk Hr Hc Hl HQ. unfold setitem_row, index_ok.
  replace (_ && _) with true
    by (symmetry; rewrite !andb_true_iff, !Z.leb_le, !Z.ltb_lt; lia).
  apply (wp_setitem_block_in d r 1 c k); auto; try lia.
Qed.

(** [np.reshape(values, (-1, k))] of [n * k] values. *)
Lemma wp_reshape_rows_ok vs k n (Q : result ndarray -> world -> Prop) w :
  1 <= k -> length vs = (n * Z.to_nat k)%nat ->
  Q (Ok {| nrows := n; ncols := Z.to_nat k;
           rows := chunks_of (Z.to_nat k) n vs |}) w ->
  wp (reshape_rows vs k) Q w.
Proof.
  intros Hk Hl HQ. unfold reshape_rows, np_reshape.
  destruct (k <=? 0) eqn:E; [lia |].
  rewrite Hl.
  replace (Z.of_nat (n * Z.to_nat k) mod k =? 0) with true.
  - rewrite Nat.div_mul by lia. exact HQ.
  - symmetry. apply Z.eqb_eq.
    rewrite Nat2Z.inj_mul, Z2Nat.id by lia. apply Z_mod_mult.
Qed.

Lemma lookup_chunks_of k n vs s :
  (s < n)%nat -> chunks_of k n vs !! s = Some (take k (drop (s * k) vs)).
Proof.
  revert vs s. induction n as [|n IH]; intros vs s Hs; [lia |].
  destruct s as [|s]; [reflexivity |].
  cbn [chunks_of].
  change ((take k vs :: chunks_of k n (drop k vs)) !! S s)
    with (chunks_of k n (drop k vs) !! s).
  rewrite IH by lia. rewrite drop_drop.
  repeat f_equal.
Qed.

(** ** The layout without chunks: the rows of one package *)

Lemma src_cell_scalar v ra ca r c : src_cell (scalar v) ra ca r c = Some v.
Proof. reflexivity. Qed.

Lemma src_cell_row_vector vs ra ca r c :
  (ca <= c < ca + length vs)%nat ->
  src_cell (row_vector vs) ra ca r c = vs !! (c - ca)%nat.
Proof.
  intros Hc. unfold src_cell, row_vector, cell. cbn [nrows ncols rows Nat.eqb].
  change ([vs] !! 0%nat) with (Some vs). cbv beta iota.
  destruct (length vs =? 1)%nat eqn:E; [| reflexivity].
  apply Nat.eqb_eq in E. f_equal. lia.
Qed.

Lemma src_cell_chunks vs k n ra ca r c :
  n <> 1%nat -> length vs = (n * k)%nat ->
  (ra <= r < ra + n)%nat -> (ca <= c < ca + k)%nat ->
  src_cell {| nrows := n; ncols := k; rows := chunks_of k n vs |} ra ca r c
    = vs !! ((r - ra) * k + (c - ca))%nat.
Proof.
  intros Hn Hl Hr Hc. unfold src_cell, cell. cbn [nrows ncols rows].
  destruct (n =? 1)%nat eqn:E; [apply Nat.eqb_eq in E; lia |].
  rewrite lookup_chunks_of by lia.
  assert (Hk : (if (k =? 1)%nat then 0%nat else (c - ca)%nat) = (c - ca)%nat).
  { destruct (k =? 1)%nat eqn:E1; [apply Nat.eqb_eq in E1; lia | reflexivity]. }
  rewrite Hk.
  rewrite lookup_take_lt by lia. rewrite lookup_drop. reflexivity.
Qed.

(** Decide every range test of the goal. *)
Ltac ranges :=
  repeat match goal with
    | |- context [in_range ?a ?b ?c] =>
        let E := fresh "E" in
        destruct (in_range a b c) eqn:E;
        [ apply in_range_iff in E
        | apply not_true_iff_false in E; rewrite in_range_iff in E ]
    | |- context [(?a <? ?b)%nat] =>
        let E := fresh "E" in
        destruct (Nat.ltb_spec a b) as [E|E]
    | |- context [(?a =? ?b)%nat] =>
        let E := fresh "E" in
        destruct (Nat.eqb_spec a b) as [E|E]
    end.

Lemma package_written_2 d ri n ns sid el t values src rb1 rb2 rb3 :
  rb1 = (ri + n)%nat -> rb2 = (ri + n)%nat -> rb3 = (ri + n)%nat ->
  (forall r c, (ri <= r < ri + n)%nat -> (2 <= c < 2 + ns)%nat ->
     src_cell src ri 2 r c = values !! ((r - ri) * ns + (c - 2))%nat) ->
  package_written d
    (block_update
       (block_update (block_update d ri rb1 0 1 (scalar sid))
          ri rb2 1 2 (scalar el))
       ri rb3 2 (2 + ns) src)
    2 sid el t values ns ri n.
Proof.
  intros -> -> -> Hsrc. split; [reflexivity |]. split; [reflexivity |].
  intros r c. rewrite !cell_block_update_eq.
  destruct (cell d r c) as [x|]; [| reflexivity]. f_equal.
  unfold written_cell. rewrite !src_cell_scalar. cbn [default].
  ranges; cbn [andb]; try lia; try reflexivity.
  rewrite Hsrc by lia. reflexivity.
Qed.

Lemma package_written_3 d ri n ns sid el t values src rb1 rb2 rb3 rb4 :
  rb1 = (ri + n)%nat -> rb2 = (ri + n)%nat -> rb3 = (ri + n)%nat ->
  rb4 = (ri + n)%nat ->
  (forall r c, (ri <= r < ri + n)%nat -> (3 <= c < 3 + ns)%nat ->
     src_cell src ri 3 r c = values !! ((r - ri) * ns + (c - 3))%nat) ->
  package_written d
    (block_update
       (block_update
          (block_update (block_update d ri rb1 0 1 (scalar sid))
             ri rb2 1 2 (scalar el))
          ri rb3 2 3 (scalar t))
       ri rb4 3 (3 + ns) src)
    3 sid el t values ns ri n.
Proof.
  intros -> -> -> -> Hsrc. split; [reflexivity |]. split; [reflexivity |].
  intros r c. rewrite !cell_block_update_eq.
  destruct (cell d r c) as [x|]; [| reflexivity]. f_equal.
  unfold written_cell. rewrite !src_cell_scalar. cbn [default].
  ranges; cbn [andb]; try lia; try reflexivity.
  rewrite Hsrc by lia. reflexivity.
Qed.

(** Writing the rows of the package at [pos] extends the decoded part of
    the matrix by these rows. *)
Lemma flat_decoded_step file ft incl ns nr done d d' pos n :
  0 <= pos -> 1 <= ns -> 0 <= n ->
  flat_decoded file ft incl ns nr done d ->
  (length done + Z.to_nat n <= nr)%nat ->
  package_written d d' (flat_header_columns ft incl)
    (float64_of_int (int_from_bytes (bytes_at file pos 4)))
    (int_from_bytes (bytes_at file (pos + 4) 8))
    (int_from_bytes (bytes_at file (pos + 12) 8))
    (floats_at file (pos + flat_header_size ft incl) (Z.to_nat (ns * n)))
    (Z.to_nat ns) (length done) (Z.to_nat n) ->
  flat_decoded file ft incl ns nr (done ++ package_rows (pos, n)) d'.
Proof.
  intros Hp Hns Hn (Hr & Hc & Hcells) Hfit (Hr' & Hc' & Hw).
  split; [congruence |]. split; [congruence |].
  intros r c Hrn Hcn. rewrite Hc' in Hcn.
  destruct (Hcells r c Hrn Hcn) as (x & Hx & Hdec).
  rewrite Hw, Hx. eexists. split; [reflexivity |].
  intros p s Hl.
  pose proof (flat_header_size_min ft incl) as Hmin.
  destruct (decide (r < length done)%nat) as [Hlt|Hge].
  - rewrite lookup_app_l in Hl by exact Hlt.
    replace (in_range (length done) (length done + Z.to_nat n) r) with false
      by (symmetry; apply not_true_iff_false; rewrite in_range_iff; lia).
    cbn [andb]. now apply Hdec.
  - rewrite lookup_app_r in Hl by lia.
    unfold package_rows in Hl. cbn [fst snd] in Hl.
    apply list_lookup_fmap_Some in Hl as (s' & [= <- <-] & Hs').
    apply lookup_seq in Hs' as [-> Hs'']. cbn [Nat.add] in *.
    replace (in_range (length done) (length done + Z.to_nat n) r) with true
      by (symmetry; apply in_range_iff; lia).
    replace (c <? flat_header_columns ft incl + Z.to_nat ns)%nat with true
      by (symmetry; apply Nat.ltb_lt; lia).
    cbn [andb]. unfold written_cell, flat_cell.
    destruct (c =? 0)%nat; [reflexivity |].
    destruct (c =? 1)%nat; [reflexivity |].
    destruct (Nat.ltb_spec c (flat_header_columns ft incl)) as [Hh|Hh];
      [reflexivity |].
    assert (Hc2 : (c - flat_header_columns ft incl < Z.to_nat ns)%nat) by lia.
    assert (Hidx : ((r - length done) * Z.to_nat ns
                    + (c - flat_header_columns ft incl)
                    < Z.to_nat (ns * n))%nat).
    { rewrite Z2Nat.inj_mul by lia.
      assert (S (r - length done) * Z.to_nat ns <= Z.to_nat n * Z.to_nat ns)%nat
        by (apply Nat.mul_le_mono_r; lia).
      lia. }
    rewrite lookup_floats_at by (try exact Hidx; lia).
    cbn [default]. unfold id. do 2 f_equal.
    rewrite Nat2Z.inj_add, Nat2Z.inj_mul, Z2Nat.id by lia. reflexivity.
Qed.

Lemma wp_struct_unpack_exact file p (Q : result Z -> world -> Prop) w :
  0 <= p -> p + 8 <= getsize file ->
  Q (Ok (int_from_bytes (bytes_at file p 8))) w ->
  wp (struct_unpack_d (bytes_at file p 8)) Q w.
Proof.
  intros Hp Hle HQ. unfold struct_unpack_d.
  replace (length (bytes_at file p 8) =? 8)%nat with true; [exact HQ |].
  symmetry. apply Nat.eqb_eq. apply Nat2Z.inj. now rewrite bytes_at_length.
Qed.

(** The shape of a matrix after assignments. *)
Ltac shape := cbn [nrows ncols block_update update_cells] in *.

Ltac seen_lia := cbn [cursor header trace]; lia.

(** Symbolic execution of the materializing pass inside the file and
    inside the matrix; positions are kept as offsets from the package. *)
Ltac flat_walk w :=
  repeat (lazymatch goal with
          | |- wp (bind _ _) _ _ => apply wp_bind
          | |- wp_then _ _ _ _ => unfold wp_then at 1; cbv beta iota
          | |- wp (file_read _ _) _ _ =>
              apply wp_file_read_exact; [seen_lia | seen_lia | seen_lia |]
          | |- wp (np_fromfile _ _) _ _ =>
              apply wp_np_fromfile_exact; [seen_lia | seen_lia | seen_lia |]
          | |- wp (struct_unpack_d _) _ _ =>
              apply wp_struct_unpack_exact; [seen_lia | seen_lia |]
          | |- wp (setitem_cell ?d (Z.of_nat ?r) ?c ?v) _ _ =>
              apply (wp_setitem_cell_in d r (Z.to_nat c));
              [shape; lia | shape; lia | intros ?]
          | |- wp (setitem_col ?d (Z.of_nat ?r) (Z.of_nat ?r + ?n) ?c ?v) _ _ =>
              apply (wp_setitem_col_in d r n (Z.to_nat c));
              [lia | shape; lia | shape; lia | intros ?]
          | |- wp (setitem_row ?d (Z.of_nat ?r) (Z.of_nat ?c) (Z.of_nat ?c + ?k) ?vs) _ _ =>
              apply (wp_setitem_row_at d r c k);
              [ lia | shape; lia | shape; lia
              | rewrite length_floats_at; f_equal; lia | intros ? ]
          | |- wp (setitem_block ?d (Z.of_nat ?r) (Z.of_nat ?r + ?n)
                     (Z.of_nat ?c) (Z.of_nat ?c + ?k) ?src) _ _ =>
              apply (wp_setitem_block_in d r n c k);
              [ lia | lia | shape; lia | shape; lia
              | left; reflexivity | left; reflexivity | intros ? ]
          | |- wp (reshape_rows (floats_at _ _ (Z.to_nat (?k * ?n))) ?k) _ _ =>
              apply (wp_reshape_rows_ok _ k (Z.to_nat n));
              [ lia | rewrite length_floats_at, Z2Nat.inj_mul by lia; lia |]
          | |- _ => wp_get
          end;
          world_simpl; comparisons;
          try replace (cursor w + 4 + 8) with (cursor w + 12) in * by lia;
          try replace (cursor w + 12 + 8) with (cursor w + 20) in * by lia;
          try replace (cursor w + 20 + 2) with (cursor w + 22) in * by lia;
          try replace (cursor w + 12 + 2) with (cursor w + 14) in * by lia).

(** The outcome of a package that fits in the file. *)
Ltac flat_leaf Hstep :=
  eexists; split; [reflexivity |]; split; [lia |]; split; [reflexivity |];
  apply Hstep; [| lia];
  first [apply package_written_3 | apply package_written_2]; try lia;
  let r := fresh "r" in let c := fresh "c" in
  let Hr := fresh "Hr" in let Hc := fresh "Hc" in
  intros r c Hr Hc;
  first
    [ apply src_cell_chunks;
      [ lia | rewrite length_floats_at, Z2Nat.inj_mul by lia; lia | lia | lia ]
    | rewrite src_cell_row_vector by (rewrite length_floats_at; lia);
      f_equal;
      match goal with
      | |- _ = ((?r' - ?ri) * _ + _)%nat =>
          replace (r' - ri)%nat with 0%nat by lia; reflexivity
      end ].

(** One package of the layout without chunks, in the materializing
    pass. *)
Lemma read_package_flat_decode file ft incl cfuel mss ns l w d nr done :
  flat_layout ft mss incl ->
  header w !! "file_size" = Some (PInt (getsize file)) ->
  header w !! "num_streams" = Some (PInt ns) -> 1 <= ns ->
  header w !! "max_samples_stream" = Some (PInt mss) ->
  data l = Some d -> row_index l = Z.of_nat (length done) ->
  flat_decoded file ft incl ns nr done d ->
  0 <= cursor w -> cursor w + flat_header_size ft incl <= getsize file ->
  let n := flat_samples file ft incl (cursor w) in
  let nxt := cursor w + flat_header_size ft incl + ns * n * 8 in
  (nxt <= getsize file -> (length done + Z.to_nat n <= nr)%nat) ->
  wp (read_package file ft true incl
        (Z.of_nat (flat_header_columns ft incl)) cfuel l)
    (fun r w' =>
       if nxt <=? getsize file then
         exists d',
           r = Ok (Next {| data := Some d';
                           row_index := Z.of_nat (length done) + n;
                           num_samples := Some n |}) /\
           cursor w' = nxt /\ header w' = header w /\
           flat_decoded file ft incl ns nr
             (done ++ package_rows (cursor w, n)) d'
       else r = Ok (Return (true, Some d)) /\ header w' = header w) w.
Proof.
  intros Hflat Hfs Hns Hn1 Hmss Hd Hri Hdec Hc Hfit n nxt Hrows.
  destruct l as [dl ril nsl]. cbn [data row_index] in Hd, Hri. subst dl ril.
  pose proof (flat_samples_nonneg file ft incl (cursor w)) as Hs0.
  assert (Hnn : 0 <= ns * n) by (apply Z.mul_nonneg_nonneg; lia).
  pose proof Hdec as (Hnr & Hnc & _).
  assert (Hstep : forall d',
    package_written d d' (flat_header_columns ft incl)
      (float64_of_int (int_from_bytes (bytes_at file (cursor w) 4)))
      (int_from_bytes (bytes_at file (cursor w + 4) 8))
      (int_from_bytes (bytes_at file (cursor w + 12) 8))
      (floats_at file (cursor w + flat_header_size ft incl) (Z.to_nat (ns * n)))
      (Z.to_nat ns) (length done) (Z.to_nat n) ->
    nxt <= getsize file ->
    flat_decoded file ft incl ns nr (done ++ package_rows (cursor w, n)) d').
  { intros d' Hw Hle. eapply flat_decoded_step; eauto. }
  subst n nxt.
  unfold read_package, read_package_header, read_flat_package,
    flat_samples, flat_header_size, flat_header_columns in *.
  cbn [data row_index num_samples].
  destruct Hflat as [->|(-> & Hm & ->)].
  - change (0 =? 0) with true in *. change (0 =? 1) with false. cbv iota in *.
    destruct incl; cbv iota in *.
    + replace (cursor w + 22 - 2) with (cursor w + 20) in * by lia.
      flat_walk w.
      all: try (destruct (_ <=? _) eqn:E; comparisons; try (exfalso; lia)); auto.
      all: try rewrite Heqb0 in *; rewrite ?Z.mul_1_r in *.
      all: flat_leaf Hstep.
    + replace (cursor w + 14 - 2) with (cursor w + 12) in * by lia.
      flat_walk w.
      all: try (destruct (_ <=? _) eqn:E; comparisons; try (exfalso; lia)); auto.
      all: try rewrite Heqb0 in *; rewrite ?Z.mul_1_r in *.
      all: flat_leaf Hstep.
  - change (1 =? 0) with false in *. change (1 =? 1) with true in *.
    cbv iota in *. rewrite ?Z.mul_1_r in *.
    flat_walk w.
    all: try (exfalso; lia).
    all: try (destruct (_ <=? _) eqn:E; comparisons; try (exfalso; lia)); auto.
    all: flat_leaf Hstep.
Qed.

(** ** The layout without chunks: the materializing pass *)

Lemma length_package_rows pos n : length (package_rows (pos, n)) = Z.to_nat n.
Proof. unfold package_rows. now rewrite length_map, length_seq. Qed.

Lemma flat_packages_samples fuel file ft incl ns pos :
  Forall (fun p => 0 <= snd p) (flat_packages fuel file ft incl ns pos).
Proof.
  revert pos. induction fuel as [|fuel IH]; intros pos; cbn [flat_packages];
    [constructor |].
  cbv zeta. destruct (_ <=? _); [| constructor].
  destruct (_ <=? _); [| constructor].
  constructor; [apply flat_samples_nonneg | apply IH].
Qed.

Lemma length_flat_rows ps :
  Forall (fun p => 0 <= snd p) ps ->
  Z.of_nat (length (flat_rows ps)) = samples_of ps.
Proof.
  unfold flat_rows, samples_of.
  induction 1 as [|[pos n] ps Hn _ IH]; [reflexivity |].
  cbn [flat_map map foldr snd] in *.
  rewrite length_app, length_package_rows, Nat2Z.inj_add, IH. lia.
Qed.

Lemma package_loop_decodes file ft incl cfuel mss ns nr fuel l w d done :
  flat_layout ft mss incl ->
  header w !! "file_size" = Some (PInt (getsize file)) ->
  header w !! "num_streams" = Some (PInt ns) -> 1 <= ns ->
  header w !! "max_samples_stream" = Some (PInt mss) ->
  data l = Some d -> row_index l = Z.of_nat (length done) ->
  flat_decoded file ft incl ns nr done d ->
  0 <= cursor w ->
  Z.of_nat fuel + cursor w > getsize file ->
  (length done
   + length (flat_rows (flat_packages fuel file ft incl ns (cursor w)))
   <= nr)%nat ->
  wp (package_loop file ft true incl (flat_header_size ft incl)
        (Z.of_nat (flat_header_columns ft incl)) fuel cfuel l)
    (fun r w' => exists d',
       r = Ok (true, Some d') /\ header w' = header w /\
       flat_decoded file ft incl ns nr
         (done ++ flat_rows (flat_packages fuel file ft incl ns (cursor w)))
         d') w.
Proof.
  intros Hflat. revert l w d done.
  induction fuel as [|fuel IH];
    intros l w d done Hfs Hns Hn1 Hmss Hd Hri Hdec Hc Hfuel Hrows;
    cbn [package_loop flat_packages] in *.
  - pose proof (flat_header_size_min ft incl).
    wp_run; comparisons; [exfalso; lia |].
    exists d. rewrite Hd. cbn [flat_rows flat_map]. rewrite app_nil_r. auto.
  - cbv zeta in *. wp_run; comparisons.
    + eapply wp_mono.
      * eapply (read_package_flat_decode file ft incl cfuel mss ns l w d nr done);
          eauto.
        intros Hle. apply Z.leb_le in Hle. rewrite Hle in Hrows.
        cbn [flat_rows flat_map] in Hrows.
        rewrite length_app, length_package_rows in Hrows. lia.
      * cbv zeta. intros r w1.
        pose proof (flat_header_size_min ft incl) as Hmin.
        pose proof (flat_samples_nonneg file ft incl (cursor w)) as Hs0.
        assert (Hnn : 0 <= ns * flat_samples file ft incl (cursor w))
          by (apply Z.mul_nonneg_nonneg; lia).
        destruct (_ <=? _) eqn:E; comparisons.
        -- intros (d1 & -> & Hc1 & Hh1 & Hdec1).
           unfold wp_then; cbv beta iota.
           cbn [flat_rows flat_map] in *.
           rewrite length_app, length_package_rows in Hrows.
           eapply wp_mono.
           ++ eapply (IH _ w1 d1 (done ++ package_rows (cursor w, _)));
                rewrite ?Hh1, ?Hc1; eauto; try lia.
              ** cbn [row_index].
                 rewrite length_app, length_package_rows, Nat2Z.inj_add.
                 rewrite Z2Nat.id by lia. reflexivity.
              ** rewrite length_app, length_package_rows.
                 unfold flat_rows in *. lia.
           ++ intros r' w2 (d2 & -> & Hh2 & Hdec2).
              exists d2. rewrite Hh2, Hh1. rewrite Hc1 in Hdec2.
              rewrite <- app_assoc in Hdec2. auto.
        -- intros (-> & Hh1). unfold wp_then; cbv beta iota.
           apply wp_ret. exists d. cbn [flat_rows flat_map].
           rewrite app_nil_r. auto.
    + exists d. rewrite Hd. cbn [flat_rows flat_map]. rewrite app_nil_r. auto.
Qed.

Lemma wp_includes_input_time ft (Q : result bool -> world -> Prop) w :
  Q (Ok (if ft =? 0 then input_time_of (header w) else false)) w ->
  wp (if ft =? 0
      then present <- hmem "includes_source_input_time" ;;
           if present : bool
           then v <- hget "includes_source_input_time" ;; ret (py_truth v)
           else ret false
      else ret false) Q w.
Proof.
  intros HQ. destruct (ft =? 0); [| exact HQ].
  unfold input_time_of in HQ.
  apply wp_bind, wp_hmem. unfold wp_then.
  destruct (header w !! "includes_source_input_time") as [v|] eqn:E.
  - rewrite bool_decide_eq_true_2 by eauto. wp_run. exact HQ.
  - rewrite bool_decide_eq_false_2 by (intros [? ?]; discriminate).
    exact HQ.
Qed.

Lemma flat_decoded_full file ft incl ns nr v :
  0 <= ns ->
  flat_decoded file ft incl ns nr []
    (np_full nr (Z.to_nat (ns + Z.of_nat (flat_header_columns ft incl))) v).
Proof.
  intros Hns. split; [reflexivity |]. split; [cbn [ncols np_full]; lia |].
  intros r c Hr Hc. exists v. split; [now apply cell_np_full_in |].
  intros pos s Hl. discriminate Hl.
Qed.

(** The counting pass over a file without chunks. *)
Lemma read_packages_flat_count env file ft w mss ns incl pds ts tp :
  flat_layout ft mss incl ->
  (ft = 0 -> input_time_of (header w) = incl) ->
  header w !! "file_size" = Some (PInt (getsize file)) ->
  header w !! "num_streams" = Some (PInt ns) -> 1 <= ns ->
  header w !! "max_samples_stream" = Some (PInt mss) ->
  header w !! "total_samples" = Some (PInt ts) ->
  header w !! "total_packages" = Some (PInt tp) ->
  header w !! "pos_data_start" = Some (PInt pds) -> 0 <= pds ->
  wp (__read_packages env file ft false)
    (fun r w' =>
       let ps := flat_packages (loop_fuel file) file ft incl ns pds in
       r = Ok (true, None) /\
       header w' !! "total_samples" = Some (PInt (ts + samples_of ps)) /\
       header w' !! "total_packages"
         = Some (PInt (tp + Z.of_nat (length ps))) /\
       (forall k, k <> "total_samples" -> k <> "total_packages" ->
                  header w' !! k = header w !! k)) w.
Proof.
  intros Hflat Hincl Hfs Hns Hn1 Hmss Hts Htp Hpds Hp.
  pose proof (loop_fuel_enough file) as Hfuel.
  assert (Hi : (if ft =? 0 then input_time_of (header w) else false) = incl).
  { destruct Hflat as [->|(-> & _ & ->)]; [now apply Hincl | reflexivity]. }
  unfold __read_packages.
  apply wp_bind, wp_includes_input_time. unfold wp_then; cbv beta iota.
  rewrite Hi. clear Hi Hincl.
  apply wp_bind. eapply wp_hget_int; [exact Hpds |].
  unfold wp_then; cbv beta iota.
  apply wp_bind. unfold file_seek. change (0 =? 0) with true. cbv iota.
  assert (Hft : ft = 0 /\ incl = true \/ ft = 0 /\ incl = false
                \/ ft = 1 /\ incl = false).
  { destruct Hflat as [->|(-> & _ & ->)]; [destruct incl |]; auto. }
  destruct Hft as [[-> ->]|[[-> ->]|[-> ->]]].
  all: wp_run; comparisons; try lia.
  all: eapply wp_mono;
    [ first [ eapply (package_loop_counts file 0 true _ _ mss ns _ _ _ ts tp)
            | eapply (package_loop_counts file 0 false _ _ mss ns _ _ _ ts tp)
            | eapply (package_loop_counts file 1 false _ _ mss ns _ _ _ ts tp) ];
      world_simpl; eauto; lia
    | world_simpl; cbv zeta; intros r w' H; exact H ].
Qed.

(** The materializing pass over a file without chunks, after the counting
    pass has found its samples. *)
Lemma read_packages_flat_decode env file ft w mss ns incl pds ts :
  flat_layout ft mss incl ->
  (ft = 0 -> input_time_of (header w) = incl) ->
  header w !! "file_size" = Some (PInt (getsize file)) ->
  header w !! "num_streams" = Some (PInt ns) -> 1 <= ns ->
  header w !! "max_samples_stream" = Some (PInt mss) ->
  header w !! "total_samples" = Some (PInt ts) ->
  header w !! "pos_data_start" = Some (PInt pds) -> 0 <= pds ->
  ts = samples_of (flat_packages (loop_fuel file) file ft incl ns pds) ->
  np_empty_ok env
    (8 * ts * (ns + Z.of_nat (flat_header_columns ft incl))) = true ->
  wp (__read_packages env file ft true)
    (fun r w' => exists d,
       r = Ok (true, Some d) /\ header w' = header w /\
       flat_decoded file ft incl ns (Z.to_nat ts)
         (flat_rows (flat_packages (loop_fuel file) file ft incl ns pds)) d) w.
Proof.
  intros Hflat Hincl Hfs Hns Hn1 Hmss Hts Hpds Hp Htot Hok.
  pose proof (loop_fuel_enough file) as Hfuel.
  pose proof (samples_of_nonneg (loop_fuel file) file ft incl ns pds) as Hts0.
  pose proof (length_flat_rows _
                (flat_packages_samples (loop_fuel file) file ft incl ns pds))
    as Hlen.
  rewrite <- Htot in Hts0, Hlen.
  assert (Hi : (if ft =? 0 then input_time_of (header w) else false) = incl).
  { destruct Hflat as [->|(-> & _ & ->)]; [now apply Hincl | reflexivity]. }
  unfold __read_packages.
  apply wp_bind, wp_includes_input_time. unfold wp_then; cbv beta iota.
  rewrite Hi. clear Hi Hincl.
  apply wp_bind. eapply wp_hget_int; [exact Hpds |].
  unfold wp_then; cbv beta iota.
  apply wp_bind. unfold file_seek. change (0 =? 0) with true. cbv iota.
  assert (Hft : ft = 0 /\ incl = true \/ ft = 0 /\ incl = false
                \/ ft = 1 /\ incl = false).
  { destruct Hflat as [->|(-> & _ & ->)]; [destruct incl |]; auto. }
  remember (loop_fuel file) as fuel eqn:Efuel. clear Efuel.
  destruct Hft as [[-> ->]|[[-> ->]|[-> ->]]].
  - wp_run; comparisons; try lia.
    apply wp_allocate_array_ok; [lia | lia | exact Hok |].
    intros t; unfold wp_then; cbv beta iota.
    eapply wp_mono.
    + eapply (package_loop_decodes file 0 true fuel mss ns (Z.to_nat ts)
                fuel _ _ _ []);
        world_simpl; eauto;
        [ apply (flat_decoded_full file 0 true); lia | lia | cbn [length]; lia ].
    + world_simpl. intros r w' (d' & -> & Hh & Hd). exists d'. auto.
  - wp_run; comparisons; try lia.
    apply wp_allocate_array_ok; [lia | lia | exact Hok |].
    intros t; unfold wp_then; cbv beta iota.
    eapply wp_mono.
    + eapply (package_loop_decodes file 0 false fuel mss ns (Z.to_nat ts)
                fuel _ _ _ []);
        world_simpl; eauto;
        [ apply (flat_decoded_full file 0 false); lia | lia | cbn [length]; lia ].
    + world_simpl. intros r w' (d' & -> & Hh & Hd). exists d'. auto.
  - wp_run; comparisons; try lia.
    apply wp_allocate_array_ok; [lia | lia | exact Hok |].
    intros t; unfold wp_then; cbv beta iota.
    eapply wp_mono.
    + eapply (package_loop_decodes file 1 false fuel mss ns (Z.to_nat ts)
                fuel _ _ _ []);
        world_simpl; eauto;
        [ apply (flat_decoded_full file 1 false); lia | lia | cbn [length]; lia ].
    + world_simpl. intros r w' (d' & -> & Hh & Hd). exists d'. auto.
Qed.

Lemma input_time_of_counts h a b c :
  input_time_of
    (<["max_samples_stream" := a]>
       (<["total_packages" := b]> (<["total_samples" := c]> h)))
  = input_time_of h.
Proof. unfold input_time_of. now rewrite !lookup_insert_ne by done. Qed.

Lemma input_time_of_agree h h' :
  (forall k, k <> "total_samples" -> k <> "total_packages" -> h' !! k = h !! k) ->
  input_time_of h' = input_time_of h.
Proof. intros Hk. unfold input_time_of. now rewrite Hk by done. Qed.

(** Lines 141-165 on a file without chunks. *)
Lemma read_contents_flat env file rd w v code ft mss ns x rest pds incl :
  header w !! "version" = Some (PInt v) -> v = 2 \/ v = 3 ->
  header w !! "code" = Some (PStr code) ->
  ft = (if String.eqb (str_lower code) "dat" then 1
        else if String.eqb (str_lower code) "src" then 0 else 2) ->
  mss = fold_left Z.max rest x ->
  flat_layout ft mss incl ->
  (ft = 0 -> input_time_of (header w) = incl) ->
  header w !! "file_size" = Some (PInt (getsize file)) ->
  header w !! "num_streams" = Some (PInt ns) -> 1 <= ns ->
  header w !! "stream_samples_per_package" = Some (PList (x :: rest)) ->
  header w !! "pos_data_start" = Some (PInt pds) -> 0 <= pds ->
  (rd = true ->
   np_empty_ok env
     (8 * samples_of (flat_packages (loop_fuel file) file ft incl ns pds)
      * (ns + Z.of_nat (flat_header_columns ft incl))) = true) ->
  wp (read_contents env file rd)
    (fun r w' =>
       let ps := flat_packages (loop_fuel file) file ft incl ns pds in
       exists h d,
         r = Ok (Some h, d) /\
         h !! "total_samples" = Some (PInt (samples_of ps)) /\
         h !! "total_packages" = Some (PInt (Z.of_nat (length ps))) /\
         if rd
         then exists a, d = Some a /\
                flat_decoded file ft incl ns (Z.to_nat (samples_of ps))
                  (flat_rows ps) a
         else d = None) w.
Proof.
  intros Hver Hv Hcode Hft Hmss Hflat Hincl Hfs Hns Hn1 Hspp Hpds Hp Hok.
  unfold read_contents.
  apply wp_bind. eapply wp_determine_file_type; [exact Hcode |].
  rewrite <- Hft. clear Hft. unfold wp_then; cbv beta iota.
  unfold load_v23.
  remember (flat_packages (loop_fuel file) file ft incl ns pds) as ps eqn:Eps.
  wp_run; tests; try lia.
  all: rewrite <- Hmss.
  all: eapply wp_mono;
    [ eapply (read_packages_flat_count env file ft _ mss ns incl pds 0 0);
      world_simpl; eauto; try solve [hlookup];
      intros H0; rewrite input_time_of_counts; auto
    | ].
  all: world_simpl; cbv zeta; rewrite <- Eps, !Z.add_0_l.
  all: intros r w1 (-> & Hts & Htp & Hk); unfold wp_then; cbv beta iota.
  all: cbn [fst snd]; destruct rd.
  - apply wp_bind. eapply wp_mono.
    + eapply (read_packages_flat_decode env file ft w1 mss ns incl pds
                (samples_of ps));
        rewrite ?Hk by done; eauto; try solve [hlookup];
        try (now rewrite Eps); try (rewrite Eps; now auto);
        try (intros H0;
             rewrite (input_time_of_agree _ _ Hk), input_time_of_counts;
             now auto).
    + rewrite <- Eps. intros r w2 (a & -> & Hh & Hd).
      unfold wp_then; cbv beta iota. cbn [fst snd]. wp_run.
      do 2 eexists. split; [reflexivity |]. rewrite Hh.
      split; [exact Hts |]. split; [exact Htp |]. eauto.
  - wp_run. do 2 eexists. split; [reflexivity |].
    split; [exact Hts |]. split; [exact Htp |]. reflexivity.
Qed.

Lemma fold_max_bound rest x b :
  x <= b -> Forall (fun y => y <= b) rest -> fold_left Z.max rest x <= b.
Proof.
  revert x. induction rest as [|y rest IH]; intros x Hx Hall; simpl; [exact Hx |].
  apply Forall_cons in Hall as [Hy Hall]. apply IH; [lia | exact Hall].
Qed.

(** [load_data] on a file of version 2 or 3 without chunks. *)
Lemma flat_file_run env file rd h0 v code ns spp pds ft :
  parsed_header file = Some h0 ->
  h0 !! "version" = Some (PInt v) -> v = 2 \/ v = 3 ->
  h0 !! "code" = Some (PStr code) ->
  (str_lower code = "src" /\ ft = 0) \/
  (str_lower code = "dat" /\ ft = 1 /\ Forall (fun y => y <= 1) spp) ->
  h0 !! "num_streams" = Some (PInt ns) -> 1 <= ns ->
  h0 !! "stream_samples_per_package" = Some (PList spp) ->
  h0 !! "pos_data_start" = Some (PInt pds) ->
  let incl := input_time_of h0 in
  let ps := flat_packages (loop_fuel file) file ft incl ns pds in
  (rd = true ->
   np_empty_ok env
     (8 * samples_of ps * (ns + Z.of_nat (flat_header_columns ft incl)))
   = true) ->
  exists h d,
    (run_load_data env file rd).1 = Ok (Some h, d) /\
    h !! "total_samples" = Some (PInt (samples_of ps)) /\
    h !! "total_packages" = Some (PInt (Z.of_nat (length ps))) /\
    if rd
    then exists a, d = Some a /\
           flat_decoded file ft incl ns (Z.to_nat (samples_of ps))
             (flat_rows ps) a
    else d = None.
Proof.
  intros (w2 & E2 & <-)%parsed_header_run Hver Hv Hcode Hkind Hns Hn1 Hspp
    Hpds incl ps Hok.
  destruct (header_shape_run _ _ E2)
    as [[Hfs Hver' (code' & Hcode' & _ & Hout) H23 _ _ _ _] _].
  assert (v = version_tag file) as -> by congruence.
  assert (code' = code) as -> by congruence.
  destruct (H23 Hv) as (ns' & dts & spp' & e1 & e2 & Hns' & _ & Hspp' & _ & Hlen & _).
  assert (ns' = ns) as -> by congruence.
  assert (spp' = spp) as -> by congruence.
  destruct spp as [|x rest]; [simpl in Hlen; lia |].
  destruct (header_ranges_run _ _ E2) as ([_ _ _ _ _ (p & Hp & Hpr)] & _ & _).
  assert (p = pds) as -> by congruence.
  assert (Hk : known_version file) by (unfold known_version; tauto).
  clear Hver'.
  assert (Hft : ft = (if String.eqb (str_lower code) "dat" then 1
                      else if String.eqb (str_lower code) "src" then 0 else 2)).
  { destruct Hkind as [[-> ->]|(-> & -> & _)]; reflexivity. }
  assert (Hflat : flat_layout ft (fold_left Z.max rest x) incl).
  { destruct Hkind as [[_ ->]|(Hd & -> & Hall)]; [now left |].
    right. split; [reflexivity |]. split.
    - apply Forall_cons in Hall as [Hx Hall]. now apply fold_max_bound.
    - unfold incl, input_time_of. rewrite Hout; [reflexivity |].
      intros [Hs _]. rewrite Hd in Hs. discriminate Hs. }
  pose proof (read_contents_flat env file rd w2 _ code ft _ ns x rest pds incl
                Hver Hv Hcode Hft eq_refl Hflat (fun _ => eq_refl) Hfs Hns Hn1
                Hspp Hpds ltac:(lia) Hok) as H.
  unfold wp in H.
  destruct (read_contents env file rd w2) as [r w3] eqn:E3.
  cbv zeta in H. destruct H as (h & d & Hr & Hts & Htp & Hd).
  cbn [fst snd] in Hr. subst r.
  assert (E : load_data env file rd start = (Ok (Some h, d), w3)).
  { apply load_data_ok.
    now rewrite (load_data_body_known _ _ _ Hk), (bind_ok _ _ _ _ _ E2). }
  exists h, d. unfold run_load_data. rewrite E. cbn [fst snd]. auto.
Qed.

(** For a file of version 2 or 3 without chunks (a source file, or a
    pipeline file none of whose streams has more than one sample per
    package), reading only the header counts the complete packages of the
    file: [total_packages] is their number and [total_samples] the sum of
    their numbers of samples; a package whose header or values do not fit
    in the file ends the count. *)
Theorem flat_file_counted env file h0 v code ns spp pds ft :
  parsed_header file = Some h0 ->
  h0 !! "version" = Some (PInt v) -> v = 2 \/ v = 3 ->
  h0 !! "code" = Some (PStr code) ->
  (str_lower code = "src" /\ ft = 0) \/
  (str_lower code = "dat" /\ ft = 1 /\ Forall (fun y => y <= 1) spp) ->
  h0 !! "num_streams" = Some (PInt ns) -> 1 <= ns ->
  h0 !! "stream_samples_per_package" = Some (PList spp) ->
  h0 !! "pos_data_start" = Some (PInt pds) ->
  let ps := flat_packages (loop_fuel file) file ft (input_time_of h0) ns pds in
  exists h,
    (run_load_data env file false).1 = Ok (Some h, None) /\
    h !! "total_samples" = Some (PInt (samples_of ps)) /\
    h !! "total_packages" = Some (PInt (Z.of_nat (length ps))).
Proof.
  intros E Hver Hv Hcode Hkind Hns Hn1 Hspp Hpds ps.
  destruct (flat_file_run env file false h0 v code ns spp pds ft
              E Hver Hv Hcode Hkind Hns Hn1 Hspp Hpds ltac:(discriminate))
    as (h & d & Hr & Hts & Htp & ->).
  exists h. auto.
Qed.

(** For such a file, on a machine where [np.empty] can provide the
    matrix, reading the data returns a matrix with one row per sample of
    the complete packages, in the order of the file: the row of sample [s]
    of the package at [pos] holds the sample identifier of the package
    converted to float64, its elapsed time, its source input time when the
    file has them, and the [num_streams] values of the sample. *)
Theorem flat_file_decoded env file h0 v code ns spp pds ft :
  parsed_header file = Some h0 ->
  h0 !! "version" = Some (PInt v) -> v = 2 \/ v = 3 ->
  h0 !! "code" = Some (PStr code) ->
  (str_lower code = "src" /\ ft = 0) \/
  (str_lower code = "dat" /\ ft = 1 /\ Forall (fun y => y <= 1) spp) ->
  h0 !! "num_streams" = Some (PInt ns) -> 1 <= ns ->
  h0 !! "stream_samples_per_package" = Some (PList spp) ->
  h0 !! "pos_data_start" = Some (PInt pds) ->
  let incl := input_time_of h0 in
  let ps := flat_packages (loop_fuel file) file ft incl ns pds in
  np_empty_ok env
    (8 * samples_of ps * (ns + Z.of_nat (flat_header_columns ft incl)))
  = true ->
  exists h d,
    (run_load_data env file true).1 = Ok (Some h, Some d) /\
    h !! "total_samples" = Some (PInt (samples_of ps)) /\
    nrows d = length (flat_rows ps) /\
    ncols d = (flat_header_columns ft incl + Z.to_nat ns)%nat /\
    forall r c pos s,
      flat_rows ps !! r = Some (pos, s) -> (c < ncols d)%nat ->
      cell d r c = Some (flat_cell file ft incl ns pos s c).
Proof.
  intros E Hver Hv Hcode Hkind Hns Hn1 Hspp Hpds incl ps Hok.
  destruct (flat_file_run env file true h0 v code ns spp pds ft
              E Hver Hv Hcode Hkind Hns Hn1 Hspp Hpds (fun _ => Hok))
    as (h & d & Hr & Hts & Htp & a & -> & Hnr & Hnc & Hcells).
  fold incl ps in Hnr, Hnc, Hcells, Hts.
  pose proof (length_flat_rows ps
                (flat_packages_samples _ _ _ _ _ _)) as Hlen.
  exists h, a. split; [exact Hr |]. split; [exact Hts |].
  split; [lia |]. split; [exact Hnc |].
  intros r c pos s Hl Hc.
  assert (Hlt : (r < Z.to_nat (samples_of ps))%nat).
  { apply lookup_lt_Some in Hl. lia. }
  destruct (Hcells r c Hlt Hc) as (y & Hy & Hdec).
  rewrite Hy. f_equal. now apply Hdec.
Qed.

Lemma flat_file_counted_witness :
  exists h,
    (run_load_data env_no_memory file_src_packages false).1 = Ok (Some h, None) /\
    h !! "total_samples" = Some (PInt 3) /\
    h !! "total_packages" = Some (PInt 2).
Proof.
  assert (Hv : parsed_field file_src_packages "version" = Some (PInt 3))
    by (vm_compute; reflexivity).
  assert (Hc : parsed_field file_src_packages "code" = Some (PStr "src"))
    by (vm_compute; reflexivity).
  assert (Hn : parsed_field file_src_packages "num_streams" = Some (PInt 2))
    by (vm_compute; reflexivity).
  assert (Hs : parsed_field file_src_packages "stream_samples_per_package"
               = Some (PList [1; 1])) by (vm_compute; reflexivity).
  assert (Hp : parsed_field file_src_packages "pos_data_start" = Some (PInt 65))
    by (vm_compute; reflexivity).
  assert (Hi : parsed_field file_src_packages "includes_source_input_time"
               = Some (PBool true)) by (vm_compute; reflexivity).
  assert (Hps : flat_packages (loop_fuel file_src_packages) file_src_packages
                  0 true 2 65 = [(65, 1); (103, 2)])
    by (vm_compute; reflexivity).
  unfold parsed_field in Hv, Hc, Hn, Hs, Hp, Hi.
  destruct (parsed_header file_src_packages) as [h0|] eqn:E; [| discriminate Hv].
  destruct (flat_file_counted env_no_memory file_src_packages h0 3 "src" 2
              [1; 1] 65 0 E Hv (or_intror eq_refl) Hc
              (or_introl (conj eq_refl eq_refl)) Hn ltac:(lia) Hs Hp)
    as (h & Hr & Hts & Htp).
  unfold input_time_of in Hts, Htp. rewrite Hi in Hts, Htp. cbn [py_truth] in *.
  rewrite Hps in Hts, Htp.
  exists h. split; [exact Hr |]. split; [exact Hts | exact Htp].
Defined.

Lemma flat_file_decoded_witness :
  exists h d,
    (run_load_data env_no_memory file_src_packages true).1
      = Ok (Some h, Some d) /\
    nrows d = 3%nat /\ ncols d = 5%nat /\
    cell d 1 0 = Some (float64_of_int 8) /\
    cell d 2 3 = Some 0x4008000000000000 /\
    cell d 2 4 = Some 0x4010000000000000.
Proof.
  assert (Hv : parsed_field file_src_packages "version" = Some (PInt 3))
    by (vm_compute; reflexivity).
  assert (Hc : parsed_field file_src_packages "code" = Some (PStr "src"))
    by (vm_compute; reflexivity).
  assert (Hn : parsed_field file_src_packages "num_streams" = Some (PInt 2))
    by (vm_compute; reflexivity).
  assert (Hs : parsed_field file_src_packages "stream_samples_per_package"
               = Some (PList [1; 1])) by (vm_compute; reflexivity).
  assert (Hp : parsed_field file_src_packages "pos_data_start" = Some (PInt 65))
    by (vm_compute; reflexivity).
  assert (Hi : parsed_field file_src_packages "includes_source_input_time"
               = Some (PBool true)) by (vm_compute; reflexivity).
  assert (Hps : flat_rows
                  (flat_packages (loop_fuel file_src_packages)
                     file_src_packages 0 true 2 65)
                = [(65, 0%nat); (103, 0%nat); (103, 1%nat)])
    by (vm_compute; reflexivity).
  unfold parsed_field in Hv, Hc, Hn, Hs, Hp, Hi.
  destruct (parsed_header file_src_packages) as [h0|] eqn:E; [| discriminate Hv].
  destruct (flat_file_decoded env_no_memory file_src_packages h0 3 "src" 2
              [1; 1] 65 0 E Hv (or_intror eq_refl) Hc
              (or_introl (conj eq_refl eq_refl)) Hn ltac:(lia) Hs Hp eq_refl)
    as (h & d & Hr & _ & Hnr & Hnc & Hcells).
  unfold input_time_of in Hnr, Hnc, Hcells. rewrite Hi in Hnr, Hnc, Hcells.
  cbn [py_truth] in *. rewrite Hps in Hnr, Hcells.
  exists h, d. split; [exact Hr |]. split; [exact Hnr |]. split; [exact Hnc |].
  rewrite Hnc in Hcells.
  split; [| split].
  - rewrite (Hcells 1%nat 0%nat 103 0%nat eq_refl) by (vm_compute; lia).
    vm_compute. reflexivity.
  - rewrite (Hcells 2%nat 3%nat 103 1%nat eq_refl) by (vm_compute; lia).
    vm_compute. reflexivity.
  - rewrite (Hcells 2%nat 4%nat 103 1%nat eq_refl) by (vm_compute; lia).
    vm_compute. reflexivity.
Defined.

(** ** A full read returns the matrix or nothing *)

(** Symbolic execution that follows the control structure, with the mode of
    the pass known. *)
Ltac whole_walk :=
  repeat (lazymatch goal with
          | |- wp (bind _ _) _ _ => apply wp_bind
          | |- wp_then _ _ _ _ => unfold wp_then at 1; cbv beta iota
          | |- wp (if true then _ else _) _ _ => cbv iota
          | |- wp (if false then _ else _) _ _ => cbv iota
          | |- wp (if negb _ then _ else _) _ _ => progress cbn [negb]
          | |- wp (if ?b then _ else _) _ _ => destruct b
          | |- wp (match ?x with _ => _ end) _ _ => destruct x
          | |- wp (let _ := _ in _) _ _ => cbv zeta
          | |- wp (ret _) _ _ => apply wp_ret
          | |- wp (raise _) _ _ => apply wp_raise
          | |- wp diverge _ _ => apply wp_diverge
          | |- wp get_header _ _ => apply wp_get_header
          | |- wp (chunk_loop _ _ _ _ _ _) _ _ => fail
          | |- wp (package_loop _ _ _ _ _ _ _ _ _) _ _ => fail
          | |- wp (read_package _ _ _ _ _ _ _) _ _ => fail
          | |- wp (read_chunked_package _ _ _ _ _ _ _) _ _ => fail
          | |- wp (read_flat_package _ _ _ _ _ _ _ _ _) _ _ => fail
          | |- wp (_allocate_array _ _ _ _) _ _ => fail
          | |- wp (__read_packages _ _ _ _) _ _ => fail
          | |- wp (load_v1 _ _ _ _) _ _ => fail
          | |- wp (load_v23 _ _ _ _) _ _ => fail
          | |- wp _ _ _ => apply wp_any; intros [?|?|] ?
          end).

(** The goal at a leaf of the walk. *)
Ltac whole_leaf :=
  unfold whole_chunk, whole_package, whole_pass, whole_result in *;
  cbn [fst snd data] in *;
  first [ exact I
        | solve [intros _; discriminate]
        | solve [split; [reflexivity | intros H; first [discriminate H | discriminate | auto]]]
        | solve [auto] ].

Lemma chunk_loop_whole file rd hc fuel ri l w :
  (rd = true -> snd l <> None) ->
  wp (chunk_loop file rd hc fuel ri l) (whole_chunk rd) w.
Proof.
  revert ri l w.
  induction fuel as [|fuel IH]; intros ri [[si ns] d] w Hd; destruct rd;
    simpl in *.
  all: whole_walk; try (apply IH; cbn [snd]); try whole_leaf.
Qed.

Lemma read_chunked_package_whole file rd hc fuel l sid el w :
  (rd = true -> data l <> None) ->
  wp (read_chunked_package file rd hc fuel l sid el) (whole_package rd) w.
Proof.
  intros Hd. unfold read_chunked_package. apply wp_bind.
  eapply wp_mono; [apply chunk_loop_whole; exact Hd |].
  intros [[[[si ns] d]|[b d]]|e|] wn Hr; unfold wp_then; cbv beta iota;
    destruct rd; cbn [whole_chunk] in Hr.
  all: whole_walk; try whole_leaf.
Qed.

Lemma read_flat_package_whole file ft rd incl hc l sid el t w :
  (rd = true -> data l <> None) ->
  wp (read_flat_package file ft rd incl hc l sid el t) (whole_package rd) w.
Proof.
  intros Hd. unfold read_flat_package. destruct l as [d ri ns].
  destruct rd; cbn [data] in *.
  all: whole_walk; try whole_leaf.
Qed.

Lemma read_package_whole file ft rd incl hc fuel l w :
  (rd = true -> data l <> None) ->
  wp (read_package file ft rd incl hc fuel l) (whole_package rd) w.
Proof.
  intros Hd. unfold read_package, read_package_header.
  destruct rd.
  all: whole_walk;
    first [ apply read_chunked_package_whole; exact Hd
          | apply read_flat_package_whole; exact Hd
          | whole_leaf ].
Qed.

Lemma package_loop_whole file ft rd incl phs hc fuel cfuel l w :
  (rd = true -> data l <> None) ->
  wp (package_loop file ft rd incl phs hc fuel cfuel l) (whole_pass rd) w.
Proof.
  revert l w. induction fuel as [|fuel IH]; intros l w Hd;
    cbn [package_loop].
  - whole_walk; try whole_leaf.
  - whole_walk; try whole_leaf.
    eapply wp_mono; [apply read_package_whole; exact Hd |].
    intros [[l'|[b d]]|e|] wn Hr; unfold wp_then; cbv beta iota;
      cbn [whole_package] in Hr.
    + now apply IH.
    + apply wp_ret. exact Hr.
    + exact I.
    + exact I.
Qed.

(** Without [check_mem] the allocator hands out a matrix or raises: its
    [return None] is not reached. *)
Lemma wp_allocate_array_unchecked env dims v
    (Q : result (option ndarray) -> world -> Prop) w :
  (forall d w', Q (Ok (Some d)) w') ->
  (forall e w', Q (Raise e) w') ->
  wp (_allocate_array env dims v false) Q w.
Proof.
  intros HQ HR. destruct dims as [r c].
  unfold wp, _allocate_array, try_except, bind, np_empty.
  destruct ((r <? 0) || (c <? 0)); cbn; [apply HR |].
  destruct (np_empty_ok env _); cbn; [apply HQ | apply HR].
Qed.

(** On a source or pipeline file neither pass returns [False]; the pass
    that reads the data returns the matrix. *)
Lemma read_packages_whole env file ft rd w :
  ft = 0 \/ ft = 1 ->
  wp (__read_packages env file ft rd) (whole_pass rd) w.
Proof.
  intros [-> | ->]; unfold __read_packages.
  all: change (0 =? 0) with true; change (1 =? 0) with false;
    change (1 =? 1) with true; cbv iota.
  all: destruct rd; whole_walk; try whole_leaf.
  all: lazymatch goal with
       | |- wp (_allocate_array _ _ _ _) _ _ =>
           apply wp_allocate_array_unchecked;
           [ intros d wn; unfold wp_then; cbv beta iota;
             apply package_loop_whole; intros _; discriminate
           | intros e wn; exact I ]
       | |- wp (package_loop _ _ _ _ _ _ _ _ _) _ _ =>
           apply package_loop_whole; discriminate
       end.
Qed.

(** Where [np.empty] raises, the pass that reads the data does not return. *)
Lemma read_packages_no_memory env file ft w :
  (forall n, np_empty_ok env n = false) ->
  ft = 0 \/ ft = 1 ->
  wp (__read_packages env file ft true) (fun r _ => forall x, r <> Ok x) w.
Proof.
  intros Hno [-> | ->]; unfold __read_packages.
  all: change (0 =? 0) with true; change (1 =? 0) with false;
    change (1 =? 1) with true; cbv iota.
  all: whole_walk; try discriminate.
  all: apply wp_allocate_array_fails; [exact Hno |].
  all: intros e; unfold wp_then; cbv beta iota; discriminate.
Qed.

Lemma load_v23_whole env file ft w :
  ft = 0 \/ ft = 1 ->
  wp (load_v23 env file ft true) both_returned w.
Proof.
  intros Hft. unfold load_v23, both_returned.
  whole_walk; try discriminate.
  eapply wp_mono; [apply read_packages_whole; exact Hft |].
  intros [[b1 d1]|e|] w1 Hr; unfold wp_then; cbv beta iota;
    try discriminate.
  destruct Hr as [Hb _]. cbn [fst snd] in *. subst b1. cbv iota.
  apply wp_bind.
  eapply wp_mono; [apply read_packages_whole; exact Hft |].
  intros [[b2 d2]|e|] w2 Hr; unfold wp_then; cbv beta iota;
    try discriminate.
  destruct Hr as [Hb Hd]. cbn [fst snd] in *. subst b2. cbv iota.
  whole_walk. intros x [= <-].
  destruct d2 as [d|]; [eauto |]. now destruct (Hd eq_refl).
Qed.

Lemma load_v23_no_memory env file ft w :
  (forall n, np_empty_ok env n = false) ->
  ft = 0 \/ ft = 1 ->
  wp (load_v23 env file ft true) (fun r _ => forall x, r <> Ok x) w.
Proof.
  intros Hno Hft. unfold load_v23.
  whole_walk; try discriminate.
  eapply wp_mono; [apply read_packages_whole; exact Hft |].
  intros [[b1 d1]|e|] w1 Hr; unfold wp_then; cbv beta iota;
    try discriminate.
  destruct Hr as [Hb _]. cbn [fst snd] in *. subst b1. cbv iota.
  apply wp_bind.
  eapply wp_mono; [apply read_packages_no_memory; [exact Hno | exact Hft] |].
  intros [x|e|] w2 Hr; unfold wp_then; cbv beta iota; try discriminate.
  now destruct (Hr x).
Qed.

(** A version 1 load that reads the data returns header and matrix: the
    [return header, None] of line 127 is not reached. *)
Lemma load_v1_whole env file ft w :
  wp (load_v1 env file ft true) both_returned w.
Proof.
  unfold load_v1, both_returned.
  whole_walk; try discriminate.
  all: apply wp_allocate_array_unchecked;
    [ intros d wn; unfold wp_then; cbv beta iota;
      whole_walk; try discriminate; intros x [= <-]; eauto
    | intros e wn; unfold wp_then; cbv beta iota; discriminate ].
Qed.

(** Lines 94-165 when the data is asked for: a version 1 file and a source
    or pipeline file of version 2 or 3 give header and matrix. *)
Lemma read_contents_whole env file w v code :
  header w !! "version" = Some (PInt v) ->
  header w !! "code" = Some (PStr code) ->
  v = 1 \/ ((v = 2 \/ v = 3) /\
            (str_lower code = "src" \/ str_lower code = "dat")) ->
  wp (read_contents env file true)
    (fun r _ => forall h d, r = Ok (h, d) -> d <> None) w.
Proof.
  intros Hver Hcode Hcase. unfold read_contents.
  apply wp_bind. eapply wp_determine_file_type; [exact Hcode |].
  unfold wp_then; cbv beta iota.
  set (ft := if String.eqb (str_lower code) "dat" then 1
             else if String.eqb (str_lower code) "src" then 0 else 2).
  assert (Hft : (v = 2 \/ v = 3) -> ft = 0 \/ ft = 1).
  { intros Hv. subst ft.
    destruct Hcase as [->|[_ [Hs|Hd]]]; [lia | |].
    - left. rewrite Hs. reflexivity.
    - right. rewrite Hd. reflexivity. }
  clearbody ft.
  pose proof (load_v1_whole env file ft) as H1.
  pose proof (load_v23_whole env file ft) as H23.
  set (L1 := load_v1 env file ft true) in *.
  set (L23 := load_v23 env file ft true) in *.
  clearbody L1 L23.
  wp_run; tests.
  - eapply wp_mono; [apply H1 |].
    intros [x|e|] w1 Hr; unfold wp_then; cbv beta iota; try discriminate.
    destruct (Hr x eq_refl) as (h1 & d1 & ->).
    apply wp_ret. intros h d [= _ <-]. discriminate.
  - eapply wp_mono; [apply H23; auto |].
    intros [x|e|] w1 Hr; unfold wp_then; cbv beta iota; try discriminate.
    destruct (Hr x eq_refl) as (h1 & d1 & ->).
    apply wp_ret. intros h d [= _ <-]. discriminate.
  - exfalso. lia.
Qed.

Lemma read_contents_no_memory env file w v code :
  (forall n, np_empty_ok env n = false) ->
  header w !! "version" = Some (PInt v) -> v = 2 \/ v = 3 ->
  header w !! "code" = Some (PStr code) ->
  str_lower code = "src" \/ str_lower code = "dat" ->
  wp (read_contents env file true) (fun r _ => forall x, r <> Ok x) w.
Proof.
  intros Hno Hver Hv Hcode Hkind. unfold read_contents.
  apply wp_bind. eapply wp_determine_file_type; [exact Hcode |].
  unfold wp_then; cbv beta iota.
  set (ft := if String.eqb (str_lower code) "dat" then 1
             else if String.eqb (str_lower code) "src" then 0 else 2).
  assert (Hft : ft = 0 \/ ft = 1).
  { subst ft.
    destruct Hkind as [Hs|Hd]; [left; rewrite Hs | right; rewrite Hd];
      reflexivity. }
  clearbody ft.
  pose proof (load_v23_no_memory env file ft) as H23.
  set (L1 := load_v1 env file ft true) in *.
  set (L23 := load_v23 env file ft true) in *.
  clearbody L1 L23.
  wp_run; tests; try (exfalso; lia).
  eapply wp_mono; [apply H23; auto |].
  intros [x|e|] w1 Hr; unfold wp_then; cbv beta iota; try discriminate.
  now destruct (Hr x).
Qed.

(** A load that is asked for the data returns a header without a matrix
    only for a file of version 2 or 3 whose code is neither 'src' nor
    'dat': for every other file it returns both or (None, None).  The
    [return header, None] of line 127 and the [return False, None] of line
    211 are not reached. *)
Theorem full_read_without_data_is_plugin env file h :
  (run_load_data env file true).1 = Ok (Some h, None) ->
  (version_tag file = 2 \/ version_tag file = 3) /\
  exists code,
    h !! "code" = Some (PStr code) /\
    str_lower code <> "src" /\ str_lower code <> "dat".
Proof.
  intros H.
  destruct (returned_header_agrees _ _ _ _ _ H) as (_ & w2' & E2' & Hk).
  destruct (load_returns_header_inv _ _ _ _ _ H)
    as (Hkv & w2 & w3 & E2 & E3 & _).
  assert (w2' = w2) as -> by congruence.
  destruct (header_shape_run _ _ E2)
    as [[_ Hver (code & Hcode & _) _ _ _ _ _] _].
  assert (Hc : h !! "code" = Some (PStr code))
    by (rewrite Hk by not_derived; exact Hcode).
  destruct (decide (version_tag file = 1 \/
                    ((version_tag file = 2 \/ version_tag file = 3) /\
                     (str_lower code = "src" \/ str_lower code = "dat"))))
    as [Hcase|Hcase].
  - exfalso.
    pose proof (read_contents_whole env file w2 _ code Hver Hcode Hcase) as Hw.
    unfold wp in Hw. rewrite E3 in Hw. cbn [fst snd] in Hw.
    now apply (Hw (Some h) None).
  - unfold known_version in Hkv.
    split; [tauto |]. exists code. split; [exact Hc |]. tauto.
Qed.

Lemma full_read_without_data_is_plugin_witness :
  exists h,
    (run_load_data env_no_memory file_v2_plugin true).1 = Ok (Some h, None) /\
    (version_tag file_v2_plugin = 2 \/ version_tag file_v2_plugin = 3) /\
    exists code,
      h !! "code" = Some (PStr code) /\
      str_lower code <> "src" /\ str_lower code <> "dat".
Proof.
  assert (Hr : returns_header_only
                 (run_load_data env_no_memory file_v2_plugin true) = true)
    by (vm_compute; reflexivity).
  unfold returns_header_only in Hr.
  destruct (run_load_data env_no_memory file_v2_plugin true).1
    as [[[h|] [d|]]|e|] eqn:E;
    [ discriminate Hr | | discriminate Hr | discriminate Hr | discriminate Hr
    | discriminate Hr ].
  exists h. split; [reflexivity |].
  exact (full_read_without_data_is_plugin env_no_memory file_v2_plugin h E).
Defined.

(** On a machine where [np.empty] raises MemoryError, loading the data of
    a source or pipeline file of version 2 or 3 returns (None, None): the
    counting pass succeeds or raises, and the allocation of the second
    pass raises. *)
Theorem v23_load_without_memory_returns_nothing env file h0 code :
  (forall n, np_empty_ok env n = false) ->
  version_tag file = 2 \/ version_tag file = 3 ->
  parsed_header file = Some h0 ->
  h0 !! "code" = Some (PStr code) ->
  str_lower code = "src" \/ str_lower code = "dat" ->
  (run_load_data env file true).1 = Ok (None, None).
Proof.
  intros Hno Hv (w2 & E2 & <-)%parsed_header_run Hcode Hkind.
  assert (Hk : known_version file) by (unfold known_version; tauto).
  destruct (header_shape_run _ _ E2) as [[_ Hver _ _ _ _ _ _] _].
  destruct (load_data_body env file true start) as [[r|e|] w] eqn:E.
  - exfalso. rewrite (load_data_body_known _ _ _ Hk) in E.
    rewrite (bind_ok _ _ _ _ _ E2) in E.
    pose proof (read_contents_no_memory env file w2 _ code Hno Hver Hv
                  Hcode Hkind) as H.
    unfold wp in H. rewrite E in H. now apply (H r).
  - exact (run_load_data_raise _ _ _ _ _ E).
  - exfalso. pose proof (load_data_body_ends env file true) as H.
    rewrite E in H. now apply H.
Qed.

Lemma v23_load_without_memory_returns_nothing_witness :
  (run_load_data env_no_alloc file_src_packages true).1 = Ok (None, None) /\
  returns_header (run_load_data env_no_alloc file_src_packages false) = true.
Proof.
  assert (Hv : version_tag file_src_packages = 3) by (vm_compute; reflexivity).
  assert (Hc : parsed_field file_src_packages "code" = Some (PStr "src"))
    by (vm_compute; reflexivity).
  unfold parsed_field in Hc.
  destruct (parsed_header file_src_packages) as [h0|] eqn:E;
    [| discriminate Hc].
  split; [| vm_compute; reflexivity].
  exact (v23_load_without_memory_returns_nothing env_no_alloc
           file_src_packages h0 "src" (fun _ => eq_refl) (or_intror Hv) E Hc
           (or_introl eq_refl)).
Defined.

(** ** The shape of the matrix *)

(** An assignment to the matrix leaves its shape as it is. *)
Lemma wp_setitem_block_shaped d r0 r1 c0 c1 src
    (Q : result ndarray -> world -> Prop) w :
  (forall d' w', nrows d' = nrows d -> ncols d' = ncols d -> Q (Ok d') w') ->
  (forall e, Q (Raise e) w) ->
  wp (setitem_block d r0 r1 c0 c1 src) Q w.
Proof.
  intros HQ HR. unfold setitem_block.
  destruct (slice_clip r0 r1 (nrows d)) as [ra rb].
  destruct (slice_clip c0 c1 (ncols d)) as [ca cb].
  destruct (_ && _); [| apply HR].
  unfold wp, bind, emit, ret. cbn. apply HQ; reflexivity.
Qed.

Lemma wp_setitem_col_shaped d r0 r1 c v (Q : result ndarray -> world -> Prop) w :
  (forall d' w', nrows d' = nrows d -> ncols d' = ncols d -> Q (Ok d') w') ->
  (forall e, Q (Raise e) w) ->
  wp (setitem_col d r0 r1 c v) Q w.
Proof.
  intros HQ HR. unfold setitem_col.
  destruct (index_ok _ _); [now apply wp_setitem_block_shaped | apply HR].
Qed.

Lemma wp_setitem_cell_shaped d r c v (Q : result ndarray -> world -> Prop) w :
  (forall d' w', nrows d' = nrows d -> ncols d' = ncols d -> Q (Ok d') w') ->
  (forall e, Q (Raise e) w) ->
  wp (setitem_cell d r c v) Q w.
Proof.
  intros HQ HR. unfold setitem_cell.
  destruct (_ && _); [now apply wp_setitem_block_shaped | apply HR].
Qed.

Lemma wp_setitem_row_shaped d r c0 c1 vs (Q : result ndarray -> world -> Prop) w :
  (forall d' w', nrows d' = nrows d -> ncols d' = ncols d -> Q (Ok d') w') ->
  (forall e, Q (Raise e) w) ->
  wp (setitem_row d r c0 c1 vs) Q w.
Proof.
  intros HQ HR. unfold setitem_row.
  destruct (index_ok _ _); [now apply wp_setitem_block_shaped | apply HR].
Qed.

(** Symbolic execution of the pass that reads the data, keeping track of
    the shape of the matrix only. *)
Ltac shape_walk :=
  repeat (lazymatch goal with
          | |- wp (bind _ _) _ _ => apply wp_bind
          | |- wp_then _ _ _ _ => unfold wp_then at 1; cbv beta iota
          | |- wp (if true then _ else _) _ _ => cbv iota
          | |- wp (if false then _ else _) _ _ => cbv iota
          | |- wp (if negb _ then _ else _) _ _ => progress cbn [negb]
          | |- wp (if ?b then _ else _) _ _ => destruct b
          | |- wp (match ?x with _ => _ end) _ _ => destruct x
          | |- wp (let _ := _ in _) _ _ => cbv zeta
          | |- wp (ret _) _ _ => apply wp_ret
          | |- wp (raise _) _ _ => apply wp_raise
          | |- wp diverge _ _ => apply wp_diverge
          | |- wp (the_data _) _ _ => unfold the_data
          | |- wp (setitem_block _ _ _ _ _ _) _ _ =>
              apply wp_setitem_block_shaped; [intros ? ? ? ? | intros ?]
          | |- wp (setitem_col _ _ _ _ _) _ _ =>
              apply wp_setitem_col_shaped; [intros ? ? ? ? | intros ?]
          | |- wp (setitem_cell _ _ _ _) _ _ =>
              apply wp_setitem_cell_shaped; [intros ? ? ? ? | intros ?]
          | |- wp (setitem_row _ _ _ _ _) _ _ =>
              apply wp_setitem_row_shaped; [intros ? ? ? ? | intros ?]
          | |- wp (chunk_loop _ _ _ _ _ _) _ _ => fail
          | |- wp (package_loop _ _ _ _ _ _ _ _ _) _ _ => fail
          | |- wp (read_package _ _ _ _ _ _ _) _ _ => fail
          | |- wp (read_chunked_package _ _ _ _ _ _ _) _ _ => fail
          | |- wp (read_flat_package _ _ _ _ _ _ _ _ _) _ _ => fail
          | |- wp (read_rows_v1 _ _ _ _) _ _ => fail
          | |- wp _ _ _ => apply wp_any; intros [?|?|] ?
          end).

(** The goal at a leaf of the walk. *)
Ltac shape_leaf :=
  unfold shaped_chunk, shaped_package, shaped_pass in *; cbn [data snd] in *;
  try exact I;
  repeat match goal with
    | H : shaped _ _ (Some ?a) |- _ =>
        destruct (H a eq_refl); clear H
    end;
  first [ assumption
        | let a := fresh in let E := fresh in
          intros a E; first [discriminate E | injection E as <-; split; congruence] ].

Lemma chunk_loop_shaped file hc fuel ri l w nr nc :
  shaped nr nc (snd l) ->
  wp (chunk_loop file true hc fuel ri l) (shaped_chunk nr nc) w.
Proof.
  revert ri l w.
  induction fuel as [|fuel IH]; intros ri [[si ns] d] w Hd; simpl in *.
  - shape_walk; shape_leaf.
  - shape_walk; try (apply IH; cbn [snd]); shape_leaf.
Qed.

Lemma read_chunked_package_shaped file hc fuel l sid el w nr nc :
  shaped nr nc (data l) ->
  wp (read_chunked_package file true hc fuel l sid el) (shaped_package nr nc) w.
Proof.
  intros Hd. unfold read_chunked_package. apply wp_bind.
  eapply wp_mono; [apply chunk_loop_shaped; exact Hd |].
  intros [[[[si ns] d]|[b d]]|e|] wn Hr; unfold wp_then; cbv beta iota;
    cbn [shaped_chunk] in Hr.
  all: shape_walk; shape_leaf.
Qed.

Lemma read_flat_package_shaped file ft incl hc l sid el t w nr nc :
  shaped nr nc (data l) ->
  wp (read_flat_package file ft true incl hc l sid el t) (shaped_package nr nc) w.
Proof.
  intros Hd. unfold read_flat_package. destruct l as [d ri ns].
  cbn [data] in *.
  shape_walk; shape_leaf.
Qed.

Lemma read_package_shaped file ft incl hc fuel l w nr nc :
  shaped nr nc (data l) ->
  wp (read_package file ft true incl hc fuel l) (shaped_package nr nc) w.
Proof.
  intros Hd. unfold read_package, read_package_header.
  shape_walk;
    first [ apply read_chunked_package_shaped; exact Hd
          | apply read_flat_package_shaped; exact Hd
          | shape_leaf ].
Qed.

Lemma package_loop_shaped file ft incl phs hc fuel cfuel l w nr nc :
  shaped nr nc (data l) ->
  wp (package_loop file ft true incl phs hc fuel cfuel l) (shaped_pass nr nc) w.
Proof.
  revert l w. induction fuel as [|fuel IH]; intros l w Hd;
    cbn [package_loop].
  - shape_walk; shape_leaf.
  - shape_walk; try shape_leaf.
    eapply wp_mono; [apply read_package_shaped; exact Hd |].
    intros [[l'|[b d]]|e|] wn Hr; unfold wp_then; cbv beta iota;
      cbn [shaped_package] in Hr.
    + now apply IH.
    + apply wp_ret. exact Hr.
    + exact I.
    + exact I.
Qed.

Lemma read_rows_v1_shaped file n i d w :
  wp (read_rows_v1 file n i d)
    (fun r _ => forall a, r = Ok a -> nrows a = nrows d /\ ncols a = ncols d) w.
Proof.
  revert i d w. induction n as [|n IH]; intros i d w; simpl.
  - apply wp_ret. intros a [= <-]. auto.
  - shape_walk;
      lazymatch goal with
      | |- wp (read_rows_v1 _ _ _ _) _ _ =>
          eapply wp_mono; [apply IH |];
          let x := fresh in let E := fresh in let Hr := fresh in
          intros ? ? Hr x E; destruct (Hr x E); split; congruence
      | |- _ => intros ? [=]
      end.
Qed.

Lemma wp_and {A} (m : M A) (Q1 Q2 : result A -> world -> Prop) w :
  wp m Q1 w -> wp m Q2 w -> wp m (fun r w' => Q1 r w' /\ Q2 r w') w.
Proof. unfold wp. auto. Qed.

(** The allocator hands out a matrix of the shape it was asked for. *)
Lemma wp_allocate_array_shape env r c v check
    (Q : result (option ndarray) -> world -> Prop) w :
  (forall t, 0 <= r -> 0 <= c ->
     Q (Ok (Some (np_full (Z.to_nat r) (Z.to_nat c) v)))
       {| cursor := cursor w; header := header w; trace := t |}) ->
  (forall t, Q (Ok None) {| cursor := cursor w; header := header w; trace := t |}) ->
  (forall e t, Q (Raise e) {| cursor := cursor w; header := header w; trace := t |}) ->
  wp (_allocate_array env (r, c) v check) Q w.
Proof.
  intros HS HN HR. destruct w as [cu h t].
  unfold wp, _allocate_array, try_except, bind, np_empty, alloc_handler,
    virtual_memory, np_fill, local_get, logging_error, emit, ret, raise.
  cbn.
  destruct ((r <? 0) || (c <? 0)) eqn:E; cbn; [apply HR |].
  apply orb_false_elim in E as [Er Ec].
  apply Z.ltb_ge in Er. apply Z.ltb_ge in Ec.
  destruct (np_empty_ok env _); cbn; [| apply HR].
  destruct check; cbn; [| now apply HS].
  destruct (_ <=? _); cbn; [apply HN | now apply HS].
Qed.

(** The pass that reads the data leaves the header as it is. *)
Lemma read_packages_same_header env file ft w :
  wp (__read_packages env file ft true) (fun _ w' => header w' = header w) w.
Proof.
  unfold wp. destruct (__read_packages env file ft true w) as [r w'] eqn:E.
  cbn [fst snd]. eapply (keeps_header any_event); [| exact E].
  apply keeps_read_packages; auto with keeps; discriminate.
Qed.

(** The matrix of the second pass has [total_samples] rows and a column
    for each stream after the header columns. *)
Lemma read_packages_shape env file ft w ts ns :
  header w !! "total_samples" = Some (PInt ts) ->
  header w !! "num_streams" = Some (PInt ns) ->
  wp (__read_packages env file ft true)
    (fun r w' => header w' = header w /\
       forall b d, r = Ok (b, Some d) ->
         Z.of_nat (nrows d) = ts /\
         Z.of_nat (ncols d) = ns + header_columns ft (header w)) w.
Proof.
  intros Hts Hns. apply wp_and; [apply read_packages_same_header |].
  unfold __read_packages, header_columns.
  apply wp_bind, wp_includes_input_time. unfold wp_then; cbv beta iota.
  apply wp_bind. apply wp_pure; [auto with pure |].
  intros [pds|e|] _; unfold wp_then; cbv beta iota; try discriminate.
  destruct (ft =? 0) eqn:E0;
    [destruct (input_time_of (header w)) eqn:Ei |]; cbn [andb].
  all: wp_run; try discriminate.
  all: lazymatch goal with
       | |- wp (_allocate_array _ (?r, ?c) _ _) _ _ =>
           apply wp_allocate_array_shape;
           [ intros t Hr Hc; unfold wp_then; cbv beta iota;
             eapply wp_mono;
             [ apply (package_loop_shaped file ft _ _ _ _ _ _ _
                        (Z.to_nat r) (Z.to_nat c));
               cbn [data]; intros a [= <-]; cbn [nrows ncols np_full]; auto
             | intros [[b d]|e|] wn Hr'; try discriminate;
               intros b' d' [= -> ->]; destruct (Hr' d' eq_refl); lia ]
           | intros t; unfold wp_then; cbv beta iota; apply wp_ret; discriminate
           | intros e t; unfold wp_then; cbv beta iota; discriminate ]
       | |- _ => idtac
       end.
Qed.

(** ** The counter of the counting pass *)

(** Symbolic execution of the counting pass, keeping track of the
    header. *)
Ltac count_walk :=
  repeat (lazymatch goal with
          | |- wp (bind _ _) _ _ => apply wp_bind
          | |- wp_then _ _ _ _ => unfold wp_then at 1; cbv beta iota
          | |- wp (if true then _ else _) _ _ => cbv iota
          | |- wp (if false then _ else _) _ _ => cbv iota
          | |- wp (if negb _ then _ else _) _ _ => progress cbn [negb]
          | |- wp (if ?b then _ else _) _ _ => destruct b
          | |- wp (match ?x with _ => _ end) _ _ => destruct x
          | |- wp (let _ := _ in _) _ _ => cbv zeta
          | |- wp (ret _) _ _ => apply wp_ret
          | |- wp (raise _) _ _ => apply wp_raise
          | |- wp diverge _ _ => apply wp_diverge
          | |- wp (hset _ _) _ _ => apply wp_hset
          | |- wp (emit _) _ _ => apply wp_emit
          | |- wp (set_cursor _) _ _ => apply wp_set_cursor
          | |- wp (file_read _ _) _ _ => apply wp_file_read_any; intros ? ? _
          | |- wp file_tell _ _ => apply wp_file_tell
          | |- wp (hmem _) _ _ => apply wp_hmem
          | |- wp logging_error _ _ => unfold logging_error
          | |- wp logging_warning _ _ => unfold logging_warning
          | |- wp (file_seek _ _) _ _ => unfold file_seek
          | |- wp (chunk_loop _ _ _ _ _ _) _ _ => fail
          | |- wp (package_loop _ _ _ _ _ _ _ _ _) _ _ => fail
          | |- wp (read_package _ _ _ _ _ _ _) _ _ => fail
          | |- wp (read_chunked_package _ _ _ _ _ _ _) _ _ => fail
          | |- wp (read_flat_package _ _ _ _ _ _ _ _ _) _ _ => fail
          | |- wp _ _ _ => apply wp_pure; [solve [auto with pure] | intros [?|?|] _]
          end; world_simpl).

(** The goal at a leaf of the walk. *)
Ltac count_leaf :=
  first [ assumption
        | unfold counted; eexists; solve [hlookup] ].

Lemma chunk_loop_counted file hc fuel ri l w :
  counted (header w) ->
  wp (chunk_loop file false hc fuel ri l) (fun _ w' => counted (header w')) w.
Proof.
  revert ri l w.
  induction fuel as [|fuel IH]; intros ri [[si ns] d] w Hc; simpl in *.
  - count_walk; count_leaf.
  - count_walk; try (apply IH; world_simpl); count_leaf.
Qed.

Lemma read_chunked_package_counted file hc fuel l sid el w :
  counted (header w) ->
  wp (read_chunked_package file false hc fuel l sid el)
    (fun _ w' => counted (header w')) w.
Proof.
  intros Hc. unfold read_chunked_package. apply wp_bind.
  eapply wp_mono; [apply chunk_loop_counted; exact Hc |].
  intros [[[[si ns] d]|[b d]]|e|] wn Hr; unfold wp_then; cbv beta iota.
  all: count_walk; count_leaf.
Qed.

Lemma read_flat_package_counted file ft incl hc l sid el t w :
  counted (header w) ->
  wp (read_flat_package file ft false incl hc l sid el t)
    (fun _ w' => counted (header w')) w.
Proof.
  intros Hc. unfold read_flat_package.
  count_walk; count_leaf.
Qed.

Lemma read_package_counted file ft incl hc fuel l w :
  counted (header w) ->
  wp (read_package file ft false incl hc fuel l)
    (fun _ w' => counted (header w')) w.
Proof.
  intros Hc. unfold read_package, read_package_header.
  count_walk;
    first [ apply read_chunked_package_counted; exact Hc
          | apply read_flat_package_counted; exact Hc
          | count_leaf ].
Qed.

Lemma package_loop_counted file ft incl phs hc fuel cfuel l w :
  counted (header w) ->
  wp (package_loop file ft false incl phs hc fuel cfuel l)
    (fun _ w' => counted (header w')) w.
Proof.
  revert l w. induction fuel as [|fuel IH]; intros l w Hc;
    cbn [package_loop].
  - count_walk; count_leaf.
  - count_walk; try count_leaf.
    eapply wp_mono; [apply read_package_counted; exact Hc |].
    intros [[l'|[b d]]|e|] wn Hr; unfold wp_then; cbv beta iota.
    + now apply IH.
    + apply wp_ret. exact Hr.
    + exact Hr.
    + exact Hr.
Qed.

(** The counting pass leaves a number in [total_samples] and touches no
    field but the two counters. *)
Lemma read_packages_counted env file ft w :
  counted (header w) ->
  wp (__read_packages env file ft false)
    (fun _ w' =>
       counted (header w') /\
       forall k, k <> "total_samples" -> k <> "total_packages" ->
                 header w' !! k = header w !! k) w.
Proof.
  intros Hc. apply wp_and.
  - unfold __read_packages.
    count_walk; try count_leaf.
    all: apply package_loop_counted; exact Hc.
  - unfold wp.
    assert (Hk : keeps any_event
                   (fun k => k = "total_samples" \/ k = "total_packages")
                   (__read_packages env file ft false)).
    { apply keeps_read_packages; auto with keeps;
        first [discriminate | intros _; split; auto]. }
    destruct (Hk w) as (_ & Hh & _).
    intros k H1 H2. apply Hh. tauto.
Qed.

(** Lines 141-162 when the data is asked for: the matrix that is returned
    has [total_samples] rows. *)
Lemma load_v23_shape env file ft w ns :
  header w !! "num_streams" = Some (PInt ns) ->
  wp (load_v23 env file ft true)
    (fun r _ => forall h d, r = Ok (Some (Some h, Some d)) ->
       h !! "total_samples" = Some (PInt (Z.of_nat (nrows d))) /\
       h !! "num_streams" = Some (PInt ns) /\
       Z.of_nat (ncols d) = ns + header_columns ft h) w.
Proof.
  intros Hns. unfold load_v23.
  count_walk; try discriminate.
  eapply wp_mono; [apply read_packages_counted; count_leaf |].
  world_simpl.
  intros [[b1 d1]|e|] w1 [[ts Hts] Hk]; unfold wp_then; cbv beta iota;
    try discriminate.
  cbn [fst]. destruct b1; [| apply wp_ret; discriminate].
  apply wp_bind.
  assert (Hns1 : header w1 !! "num_streams" = Some (PInt ns)).
  { rewrite Hk by done. hlookup. }
  eapply wp_mono; [apply (read_packages_shape env file ft w1 ts ns Hts Hns1) |].
  intros [[b2 d2]|e|] w2 [Hh Hs]; unfold wp_then; cbv beta iota;
    try discriminate.
  cbn [fst snd]. destruct b2; [| apply wp_ret; discriminate].
  apply wp_bind, wp_get_header. unfold wp_then; cbv beta iota.
  apply wp_ret. intros h d [= <- ->].
  destruct (Hs true d eq_refl) as [Hr Hc].
  rewrite Hh, Hr. auto.
Qed.

Lemma read_rows_v1_same_header file n i d w :
  wp (read_rows_v1 file n i d) (fun _ w' => header w' = header w) w.
Proof.
  unfold wp. destruct (read_rows_v1 file n i d w) as [r w'] eqn:E.
  cbn [fst snd]. eapply (keeps_header any_event); [| exact E].
  apply keeps_read_rows_v1; auto with keeps.
Qed.

(** Lines 106-139 when the data is asked for: the matrix that is returned
    has [num_rows] rows and [num_columns] columns. *)
Lemma load_v1_shape env file ft w fs pds nc :
  header w !! "file_size" = Some (PInt fs) ->
  header w !! "pos_data_start" = Some (PInt pds) ->
  header w !! "num_columns" = Some (PInt nc) ->
  wp (load_v1 env file ft true)
    (fun r _ => forall h d, r = Ok (Some (Some h, Some d)) ->
       h !! "num_rows" = Some (PInt (Z.of_nat (nrows d))) /\
       h !! "num_columns" = Some (PInt (Z.of_nat (ncols d)))) w.
Proof.
  intros Hfs Hpds Hnc. unfold load_v1.
  wp_run; try discriminate.
  all: apply wp_allocate_array_shape;
    [ intros t Hr Hc; unfold wp_then; cbv beta iota; wp_run;
      eapply wp_mono;
      [ apply wp_and; [apply read_rows_v1_same_header | apply read_rows_v1_shaped]
      | world_simpl; intros [d1|e|] w1 [Hh Hs]; unfold wp_then; cbv beta iota;
        try discriminate;
        apply wp_bind, wp_get_header; unfold wp_then; cbv beta iota;
        apply wp_ret; intros h d [= <- <-];
        destruct (Hs d1 eq_refl) as [Hr1 Hc1];
        cbn [nrows ncols np_full] in Hr1, Hc1;
        rewrite Hh, Hr1, Hc1, !Z2Nat.id by assumption;
        split; hlookup ]
    | intros t; unfold wp_then; cbv beta iota; wp_run; discriminate
    | intros e t; unfold wp_then; cbv beta iota; discriminate ].
Qed.

Lemma read_contents_shape_v1 env file w code fs pds nc :
  header w !! "version" = Some (PInt 1) ->
  header w !! "code" = Some (PStr code) ->
  header w !! "file_size" = Some (PInt fs) ->
  header w !! "pos_data_start" = Some (PInt pds) ->
  header w !! "num_columns" = Some (PInt nc) ->
  wp (read_contents env file true)
    (fun r _ => forall h d, r = Ok (Some h, Some d) ->
       h !! "num_rows" = Some (PInt (Z.of_nat (nrows d))) /\
       h !! "num_columns" = Some (PInt (Z.of_nat (ncols d)))) w.
Proof.
  intros Hver Hcode Hfs Hpds Hnc. unfold read_contents.
  apply wp_bind. eapply wp_determine_file_type; [exact Hcode |].
  unfold wp_then; cbv beta iota.
  set (ft := if String.eqb (str_lower code) "dat" then 1
             else if String.eqb (str_lower code) "src" then 0 else 2).
  clearbody ft.
  pose proof (load_v1_shape env file ft w fs pds nc Hfs Hpds Hnc) as H1.
  set (L1 := load_v1 env file ft true) in *.
  set (L23 := load_v23 env file ft true) in *.
  clearbody L1 L23.
  wp_run; tests; try (exfalso; lia).
  eapply wp_mono; [apply H1 |].
  intros [[[h1 d1]|]|e|] w1 Hr; unfold wp_then; cbv beta iota;
    try discriminate.
  apply wp_ret. intros h d [= -> ->]. now apply Hr.
Qed.

Lemma read_contents_shape_v23 env file w v code ns :
  header w !! "version" = Some (PInt v) -> v = 2 \/ v = 3 ->
  header w !! "code" = Some (PStr code) ->
  header w !! "num_streams" = Some (PInt ns) ->
  wp (read_contents env file true)
    (fun r _ => forall h d, r = Ok (Some h, Some d) ->
       h !! "total_samples" = Some (PInt (Z.of_nat (nrows d))) /\
       h !! "num_streams" = Some (PInt ns) /\
       Z.of_nat (ncols d)
       = ns + header_columns
                (if String.eqb (str_lower code) "dat" then 1
                 else if String.eqb (str_lower code) "src" then 0 else 2) h) w.
Proof.
  intros Hver Hv Hcode Hns. unfold read_contents.
  apply wp_bind. eapply wp_determine_file_type; [exact Hcode |].
  unfold wp_then; cbv beta iota.
  set (ft := if String.eqb (str_lower code) "dat" then 1
             else if String.eqb (str_lower code) "src" then 0 else 2).
  clearbody ft.
  pose proof (load_v23_shape env file ft w ns Hns) as H23.
  set (L1 := load_v1 env file ft true) in *.
  set (L23 := load_v23 env file ft true) in *.
  clearbody L1 L23.
  wp_run; tests; try (exfalso; lia).
  eapply wp_mono; [apply H23 |].
  intros [[[h1 d1]|]|e|] w1 Hr; unfold wp_then; cbv beta iota;
    try discriminate.
  apply wp_ret. intros h d [= -> ->]. now apply Hr.
Qed.

(** The matrix that a load returns has the shape that the header it
    returns announces: [num_rows] x [num_columns] for version 1;
    [total_samples] rows and a column for each stream after the sample
    identifier, the elapsed time and, where the file holds them, the source
    input time, for versions 2 and 3. *)
Theorem returned_matrix_shape env file h d :
  (run_load_data env file true).1 = Ok (Some h, Some d) ->
  (version_tag file = 1 ->
   h !! "num_rows" = Some (PInt (Z.of_nat (nrows d))) /\
   h !! "num_columns" = Some (PInt (Z.of_nat (ncols d)))) /\
  (version_tag file = 2 \/ version_tag file = 3 ->
   exists ns,
     h !! "total_samples" = Some (PInt (Z.of_nat (nrows d))) /\
     h !! "num_streams" = Some (PInt ns) /\
     Z.of_nat (ncols d) = ns + (if input_time_of h then 3 else 2)).
Proof.
  intros H.
  destruct (returned_header_agrees _ _ _ _ _ H) as (_ & w2' & E2' & Hk).
  destruct (load_returns_header_inv _ _ _ _ _ H)
    as (_ & w2 & w3 & E2 & E3 & _).
  assert (w2' = w2) as -> by congruence.
  destruct (header_shape_run _ _ E2)
    as [[Hfs Hver (code & Hcode & _ & Hout) H23 _ _ (nc & Hnc & _) (p & Hp)] _].
  split.
  - intros Hv. rewrite Hv in Hver.
    pose proof (read_contents_shape_v1 env file w2 code _ p nc
                  Hver Hcode Hfs Hp Hnc) as Hw.
    unfold wp in Hw. rewrite E3 in Hw. now apply Hw.
  - intros Hv.
    destruct (H23 Hv) as (ns & dts & spp & e1 & e2 & Hns & _).
    pose proof (read_contents_shape_v23 env file w2 _ code ns
                  Hver Hv Hcode Hns) as Hw.
    unfold wp in Hw. rewrite E3 in Hw. cbn [fst snd] in Hw.
    destruct (Hw h d eq_refl) as (Hts & Hn & Hc).
    exists ns. split; [exact Hts |]. split; [exact Hn |].
    rewrite Hc. f_equal. unfold header_columns.
    destruct (String.eqb (str_lower code) "dat") eqn:Ed.
    + apply String.eqb_eq in Ed. cbn [andb Z.eqb].
      unfold input_time_of. rewrite Hk by not_derived.
      rewrite Hout; [reflexivity |].
      intros [Hs _]. rewrite Ed in Hs. discriminate Hs.
    + destruct (String.eqb (str_lower code) "src") eqn:Es;
        [reflexivity |].
      apply String.eqb_neq in Es. cbn [andb Z.eqb].
      unfold input_time_of. rewrite Hk by not_derived.
      rewrite Hout; [reflexivity |]. tauto.
Qed.

Lemma returned_matrix_shape_witness :
  exists h d,
    (run_load_data env_no_memory file_short_first_chunk true).1
      = Ok (Some h, Some d) /\
    (version_tag file_short_first_chunk = 1 ->
     h !! "num_rows" = Some (PInt (Z.of_nat (nrows d))) /\
     h !! "num_columns" = Some (PInt (Z.of_nat (ncols d)))) /\
    (version_tag file_short_first_chunk = 2 \/
     version_tag file_short_first_chunk = 3 ->
     exists ns,
       h !! "total_samples" = Some (PInt (Z.of_nat (nrows d))) /\
       h !! "num_streams" = Some (PInt ns) /\
       Z.of_nat (ncols d) = ns + (if input_time_of h then 3 else 2)).
Proof.
  assert (Hr : returns_both
                 (run_load_data env_no_memory file_short_first_chunk true)
               = true) by (vm_compute; reflexivity).
  unfold returns_both in Hr.
  destruct (run_load_data env_no_memory file_short_first_chunk true).1
    as [[[h|] [d|]]|e|] eqn:E;
    [ | discriminate Hr | discriminate Hr | discriminate Hr | discriminate Hr
    | discriminate Hr ].
  exists h, d. split; [reflexivity |].
  exact (returned_matrix_shape env_no_memory file_short_first_chunk h d E).
Defined.

(** ** What is logged *)

Lemma no_error_snoc t e : no_error t -> e <> EvLog LError -> no_error (t ++ [e]).
Proof.
  unfold no_error. intros Ht He [H|[H|[]]]%in_app_iff; [now apply Ht | now apply He].
Qed.

Lemma wp_logging_warning_quiet (Q : result unit -> world -> Prop) w :
  no_error (trace w) ->
  (forall w', no_error (trace w') -> Q (Ok tt) w') ->
  wp logging_warning Q w.
Proof.
  intros Ht HQ. unfold logging_warning. apply wp_emit, HQ.
  apply no_error_snoc; [exact Ht | discriminate].
Qed.

Lemma wp_setitem_block_quiet d r0 r1 c0 c1 src
    (Q : result ndarray -> world -> Prop) w :
  no_error (trace w) ->
  (forall d' w', no_error (trace w') -> Q (Ok d') w') ->
  (forall e, Q (Raise e) w) ->
  wp (setitem_block d r0 r1 c0 c1 src) Q w.
Proof.
  intros Ht HQ HR. unfold setitem_block.
  destruct (slice_clip r0 r1 (nrows d)) as [ra rb].
  destruct (slice_clip c0 c1 (ncols d)) as [ca cb].
  destruct (_ && _); [| apply HR].
  unfold wp, bind, emit, ret. cbn. apply HQ. cbn.
  apply no_error_snoc; [exact Ht | discriminate].
Qed.

Lemma wp_setitem_col_quiet d r0 r1 c v (Q : result ndarray -> world -> Prop) w :
  no_error (trace w) ->
  (forall d' w', no_error (trace w') -> Q (Ok d') w') ->
  (forall e, Q (Raise e) w) ->
  wp (setitem_col d r0 r1 c v) Q w.
Proof.
  intros Ht HQ HR. unfold setitem_col.
  destruct (index_ok _ _); [now apply wp_setitem_block_quiet | apply HR].
Qed.

Lemma wp_setitem_cell_quiet d r c v (Q : result ndarray -> world -> Prop) w :
  no_error (trace w) ->
  (forall d' w', no_error (trace w') -> Q (Ok d') w') ->
  (forall e, Q (Raise e) w) ->
  wp (setitem_cell d r c v) Q w.
Proof.
  intros Ht HQ HR. unfold setitem_cell.
  destruct (_ && _); [now apply wp_setitem_block_quiet | apply HR].
Qed.

Lemma wp_setitem_row_quiet d r c0 c1 vs (Q : result ndarray -> world -> Prop) w :
  no_error (trace w) ->
  (forall d' w', no_error (trace w') -> Q (Ok d') w') ->
  (forall e, Q (Raise e) w) ->
  wp (setitem_row d r c0 c1 vs) Q w.
Proof.
  intros Ht HQ HR. unfold setitem_row.
  destruct (index_ok _ _); [now apply wp_setitem_block_quiet | apply HR].
Qed.

(** Without [check_mem] the allocator logs nothing: where [np.empty]
    raises, the exception of the [except] clause comes before its log
    record. *)
Lemma wp_allocate_array_quiet env dims v
    (Q : result (option ndarray) -> world -> Prop) w :
  no_error (trace w) ->
  (forall r w', no_error (trace w') -> Q r w') ->
  wp (_allocate_array env dims v false) Q w.
Proof.
  intros Ht HQ. destruct w as [cu h t]. destruct dims as [r c].
  unfold wp, _allocate_array, try_except, bind, np_empty, alloc_handler,
    virtual_memory, np_fill, local_get, logging_error, emit, ret, raise.
  cbn in *.
  destruct ((r <? 0) || (c <? 0)); cbn; [now apply HQ |].
  destruct (np_empty_ok env _); cbn; [| now apply HQ].
  apply HQ. cbn.
  apply no_error_snoc; [apply no_error_snoc |]; [exact Ht | discriminate ..].
Qed.

(** Symbolic execution that keeps track of the absence of error records. *)
Ltac quiet_walk :=
  repeat (lazymatch goal with
          | |- wp (bind _ _) _ _ => apply wp_bind
          | |- wp_then _ _ _ _ => unfold wp_then at 1; cbv beta iota
          | |- wp (if true then _ else _) _ _ => cbv iota
          | |- wp (if false then _ else _) _ _ => cbv iota
          | |- wp (if negb _ then _ else _) _ _ => progress cbn [negb]
          | |- wp (if ?b then _ else _) _ _ => destruct b
          | |- wp (match ?x with _ => _ end) _ _ => destruct x
          | |- wp (let _ := _ in _) _ _ => cbv zeta
          | |- wp (ret _) _ _ => apply wp_ret
          | |- wp (raise _) _ _ => apply wp_raise
          | |- wp diverge _ _ => apply wp_diverge
          | |- wp (hset _ _) _ _ => apply wp_hset
          | |- wp (set_cursor _) _ _ => apply wp_set_cursor
          | |- wp (file_read _ _) _ _ => apply wp_file_read_any; intros ? ? _
          | |- wp (np_fromfile _ _) _ _ => apply wp_np_fromfile_any; intros ? ?
          | |- wp file_tell _ _ => apply wp_file_tell
          | |- wp get_header _ _ => apply wp_get_header
          | |- wp (hmem _) _ _ => apply wp_hmem
          | |- wp logging_warning _ _ =>
              apply wp_logging_warning_quiet; [solve [auto] | intros ? ?]
          | |- wp logging_error _ _ => fail
          | |- wp (file_seek _ _) _ _ => unfold file_seek
          | |- wp (the_data _) _ _ => unfold the_data
          | |- wp (setitem_block _ _ _ _ _ _) _ _ =>
              apply wp_setitem_block_quiet; [solve [auto] | intros ? ? ? | intros ?]
          | |- wp (setitem_col _ _ _ _ _) _ _ =>
              apply wp_setitem_col_quiet; [solve [auto] | intros ? ? ? | intros ?]
          | |- wp (setitem_cell _ _ _ _) _ _ =>
              apply wp_setitem_cell_quiet; [solve [auto] | intros ? ? ? | intros ?]
          | |- wp (setitem_row _ _ _ _ _) _ _ =>
              apply wp_setitem_row_quiet; [solve [auto] | intros ? ? ? | intros ?]
          | |- wp (_allocate_array _ _ _ false) _ _ =>
              apply wp_allocate_array_quiet; [solve [auto] | intros [?|?|] ? ?]
          | |- wp (chunk_loop _ _ _ _ _ _) _ _ => fail
          | |- wp (package_loop _ _ _ _ _ _ _ _ _) _ _ => fail
          | |- wp (read_package _ _ _ _ _ _ _) _ _ => fail
          | |- wp (read_chunked_package _ _ _ _ _ _ _) _ _ => fail
          | |- wp (read_flat_package _ _ _ _ _ _ _ _ _) _ _ => fail
          | |- wp (read_rows_v1 _ _ _ _) _ _ => fail
          | |- wp (__read_packages _ _ _ _) _ _ => fail
          | |- wp _ _ _ => apply wp_pure; [solve [auto with pure] | intros [?|?|] _]
          end; world_simpl).

Lemma chunk_loop_quiet file rd hc fuel ri l w :
  no_error (trace w) ->
  wp (chunk_loop file rd hc fuel ri l) (fun _ w' => no_error (trace w')) w.
Proof.
  revert ri l w.
  induction fuel as [|fuel IH]; intros ri [[si ns] d] w Ht; destruct rd;
    simpl in *.
  all: quiet_walk; try (apply IH; world_simpl); auto.
Qed.

Lemma read_chunked_package_quiet file rd hc fuel l sid el w :
  no_error (trace w) ->
  wp (read_chunked_package file rd hc fuel l sid el)
    (fun _ w' => no_error (trace w')) w.
Proof.
  intros Ht. unfold read_chunked_package. apply wp_bind.
  eapply wp_mono; [apply chunk_loop_quiet; exact Ht |].
  intros [[[[si ns] d]|[b d]]|e|] wn Hr; unfold wp_then; cbv beta iota;
    destruct rd.
  all: quiet_walk; auto.
Qed.

Lemma read_flat_package_quiet file ft rd incl hc l sid el t w :
  no_error (trace w) ->
  wp (read_flat_package file ft rd incl hc l sid el t)
    (fun _ w' => no_error (trace w')) w.
Proof.
  intros Ht. unfold read_flat_package. destruct rd.
  all: quiet_walk; auto.
Qed.

Lemma read_package_quiet file ft rd incl hc fuel l w :
  no_error (trace w) ->
  wp (read_package file ft rd incl hc fuel l)
    (fun _ w' => no_error (trace w')) w.
Proof.
  intros Ht. unfold read_package, read_package_header. destruct rd.
  all: quiet_walk;
    first [ apply read_chunked_package_quiet; assumption
          | apply read_flat_package_quiet; assumption
          | assumption ].
Qed.

Lemma package_loop_quiet file ft rd incl phs hc fuel cfuel l w :
  no_error (trace w) ->
  wp (package_loop file ft rd incl phs hc fuel cfuel l)
    (fun _ w' => no_error (trace w')) w.
Proof.
  revert l w. induction fuel as [|fuel IH]; intros l w Ht;
    cbn [package_loop].
  - quiet_walk; auto.
  - quiet_walk; auto.
    eapply wp_mono; [apply read_package_quiet; exact Ht |].
    intros [[l'|[b d]]|e|] wn Hr; unfold wp_then; cbv beta iota; auto.
Qed.

(** On a source or pipeline file neither pass logs an error. *)
Lemma read_packages_quiet env file ft rd w :
  ft = 0 \/ ft = 1 ->
  no_error (trace w) ->
  wp (__read_packages env file ft rd) (fun _ w' => no_error (trace w')) w.
Proof.
  intros [-> | ->] Ht; unfold __read_packages.
  all: change (0 =? 0) with true; change (1 =? 0) with false;
    change (1 =? 1) with true; cbv iota.
  all: destruct rd; quiet_walk; auto.
  all: apply package_loop_quiet; assumption.
Qed.

Lemma read_rows_v1_quiet file n i d w :
  no_error (trace w) ->
  wp (read_rows_v1 file n i d) (fun _ w' => no_error (trace w')) w.
Proof.
  revert i d w. induction n as [|n IH]; intros i d w Ht; simpl.
  - apply wp_ret. exact Ht.
  - quiet_walk; auto.
Qed.

Lemma load_v1_quiet env file ft rd w :
  no_error (trace w) ->
  wp (load_v1 env file ft rd) (fun _ w' => no_error (trace w')) w.
Proof.
  intros Ht. unfold load_v1. destruct rd.
  all: quiet_walk; auto.
  all: eapply wp_mono; [apply read_rows_v1_quiet; assumption |].
  all: intros [d1|e|] w1 Hr; unfold wp_then; cbv beta iota; auto.
  all: quiet_walk; auto.
Qed.

Lemma load_v23_quiet env file ft rd w :
  ft = 0 \/ ft = 1 ->
  no_error (trace w) ->
  wp (load_v23 env file ft rd) (fun _ w' => no_error (trace w')) w.
Proof.
  intros Hft Ht. unfold load_v23. destruct rd.
  all: quiet_walk; auto.
  all: eapply wp_mono; [apply read_packages_quiet; [exact Hft | assumption] |].
  all: intros [[b1 d1]|e|] w1 Hr; unfold wp_then; cbv beta iota; auto.
  all: cbn [fst]; destruct b1; quiet_walk; auto.
  eapply wp_mono; [apply read_packages_quiet; [exact Hft | assumption] |].
  intros [[b2 d2]|e|] w2 Hr2; unfold wp_then; cbv beta iota; auto.
  cbn [fst]; destruct b2; quiet_walk; auto.
Qed.

Lemma read_contents_quiet env file rd w v code :
  header w !! "version" = Some (PInt v) ->
  header w !! "code" = Some (PStr code) ->
  v = 1 \/ ((v = 2 \/ v = 3) /\
            (str_lower code = "src" \/ str_lower code = "dat")) ->
  no_error (trace w) ->
  wp (read_contents env file rd) (fun _ w' => no_error (trace w')) w.
Proof.
  intros Hver Hcode Hcase Ht. unfold read_contents.
  apply wp_bind. eapply wp_determine_file_type; [exact Hcode |].
  unfold wp_then; cbv beta iota.
  set (ft := if String.eqb (str_lower code) "dat" then 1
             else if String.eqb (str_lower code) "src" then 0 else 2).
  assert (Hft : (v = 2 \/ v = 3) -> ft = 0 \/ ft = 1).
  { intros Hv. subst ft.
    destruct Hcase as [->|[_ [Hs|Hd]]]; [lia | |].
    - left. rewrite Hs. reflexivity.
    - right. rewrite Hd. reflexivity. }
  clearbody ft.
  pose proof (fun w => load_v1_quiet env file ft rd w) as H1.
  pose proof (fun w => load_v23_quiet env file ft rd w) as H23.
  set (L1 := load_v1 env file ft rd) in *.
  set (L23 := load_v23 env file ft rd) in *.
  clearbody L1 L23.
  wp_run; tests; try (exfalso; lia).
  - eapply wp_mono; [apply H1; exact Ht |].
    intros [[x|]|e|] w1 Hr; unfold wp_then; cbv beta iota; auto.
  - eapply wp_mono; [apply H23; auto |].
    intros [[x|]|e|] w1 Hr; unfold wp_then; cbv beta iota; auto.
Qed.

(** What [read_contents] returns holds a header. *)
Lemma read_contents_some env file rd w o d w' :
  read_contents env file rd w = (Ok (o, d), w') -> o <> None.
Proof.
  intros E.
  refine (wp_run _ (fun r _ => forall o d, r = Ok (o, d) -> o <> None)
            _ _ _ _ E o d eq_refl).
  unfold read_contents, load_v1, load_v23.
  wp_blind; intros; congruence.
Qed.

(** A load that returns (None, None) has logged an error as its last
    record: the body of the [try] statement never returns that pair, so it
    comes from one of the [except] clauses. *)
Theorem failure_is_logged env file rd :
  (run_load_data env file rd).1 = Ok (None, None) ->
  exists t, trace (run_load_data env file rd).2 = t ++ [EvLog LError].
Proof.
  unfold run_load_data, load_data, try_except. intros H.
  destruct (load_data_body env file rd start) as [[[o d]|e|] w] eqn:E.
  - exfalso. cbn [fst] in H. injection H as -> ->.
    destruct (decide (known_version file)) as [Hv|Hv].
    + rewrite (load_data_body_known _ _ _ Hv) in E.
      apply bind_ok_inv in E as ([] & w2 & E2 & E3).
      now apply (read_contents_some _ _ _ _ _ _ _ E3).
    + rewrite (load_data_body_unknown _ _ _ Hv) in E. discriminate E.
  - exists (trace w). reflexivity.
  - discriminate H.
Qed.

Lemma failure_is_logged_witness :
  (run_load_data env_no_memory file_no_streams false).1 = Ok (None, None) /\
  last_event (run_load_data env_no_memory file_no_streams false)
  = Some (EvLog LError).
Proof.
  assert (H : (run_load_data env_no_memory file_no_streams false).1
              = Ok (None, None)) by (vm_compute; reflexivity).
  split; [exact H |].
  destruct (failure_is_logged env_no_memory file_no_streams false H) as [t Ht].
  unfold last_event. rewrite Ht. apply last_snoc.
Defined.

(** A load that returns the header of a version 1 file, or of a source or
    pipeline file of version 2 or 3, has logged no error: of a file that
    is cut off it logs warnings only. *)
Theorem header_returned_without_error env file rd h d code :
  (run_load_data env file rd).1 = Ok (Some h, d) ->
  h !! "code" = Some (PStr code) ->
  version_tag file = 1 \/ str_lower code = "src" \/ str_lower code = "dat" ->
  no_error (trace (run_load_data env file rd).2).
Proof.
  intros H Hc Hcase.
  destruct (returned_header_agrees _ _ _ _ _ H) as (_ & w2' & E2' & Hk).
  destruct (load_returns_header_inv _ _ _ _ _ H)
    as (Hkv & w2 & w3 & E2 & E3 & _).
  assert (w2' = w2) as -> by congruence.
  destruct (header_shape_run _ _ E2) as [[_ Hver _ _ _ _ _ _] Ht].
  assert (Hcode : header w2 !! "code" = Some (PStr code))
    by (rewrite <- Hk by not_derived; exact Hc).
  assert (Hrun : run_load_data env file rd = (Ok (Some h, d), w3)).
  { unfold run_load_data. apply load_data_ok.
    now rewrite (load_data_body_known _ _ _ Hkv), (bind_ok _ _ _ _ _ E2). }
  rewrite Hrun. cbn [snd].
  assert (Hq : no_error (trace w2)) by (rewrite Ht; intros []).
  assert (Hcase' : version_tag file = 1 \/
                   ((version_tag file = 2 \/ version_tag file = 3) /\
                    (str_lower code = "src" \/ str_lower code = "dat"))).
  { unfold known_version in Hkv. tauto. }
  pose proof (read_contents_quiet env file rd w2 _ code Hver Hcode Hcase' Hq)
    as Hw.
  unfold wp in Hw. now rewrite E3 in Hw.
Qed.

Lemma header_returned_without_error_witness :
  exists h d,
    (run_load_data env_no_memory file_truncated_chunk false).1
      = Ok (Some h, d) /\
    h !! "code" = Some (PStr "dat") /\
    no_error (trace (run_load_data env_no_memory file_truncated_chunk false).2) /\
    last_event (run_load_data env_no_memory file_truncated_chunk false)
    = Some (EvLog LWarning).
Proof.
  assert (Hc : header_field
                 (run_load_data env_no_memory file_truncated_chunk false) "code"
               = Some (PStr "dat")) by (vm_compute; reflexivity).
  assert (Hl : last_event (run_load_data env_no_memory file_truncated_chunk false)
               = Some (EvLog LWarning)) by (vm_compute; reflexivity).
  unfold header_field in Hc.
  destruct (run_load_data env_no_memory file_truncated_chunk false).1
    as [[[h|] d]|e|] eqn:E;
    [| discriminate Hc | discriminate Hc | discriminate Hc].
  exists h, d. split; [reflexivity |]. split; [exact Hc |].
  split; [| exact Hl].
  exact (header_returned_without_error env_no_memory file_truncated_chunk false
           h d "dat" E Hc (or_intror (or_intror eq_refl))).
Defined.
